(** * Typely: request handlers of the blogging platform, embedded in Rocq

    The development follows the three source files of the repository:
    - [middleware/admin.js]: the [isAdmin] gate;
    - [index.js]: the public routes, [validateId], [checkAuth], [asyncHandler];
    - [adminRoutes.js]: the administrative console.

    Handlers are written in a small state-and-exception monad over the
    persistent store, the session of the requesting browser and the list of
    statements sent to the connection pool. *)

From Stdlib Require Import ZArith String Ascii List Bool Lia Permutation Sorted.
Import ListNotations.
Open Scope string_scope.
Open Scope Z_scope.

(** ** The fragment of JavaScript the handlers rely on *)

Module Js.

(** A Number that is [NaN], an infinity, or integral.  These are the only
    Numbers [parseInt] produces; [-0] and [+0] are both [Int 0] ([ToString]
    and [Number.isInteger] do not tell them apart). *)
Inductive number : Type :=
| NaN
| Infinity (negative : bool)
| Int (z : Z).

Definition number_eqb (a b : number) : bool :=
  match a, b with
  | Infinity x, Infinity y => Bool.eqb x y
  | Int x, Int y => Z.eqb x y
  | _, _ => false   (* NaN is not equal to itself *)
  end.

(** [Number.isInteger]. *)
Definition Number_isInteger (n : number) : bool :=
  match n with
  | Int _ => true
  | _ => false
  end.

(** The Number value for a mathematical integer: IEEE 754 binary64,
    round to nearest, ties to even; 2^1024 and above become an infinity. *)
Definition to_double (z : Z) : number :=
  let a := Z.abs z in
  if a <? 2 ^ 53 then Int z
  else
    let e := Z.log2 a - 52 in
    let q := a / 2 ^ e in
    let r := a mod 2 ^ e in
    let half := 2 ^ (e - 1) in
    let q' := if (half <? r) || ((half =? r) && Z.odd q) then q + 1 else q in
    let v := q' * 2 ^ e in
    if 2 ^ 1024 <=? v then Infinity (z <? 0) else Int (Z.sgn z * v).

(** StrWhiteSpaceChar among the code units below 256: TAB, LF, VT, FF, CR,
    SP and NBSP.  A [string] is read as a sequence of such code units. *)
Definition is_white_space (c : ascii) : bool :=
  let n := N_of_ascii c in
  ((9 <=? n) && (n <=? 13) || (n =? 32) || (n =? 160))%N.

Fixpoint trim_start (s : string) : string :=
  match s with
  | String c r => if is_white_space c then trim_start r else s
  | EmptyString => s
  end.

(** The value of a digit in the largest radix, 36. *)
Definition digit_value (c : ascii) : option Z :=
  let n := Z.of_N (N_of_ascii c) in
  if (48 <=? n) && (n <=? 57) then Some (n - 48)
  else if (97 <=? n) && (n <=? 122) then Some (n - 87)
  else if (65 <=? n) && (n <=? 90) then Some (n - 55)
  else None.

Definition radix_digit (R : Z) (c : ascii) : option Z :=
  match digit_value c with
  | Some d => if d <? R then Some d else None
  | None => None
  end.

(** The integer written by the longest prefix of radix-[R] digits of [s],
    continuing from the digits already read; [None] while no digit was read. *)
Fixpoint digits_prefix (R : Z) (s : string) (acc : option Z) : option Z :=
  match s with
  | String c r =>
      match radix_digit R c with
      | Some d =>
          digits_prefix R r
            (Some match acc with Some a => a * R + d | None => d end)
      | None => acc
      end
  | EmptyString => acc
  end.

(** The radix, and the string the digits are read from: [0x] or [0X]
    selects radix 16 and is dropped. *)
Definition strip_prefix (S1 : string) : Z * string :=
  match S1 with
  | String c0 (String c1 r) =>
      if (c0 =? "0")%char && ((c1 =? "x")%char || (c1 =? "X")%char)
      then (16, r) else (10, S1)
  | _ => (10, S1)
  end.

(** The Number for the digits after the sign; [NaN] when there are none. *)
Definition signed_digits (sign : Z) (S1 : string) : number :=
  let '(R, S2) := strip_prefix S1 in
  match digits_prefix R S2 None with
  | None => NaN
  | Some mathInt => to_double (sign * mathInt)
  end.

(** [parseInt(string)] with no radix argument: leading white space is
    skipped, a sign is read, and the longest prefix of digits is the
    value.  (ECMAScript lets an implementation round a decimal numeral of
    more than 20 significant digits less precisely; the digits are taken
    exactly here.) *)
Definition parseInt (inputString : string) : number :=
  let S0 := trim_start inputString in
  match S0 with
  | String c r =>
      if (c =? "-")%char then signed_digits (-1) r
      else if (c =? "+")%char then signed_digits 1 r
      else signed_digits 1 S0
  | EmptyString => signed_digits 1 S0
  end.

(** *** Number::toString, radix 10 *)

Definition digit_char (d : Z) : ascii := ascii_of_N (Z.to_N (48 + d)).

(** Decimal digits of a non-negative integer, most significant first. *)
Fixpoint decimal_digits (fuel : nat) (n : Z) (acc : string) : string :=
  let acc' := String (digit_char (n mod 10)) acc in
  match fuel with
  | O => acc'
  | S f => if n <? 10 then acc' else decimal_digits f (n / 10) acc'
  end.

(** The decimal numeral of a non-negative integer; there are no more
    digits than bits. *)
Definition decimal (n : Z) : string :=
  decimal_digits (Z.to_nat (Z.log2 n)) n "".

(** The number of decimal digits. *)
Definition digit_count (n : Z) : Z := Z.of_nat (String.length (decimal n)).

(** [n] zeros. *)
Fixpoint zeros (n : nat) : string :=
  match n with
  | O => ""
  | S m => String "0" (zeros m)
  end.

(** The candidates [(n, s)] with [k] significant digits for a positive
    integral Number [x]: [s] has [k] digits and [s * 10^(n-k)] has the
    Number value [x].  Only the two multiples of [10^(n-k)] next to [x] can
    be the closest one. *)
Definition candidates (x k : Z) : list (Z * Z) :=
  let n0 := digit_count x in
  flat_map
    (fun n =>
       let p := 10 ^ (n - k) in
       filter
         (fun ns : Z * Z =>
            let s := snd ns in
            (10 ^ (k - 1) <=? s) && (s <? 10 ^ k)
            && number_eqb (to_double (s * p)) (Int x))
         [(n, x / p); (n, x / p + 1)])
    [n0; n0 + 1].

(** Of two candidates, the one closer to [x]; on a tie, the even [s]. *)
Definition closer (x k : Z) (a b : Z * Z) : Z * Z :=
  let dist (ns : Z * Z) := Z.abs (snd ns * 10 ^ (fst ns - k) - x) in
  if dist a <? dist b then a
  else if dist b <? dist a then b
  else if Z.even (snd a) then a else b.

(** [n] and the digits of [s] for the least [k], from [k] upwards.
    Seventeen digits identify any Number; for a [z] that is not a Number
    value the search ends with the first seventeen digits of [z]. *)
Fixpoint shortest (fuel : nat) (x k : Z) : Z * string :=
  match candidates x k with
  | c :: cs => let '(n, s) := fold_left (closer x k) cs c in (n, decimal s)
  | [] =>
      match fuel with
      | S f => shortest f x (k + 1)
      | O => (digit_count x, substring 0 17 (decimal x))
      end
  end.

(** Number::toString of a positive integral Number: the digits of [s]
    followed by [n-k] zeros up to 21 digits, exponential notation above. *)
Definition ToString_positive (x : Z) : string :=
  let '(n, digits) := shortest 16 x 1 in
  let k := Z.of_nat (String.length digits) in
  if n <=? 21 then digits ++ zeros (Z.to_nat (n - k))
  else
    match digits with
    | String d EmptyString => String d ("e+" ++ decimal (n - 1))
    | String d rest => String d ("." ++ rest ++ "e+" ++ decimal (n - 1))
    | EmptyString => "0"
    end.

Definition ToString (m : number) : string :=
  match m with
  | NaN => "NaN"
  | Infinity false => "Infinity"
  | Infinity true => "-Infinity"
  | Int z =>
      if z =? 0 then "0"
      else if z <? 0 then String "-" (ToString_positive (- z))
      else ToString_positive z
  end.

(** [!v] for a value that is [undefined] or a string: the empty string and
    [undefined] are falsy. *)
Definition falsy (v : option string) : bool :=
  match v with
  | None => true
  | Some s => String.eqb s ""
  end.

(** A string of decimal digits only. *)
Fixpoint all_decimal (s : string) : bool :=
  match s with
  | String c r =>
      match radix_digit 10 c with Some _ => all_decimal r | None => false end
  | EmptyString => true
  end.

End Js.

Import Js.

(** ** Rows of the three tables, and what travels between the layers *)

(** [users(id, username unique, email unique, password, role default 'user')] *)
Record User : Type := mkUser {
  u_id : Z;
  u_username : string;
  u_email : string;
  u_password : string;
  u_role : string
}.

(** [blogs(id, user_id fk, title, content, status, created_at default now)];
    [None] is SQL NULL. *)
Record Blog : Type := mkBlog {
  b_id : Z;
  b_user_id : Z;
  b_title : option string;
  b_content : option string;
  b_status : option string;
  b_created_at : Z
}.

(** [contact_messages(id, name, email, message, created_at default now)] *)
Record ContactMessage : Type := mkMessage {
  m_id : Z;
  m_name : string;
  m_email : string;
  m_message : string;
  m_created_at : Z
}.

Record database : Type := mkDatabase {
  users : list User;
  blogs : list Blog;
  contact_messages : list ContactMessage;
  next_user_id : Z;
  next_blog_id : Z;
  next_message_id : Z;
  now : Z
}.

(** A parameter compared with an integer column: the raw path segment
    ([req.params.id], a string) or a Number ([parseInt]'s result, or an id
    read from a row). *)
Inductive idparam : Type :=
| PStr (s : string)
| PNum (n : number).

(** The statements of [index.js] and [adminRoutes.js], with their
    parameters in the order of [$1], [$2], ...  A text parameter is a field
    of [req.body]: [None] is [undefined], which the driver sends as NULL. *)
Inductive statement : Type :=
| SelectBlogsJoinUsers
    (* SELECT blogs.*, users.username FROM blogs JOIN users
       ON blogs.user_id = users.id ORDER BY [blogs.]created_at DESC *)
| SelectUserIdsByEmailOrUsername (email username : option string)
    (* SELECT id FROM users WHERE email=$1 OR username=$2 *)
| InsertUser (username email : option string) (password : string)
    (* INSERT INTO users (username, email, password) VALUES ($1, $2, $3)
       RETURNING id, username *)
| SelectUsersByEmail (email : option string)
    (* SELECT * FROM users WHERE email=$1 *)
| UpdateUserPasswordByEmail (password : string) (email : option string)
    (* UPDATE users SET password=$1 WHERE email=$2 *)
| InsertContactMessage (name email message : option string)
    (* INSERT INTO contact_messages (name, email, message) VALUES ($1, $2, $3) *)
| SelectBlogsByUser (user_id : idparam)
    (* SELECT * FROM blogs WHERE user_id=$1 ORDER BY created_at DESC *)
| InsertBlog (user_id : idparam) (title content : option string)
    (* INSERT INTO blogs (user_id, title, content) VALUES ($1, $2, $3) *)
| SelectBlogJoinUserById (id : idparam)
    (* SELECT blogs.*, users.username FROM blogs JOIN users
       ON blogs.user_id = users.id WHERE blogs.id=$1 *)
| SelectBlogByIdAndUser (id user_id : idparam)
    (* SELECT * FROM blogs WHERE id=$1 AND user_id=$2 *)
| UpdateBlogByIdAndUser (title content : option string) (id user_id : idparam)
    (* UPDATE blogs SET title=$1, content=$2 WHERE id=$3 AND user_id=$4 *)
| DeleteBlogByIdAndUser (id user_id : idparam)
    (* DELETE FROM blogs WHERE id=$1 AND user_id=$2 *)
| SelectAdminsByEmail (email : option string)
    (* SELECT * FROM users WHERE email=$1 AND role='admin' *)
| SelectUsersOrderByIdDesc
    (* SELECT * FROM users ORDER BY id DESC *)
| SelectContactMessages
    (* SELECT * FROM contact_messages ORDER BY created_at DESC *)
| SelectUserById (id : idparam)
    (* SELECT * FROM users WHERE id=$1 *)
| DeleteUserById (id : idparam)
    (* DELETE FROM users WHERE id=$1 *)
| UpdateUserRoleById (role : string) (id : idparam)
    (* UPDATE users SET role='admin' WHERE id=$1, and the same with 'user' *)
| UpdateUserPasswordById (password : string) (id : idparam)
    (* UPDATE users SET password=$1 WHERE id=$2 *)
| DeleteBlogById (id : idparam)
    (* DELETE FROM blogs WHERE id=$1 *)
| UpdateBlogStatusById (status : string) (id : idparam)
    (* UPDATE blogs SET status='approved' WHERE id=$1 *)
| SelectBlogById (id : idparam)
    (* SELECT * FROM blogs WHERE id=$1 *)
| UpdateBlogById (title content : option string) (id : idparam)
    (* UPDATE blogs SET title=$1, content=$2 WHERE id=$3 *).

(** [result.rows] of a statement. *)
Inductive rows : Type :=
| NoRows
| UserRows (l : list User)
| BlogRows (l : list Blog)
| JoinedRows (l : list (Blog * string))
| MessageRows (l : list ContactMessage)
| IdRows (l : list Z)
| IdNameRows (l : list (Z * string)).

Definition users_of (r : rows) : list User :=
  match r with UserRows l => l | _ => [] end.
Definition blogs_of (r : rows) : list Blog :=
  match r with BlogRows l => l | _ => [] end.
Definition joined_of (r : rows) : list (Blog * string) :=
  match r with JoinedRows l => l | _ => [] end.
Definition messages_of (r : rows) : list ContactMessage :=
  match r with MessageRows l => l | _ => [] end.
Definition ids_of (r : rows) : list Z :=
  match r with IdRows l => l | _ => [] end.
Definition id_names_of (r : rows) : list (Z * string) :=
  match r with IdNameRows l => l | _ => [] end.
Definition row_count (r : rows) : nat :=
  match r with
  | NoRows => 0
  | UserRows l => length l
  | BlogRows l => length l
  | JoinedRows l => length l
  | MessageRows l => length l
  | IdRows l => length l
  | IdNameRows l => length l
  end.

(** The result of an awaited call: a value, or a thrown [Error] with its
    [message]. *)
Inductive outcome (A : Type) : Type :=
| Ok (a : A)
| Throw (message : string).
Arguments Ok {A} a.
Arguments Throw {A} message.

(** [ORDER BY key DESC]; rows with equal keys keep their table order. *)
Fixpoint insert_desc {A : Type} (key : A -> Z) (x : A) (l : list A) : list A :=
  match l with
  | [] => [x]
  | y :: l' => if key x <? key y then y :: insert_desc key x l' else x :: l
  end.

Definition order_by_desc {A : Type} (key : A -> Z) (l : list A) : list A :=
  fold_right (insert_desc key) [] l.

(** [blogs JOIN users ON blogs.user_id = users.id], selecting
    [blogs.*, users.username]. *)
Definition join_users (us : list User) (bs : list Blog) : list (Blog * string) :=
  flat_map
    (fun b =>
       map (fun u => (b, u_username u))
           (filter (fun u => b_user_id b =? u_id u) us))
    bs.

Definition text_eqb (column : string) (p : option string) : bool :=
  match p with
  | Some s => String.eqb column s
  | None => false   (* a comparison with NULL selects nothing *)
  end.

(** ** The persistence layer *)

Section Persistence.

(** The conversion of a statement parameter to the type of an integer
    column, as driver and server perform it together; [None] when the server
    refuses the value (a malformed numeral, a value out of range). *)
Variable pg_integer : idparam -> option Z.

Definition invalid_integer : string := "invalid input syntax for type integer".
Definition not_null : string := "null value violates not-null constraint".
Definition duplicate_key : string := "duplicate key value violates unique constraint".
Definition foreign_key : string := "violates foreign key constraint".

Definition with_users (d : database) (us : list User) : database :=
  mkDatabase us (blogs d) (contact_messages d)
    (next_user_id d) (next_blog_id d) (next_message_id d) (now d).

Definition with_blogs (d : database) (bs : list Blog) : database :=
  mkDatabase (users d) bs (contact_messages d)
    (next_user_id d) (next_blog_id d) (next_message_id d) (now d).

(** One integer parameter, then the statement. *)
Definition with_id {A : Type} (p : idparam) (k : Z -> outcome A) : outcome A :=
  match pg_integer p with
  | Some i => k i
  | None => Throw invalid_integer
  end.

(** Modelled from the spec: the schema of the three tables and the server
    that runs the statements are not part of the sources; the spec gives
    [users(id, username unique, email unique, password, role default 'user')],
    [blogs(id, user_id fk, title, content, status, created_at default now)]
    and [contact_messages(id, name, email, message, created_at default now)].
    [exec] is what the store does with a statement: the rows it returns and
    the store afterwards, or the error it raises (the store is then
    unchanged).  Ids come from a sequence per table, [created_at] from the
    clock [now], which moves on with every insertion. *)
Definition exec (q : statement) (d : database) : outcome (rows * database) :=
  match q with
  | SelectBlogsJoinUsers =>
      Ok (JoinedRows
            (order_by_desc (fun r => b_created_at (fst r))
               (join_users (users d) (blogs d))), d)
  | SelectUserIdsByEmailOrUsername email username =>
      Ok (IdRows
            (map u_id
               (filter (fun u => text_eqb (u_email u) email
                                 || text_eqb (u_username u) username)
                       (users d))), d)
  | InsertUser (Some username) (Some email) password =>
      if existsb (fun u => String.eqb (u_username u) username
                           || String.eqb (u_email u) email
                           || (u_id u =? next_user_id d)) (users d)
      then Throw duplicate_key
      else
        let u := mkUser (next_user_id d) username email password "user" in
        Ok (IdNameRows [(u_id u, u_username u)],
            mkDatabase (users d ++ [u]) (blogs d) (contact_messages d)
              (next_user_id d + 1) (next_blog_id d) (next_message_id d)
              (now d))
  | InsertUser _ _ _ => Throw not_null
  | SelectUsersByEmail email =>
      Ok (UserRows (filter (fun u => text_eqb (u_email u) email) (users d)), d)
  | UpdateUserPasswordByEmail password email =>
      Ok (NoRows,
          with_users d
            (map (fun u =>
                    if text_eqb (u_email u) email
                    then mkUser (u_id u) (u_username u) (u_email u) password
                           (u_role u)
                    else u)
                 (users d)))
  | InsertContactMessage (Some name) (Some email) (Some message) =>
      if existsb (fun m => m_id m =? next_message_id d) (contact_messages d)
      then Throw duplicate_key
      else
        Ok (NoRows,
            mkDatabase (users d) (blogs d)
              (contact_messages d
                 ++ [mkMessage (next_message_id d) name email message (now d)])
              (next_user_id d) (next_blog_id d) (next_message_id d + 1)
              (now d + 1))
  | InsertContactMessage _ _ _ => Throw not_null
  | SelectBlogsByUser user_id =>
      with_id user_id (fun uid =>
        Ok (BlogRows
              (order_by_desc b_created_at
                 (filter (fun b => b_user_id b =? uid) (blogs d))), d))
  | InsertBlog user_id title content =>
      with_id user_id (fun uid =>
        if negb (existsb (fun u => u_id u =? uid) (users d))
        then Throw foreign_key
        else if existsb (fun b => b_id b =? next_blog_id d) (blogs d)
        then Throw duplicate_key
        else
          Ok (NoRows,
              mkDatabase (users d)
                (blogs d
                   ++ [mkBlog (next_blog_id d) uid title content None (now d)])
                (contact_messages d)
                (next_user_id d) (next_blog_id d + 1) (next_message_id d)
                (now d + 1)))
  | SelectBlogJoinUserById id =>
      with_id id (fun i =>
        Ok (JoinedRows
              (filter (fun r => b_id (fst r) =? i)
                 (join_users (users d) (blogs d))), d))
  | SelectBlogByIdAndUser id user_id =>
      with_id id (fun i => with_id user_id (fun uid =>
        Ok (BlogRows
              (filter (fun b => (b_id b =? i) && (b_user_id b =? uid))
                 (blogs d)), d)))
  | UpdateBlogByIdAndUser title content id user_id =>
      with_id id (fun i => with_id user_id (fun uid =>
        Ok (NoRows,
            with_blogs d
              (map (fun b =>
                      if (b_id b =? i) && (b_user_id b =? uid)
                      then mkBlog (b_id b) (b_user_id b) title content
                             (b_status b) (b_created_at b)
                      else b)
                   (blogs d)))))
  | DeleteBlogByIdAndUser id user_id =>
      with_id id (fun i => with_id user_id (fun uid =>
        Ok (NoRows,
            with_blogs d
              (filter (fun b => negb ((b_id b =? i) && (b_user_id b =? uid)))
                 (blogs d)))))
  | SelectAdminsByEmail email =>
      Ok (UserRows
            (filter (fun u => text_eqb (u_email u) email
                              && String.eqb (u_role u) "admin")
                    (users d)), d)
  | SelectUsersOrderByIdDesc =>
      Ok (UserRows (order_by_desc u_id (users d)), d)
  | SelectContactMessages =>
      Ok (MessageRows (order_by_desc m_created_at (contact_messages d)), d)
  | SelectUserById id =>
      with_id id (fun i =>
        Ok (UserRows (filter (fun u => u_id u =? i) (users d)), d))
  | DeleteUserById id =>
      with_id id (fun i =>
        if existsb (fun u => u_id u =? i) (users d)
           && existsb (fun b => b_user_id b =? i) (blogs d)
        then Throw foreign_key
        else
          Ok (NoRows,
              with_users d (filter (fun u => negb (u_id u =? i)) (users d))))
  | UpdateUserRoleById role id =>
      with_id id (fun i =>
        Ok (NoRows,
            with_users d
              (map (fun u =>
                      if u_id u =? i
                      then mkUser (u_id u) (u_username u) (u_email u)
                             (u_password u) role
                      else u)
                   (users d))))
  | UpdateUserPasswordById password id =>
      with_id id (fun i =>
        Ok (NoRows,
            with_users d
              (map (fun u =>
                      if u_id u =? i
                      then mkUser (u_id u) (u_username u) (u_email u) password
                             (u_role u)
                      else u)
                   (users d))))
  | DeleteBlogById id =>
      with_id id (fun i =>
        Ok (NoRows,
            with_blogs d (filter (fun b => negb (b_id b =? i)) (blogs d))))
  | UpdateBlogStatusById status id =>
      with_id id (fun i =>
        Ok (NoRows,
            with_blogs d
              (map (fun b =>
                      if b_id b =? i
                      then mkBlog (b_id b) (b_user_id b) (b_title b)
                             (b_content b) (Some status) (b_created_at b)
                      else b)
                   (blogs d))))
  | SelectBlogById id =>
      with_id id (fun i =>
        Ok (BlogRows (filter (fun b => b_id b =? i) (blogs d)), d))
  | UpdateBlogById title content id =>
      with_id id (fun i =>
        Ok (NoRows,
            with_blogs d
              (map (fun b =>
                      if b_id b =? i
                      then mkBlog (b_id b) (b_user_id b) title content
                             (b_status b) (b_created_at b)
                      else b)
                   (blogs d))))
  end.

End Persistence.

(** ** Sessions, requests and responses *)

(** [req.session.user]: the public routes bind [{id, username}], the
    admin login binds [{id, username, email, role}]. *)
Record Identity : Type := mkIdentity {
  i_id : Z;
  i_username : string;
  i_email : option string;
  i_role : option string
}.

(** [req.session] with the two queues connect-flash keeps in it. *)
Record Session : Type := mkSession {
  user : option Identity;
  flash_success : list string;
  flash_error : list string
}.

Definition fresh_session : Session := mkSession None [] [].

Inductive category : Type := success | error.

(** What a handler can read and change: the store, the session, and, for
    the parts that are not determined by the request, whether the upcoming
    statements fail at the connection ([faults]) and the salts bcrypt will
    draw ([salts]).  [log] lists the statements sent to the pool so far. *)
Record state : Type := mkState {
  db : database;
  session : Session;
  faults : list bool;
  salts : list string;
  log : list statement
}.

(** The fields of [req.body] the handlers destructure, each one absent
    ([undefined]) or a string, as a form post delivers them. *)
Record Body : Type := mkBody {
  body_username : option string;
  body_email : option string;
  body_password : option string;
  body_newPassword : option string;
  body_name : option string;
  body_message : option string;
  body_title : option string;
  body_content : option string
}.

Definition empty_body : Body := mkBody None None None None None None None None.

(** Method and path, with the [:id] segment. *)
Inductive route : Type :=
| GetHome
| GetSignup
| PostSignup
| GetLogin
| PostLogin
| GetLogout
| GetForgotPassword
| PostForgotPassword
| PostContact
| GetDashboard
| GetCreate
| PostCreate
| GetView (id : string)
| GetEdit (id : string)
| PostEdit (id : string)
| PostDelete (id : string)
| GetContact
| GetAbout
| GetAdminLogin
| PostAdminLogin
| GetAdminLogout
| GetAdmin
| GetAdminMessages
| GetAdminUsers
| PostAdminUsersDelete (id : string)
| PostAdminUsersPromote (id : string)
| PostAdminUsersDemote (id : string)
| PostAdminUsersResetPassword (id : string)
| GetAdminBlogs
| PostAdminBlogsDelete (id : string)
| PostAdminBlogsApprove (id : string)
| GetAdminBlogsEdit (id : string)
| PostAdminBlogsEdit (id : string)
| GetAdminContactMessages
| Unmatched.

Record request : Type := mkRequest {
  req_route : route;
  req_body : Body
}.

(** Values handed to a template or serialised as JSON. *)
Inductive value : Type :=
| VNull
| VBool (b : bool)
| VStr (s : string)
| VFlash (l : list string)
| VIdentity (i : Identity)
| VUsers (l : list User)
| VBlogs (l : list Blog)
| VJoined (l : list (Blog * string))
| VMessages (l : list ContactMessage)
| VBlog (b : Blog)
| VJoinedBlog (b : Blog * string).

Definition text_value (t : option string) : value :=
  match t with
  | Some s => VStr s
  | None => VNull
  end.

Inductive payload : Type :=
| Render (view : string) (options : list (string * value))
| Redirect (location : string)
| Json (fields : list (string * value))
| Send (text : string).

Record reply : Type := mkReply {
  status : Z;
  sent : payload
}.

(** The response with the [res.locals] the template sees. *)
Record response : Type := mkResponse {
  res_locals : list (string * value);
  res_reply : reply
}.

(** ** Handlers as computations *)

Definition M (A : Type) : Type := state -> outcome A * state.

Definition ret {A : Type} (a : A) : M A := fun st => (Ok a, st).

Definition bind {A B : Type} (m : M A) (k : A -> M B) : M B :=
  fun st =>
    match m st with
    | (Ok a, st') => k a st'
    | (Throw e, st') => (Throw e, st')
    end.

Definition throw {A : Type} (e : string) : M A := fun st => (Throw e, st).

(** [try { m } catch (err) { h err }] *)
Definition try_catch {A : Type} (m : M A) (h : string -> M A) : M A :=
  fun st =>
    match m st with
    | (Ok a, st') => (Ok a, st')
    | (Throw e, st') => h e st'
    end.

Declare Scope handler_scope.
Delimit Scope handler_scope with handler.
Notation "x <- c1 ;; c2" := (bind c1 (fun x => c2))
  (at level 61, c1 at next level, right associativity) : handler_scope.
Notation "c1 ;; c2" := (bind c1 (fun _ => c2))
  (at level 61, right associativity) : handler_scope.
Open Scope handler_scope.

Definition with_session (st : state) (s : Session) : state :=
  mkState (db st) s (faults st) (salts st) (log st).

Definition session_user : M (option Identity) :=
  fun st => (Ok (user (session st)), st).

(** [req.session.user = i] *)
Definition set_session_user (i : Identity) : M unit :=
  fun st =>
    (Ok tt,
     with_session st
       (mkSession (Some i) (flash_success (session st))
          (flash_error (session st)))).

(** [req.session.destroy(callback)]: the next read finds no identity. *)
Definition session_destroy : M unit :=
  fun st => (Ok tt, with_session st fresh_session).

(** [req.flash(category, message)] *)
Definition flash (c : category) (message : string) : M unit :=
  fun st =>
    let s := session st in
    (Ok tt,
     with_session st
       match c with
       | success => mkSession (user s) (flash_success s ++ [message]) (flash_error s)
       | error => mkSession (user s) (flash_success s) (flash_error s ++ [message])
       end).

(** [req.flash(category)]: the queued messages, which are removed. *)
Definition flash_drain (c : category) : M (list string) :=
  fun st =>
    let s := session st in
    match c with
    | success => (Ok (flash_success s), with_session st (mkSession (user s) [] (flash_error s)))
    | error => (Ok (flash_error s), with_session st (mkSession (user s) (flash_success s) []))
    end.

Definition render_status (code : Z) (view : string)
    (options : list (string * value)) : M reply :=
  ret (mkReply code (Render view options)).

Definition render (view : string) (options : list (string * value)) : M reply :=
  render_status 200 view options.

Definition redirect (location : string) : M reply :=
  ret (mkReply 302 (Redirect location)).

Definition json (fields : list (string * value)) : M reply :=
  ret (mkReply 200 (Json fields)).

Definition send_status (code : Z) (text : string) : M reply :=
  ret (mkReply code (Send text)).

(** What the handlers take from the platform they run on: the conversion
    of a statement parameter to an integer column (see [exec]), and
    bcryptjs, as the digest of a plaintext under a salt and the
    verification of a plaintext against a digest. *)
Class Platform : Type := {
  pg_integer : idparam -> option Z;
  bcrypt_hash : string -> string -> string;
  bcrypt_compare : string -> string -> bool
}.

Section App.

Context {platform : Platform}.

(** [await pool.query(text, params)]: the statement is recorded, then it
    fails at the connection or is run by the store. *)
Definition pool_query (q : statement) : M rows :=
  fun st =>
    let sent := (log st ++ [q])%list in
    if hd false (faults st)
    then (Throw "Connection terminated unexpectedly",
          mkState (db st) (session st) (tl (faults st)) (salts st) sent)
    else
      match exec pg_integer q (db st) with
      | Ok (r, d) =>
          (Ok r, mkState d (session st) (tl (faults st)) (salts st) sent)
      | Throw e =>
          (Throw e,
           mkState (db st) (session st) (tl (faults st)) (salts st) sent)
      end.

(** [await bcrypt.hash(s, 10)]; a value that is not a string is refused. *)
Definition bcrypt_hash_async (s : option string) : M string :=
  fun st =>
    match s with
    | Some plaintext =>
        (Ok (bcrypt_hash (hd "" (salts st)) plaintext),
         mkState (db st) (session st) (faults st) (tl (salts st)) (log st))
    | None => (Throw "Illegal arguments: undefined, number", st)
    end.

(** [await bcrypt.compare(s, hash)] *)
Definition bcrypt_compare_async (s : option string) (hash : string) : M bool :=
  match s with
  | Some plaintext => ret (bcrypt_compare plaintext hash)
  | None => throw "Illegal arguments: undefined, string"
  end.

(** *** middleware/admin.js *)

(** [isAdmin]; the [req.user] it sets is read by no handler. *)
Definition isAdmin (next : M reply) : M reply :=
  u <- session_user ;;
  match u with
  | Some i =>
      match i_role i with
      | Some r => if String.eqb r "admin" then next else redirect "/admin/login"
      | None => redirect "/admin/login"
      end
  | None => redirect "/admin/login"
  end.

(** *** index.js *)

(** The middleware that fills [res.locals] on every request. *)
Definition template_variables : M (list (string * value)) :=
  u <- session_user ;;
  success_msg <- flash_drain success ;;
  error_msg <- flash_drain error ;;
  ret [("user", match u with Some i => VIdentity i | None => VNull end);
       ("success_msg", VFlash success_msg);
       ("error_msg", VFlash error_msg);
       ("title", VStr "Typely");
       ("hideNavbar", VBool false);
       ("showTagline", VBool true)].

(** The last middleware of [index.js], which [next(err)] reaches. *)
Definition error_handler (message : string) : M reply :=
  render_status 500 "error"
    [("message", VStr (if String.eqb message "" then "Server Error" else message))].

(** [asyncHandler]: a rejection of [fn] goes to [next], that is to
    [error_handler]. *)
Definition asyncHandler (fn : M reply) : M reply :=
  try_catch fn error_handler.

(** [(id) => Number.isInteger(parseInt(id))]; the handlers pass a Number,
    which [parseInt] first converts to a string. *)
Definition validateId (id : number) : bool :=
  Number_isInteger (parseInt (ToString id)).

(** [checkAuth] *)
Definition checkAuth (next : M reply) : M reply :=
  u <- session_user ;;
  match u with
  | Some _ => next
  | None =>
      flash error "Please login to continue" ;;
      redirect "/login"
  end.

(** [req.session.user.id] as a statement parameter. *)
Definition session_user_id : M idparam :=
  u <- session_user ;;
  match u with
  | Some i => ret (PNum (Int (i_id i)))
  | None => throw "Cannot read properties of undefined (reading 'id')"
  end.

(** [app.get("/", ...)] *)
Definition home : M reply :=
  asyncHandler (
    result <- pool_query SelectBlogsJoinUsers ;;
    render "index" [("blogs", VJoined (joined_of result)); ("title", VStr "Home")]).

(** [app.route("/signup").get(...)] *)
Definition signup_get : M reply :=
  u <- session_user ;;
  match u with
  | Some _ => redirect "/"
  | None => render "signup" [("title", VStr "Signup"); ("hideNavbar", VBool true)]
  end.

(** [app.route("/signup").post(...)] *)
Definition signup_post (body : Body) : M reply :=
  asyncHandler (
    let username := body_username body in
    let email := body_email body in
    let password := body_password body in
    if falsy username || falsy email || falsy password then
      flash error "All fields are required" ;;
      redirect "/signup"
    else if (String.length (match password with Some s => s | None => "" end) <? 6)%nat then
      flash error "Password must be at least 6 characters long" ;;
      redirect "/signup"
    else
      existing <- pool_query (SelectUserIdsByEmailOrUsername email username) ;;
      if (0 <? row_count existing)%nat then
        flash error "Email or username already exists" ;;
        redirect "/signup"
      else
        hashedPassword <- bcrypt_hash_async password ;;
        result <- pool_query (InsertUser username email hashedPassword) ;;
        match id_names_of result with
        | row :: _ =>
            set_session_user (mkIdentity (fst row) (snd row) None None) ;;
            flash success "Signup successful! Welcome!" ;;
            redirect "/"
        | [] => throw "Cannot read properties of undefined (reading 'id')"
        end).

(** [app.route("/login").get(...)] *)
Definition login_get : M reply :=
  u <- session_user ;;
  match u with
  | Some _ => redirect "/"
  | None => render "login" [("title", VStr "Login"); ("hideNavbar", VBool true)]
  end.

(** [app.route("/login").post(...)] *)
Definition login_post (body : Body) : M reply :=
  asyncHandler (
    let email := body_email body in
    let password := body_password body in
    if falsy email || falsy password then
      flash error "All fields are required" ;;
      redirect "/login"
    else
      result <- pool_query (SelectUsersByEmail email) ;;
      match users_of result with
      | [] =>
          flash error "User not found" ;;
          redirect "/login"
      | user :: _ =>
          valid <- bcrypt_compare_async password (u_password user) ;;
          if negb valid then
            flash error "Incorrect password" ;;
            redirect "/login"
          else
            set_session_user (mkIdentity (u_id user) (u_username user) None None) ;;
            flash success ("Welcome back, " ++ u_username user ++ "!") ;;
            redirect "/"
      end).

(** [app.get("/logout", ...)] *)
Definition logout : M reply :=
  session_destroy ;;
  redirect "/login".

(** [app.route("/forgot-password").get(...)]; the two queues were emptied
    by [template_variables] already. *)
Definition forgot_password_get : M reply :=
  error_msg <- flash_drain error ;;
  success_msg <- flash_drain success ;;
  render "forgot-password"
    [("title", VStr "Forgot Password"); ("hideNavbar", VBool true);
     ("error_msg", VFlash error_msg); ("success_msg", VFlash success_msg)].

(** [app.route("/forgot-password").post(...)] *)
Definition forgot_password_post (body : Body) : M reply :=
  asyncHandler (
    let email := body_email body in
    let newPassword := body_newPassword body in
    if falsy email || falsy newPassword then
      flash error "All fields are required" ;;
      redirect "/forgot-password"
    else
      userResult <- pool_query (SelectUsersByEmail email) ;;
      if (row_count userResult =? 0)%nat then
        flash error "No account found with this email" ;;
        redirect "/forgot-password"
      else
        hashedPassword <- bcrypt_hash_async newPassword ;;
        pool_query (UpdateUserPasswordByEmail hashedPassword email) ;;
        flash success "Password reset successfully. You can now login." ;;
        redirect "/login").

(** [app.post("/contact", ...)] *)
Definition contact_post (body : Body) : M reply :=
  asyncHandler (
    let name := body_name body in
    let email := body_email body in
    let message := body_message body in
    if falsy name || falsy email || falsy message then
      json [("success", VBool false); ("error", VStr "All fields are required")]
    else
      try_catch
        (pool_query (InsertContactMessage name email message) ;;
         json [("success", VBool true); ("message", VStr "Message sent successfully!")])
        (fun err =>
           json [("success", VBool false);
                 ("error", VStr "Server error while sending message")])).

(** [app.get("/dashboard", checkAuth, ...)] *)
Definition dashboard : M reply :=
  checkAuth (asyncHandler (
    uid <- session_user_id ;;
    result <- pool_query (SelectBlogsByUser uid) ;;
    render "dashboard"
      [("userBlogs", VBlogs (blogs_of result)); ("title", VStr "Dashboard")])).

(** [app.route("/create").get(checkAuth, ...)] *)
Definition create_get : M reply :=
  checkAuth (render "create" [("title", VStr "Create Blog")]).

(** [app.route("/create").post(checkAuth, ...)] *)
Definition create_post (body : Body) : M reply :=
  checkAuth (asyncHandler (
    let title := body_title body in
    let content := body_content body in
    if falsy title || falsy content then
      flash error "All fields are required" ;;
      redirect "/create"
    else
      uid <- session_user_id ;;
      pool_query (InsertBlog uid title content) ;;
      flash success "Blog created successfully" ;;
      redirect "/dashboard")).

(** [app.get("/view/:id", ...)] *)
Definition view_get (params_id : string) : M reply :=
  asyncHandler (
    let id := parseInt params_id in
    if negb (validateId id) then
      render_status 400 "error" [("message", VStr "Invalid blog ID")]
    else
      result <- pool_query (SelectBlogJoinUserById (PNum id)) ;;
      match joined_of result with
      | [] => render_status 404 "404" [("message", VStr "Blog not found")]
      | row :: _ =>
          render "viewblog"
            [("blog", VJoinedBlog row); ("title", text_value (b_title (fst row)))]
      end).

(** [app.route("/edit/:id").get(checkAuth, ...)] *)
Definition edit_get (params_id : string) : M reply :=
  checkAuth (asyncHandler (
    let id := parseInt params_id in
    if negb (validateId id) then
      render_status 400 "error" [("message", VStr "Invalid blog ID")]
    else
      uid <- session_user_id ;;
      result <- pool_query (SelectBlogByIdAndUser (PNum id) uid) ;;
      match blogs_of result with
      | [] => render_status 403 "error" [("message", VStr "Not authorized")]
      | row :: _ => render "edit" [("blog", VBlog row); ("title", VStr "Edit Blog")]
      end)).

(** [app.route("/edit/:id").post(checkAuth, ...)] *)
Definition edit_post (params_id : string) (body : Body) : M reply :=
  checkAuth (asyncHandler (
    let id := parseInt params_id in
    let title := body_title body in
    let content := body_content body in
    if falsy title || falsy content then
      flash error "All fields are required" ;;
      redirect ("/edit/" ++ ToString id)
    else
      uid <- session_user_id ;;
      pool_query (UpdateBlogByIdAndUser title content (PNum id) uid) ;;
      flash success "Blog updated successfully" ;;
      redirect "/dashboard")).

(** [app.post("/delete/:id", checkAuth, ...)] *)
Definition delete_post (params_id : string) : M reply :=
  checkAuth (asyncHandler (
    let id := parseInt params_id in
    if negb (validateId id) then
      render_status 400 "error" [("message", VStr "Invalid blog ID")]
    else
      uid <- session_user_id ;;
      pool_query (DeleteBlogByIdAndUser (PNum id) uid) ;;
      flash success "Blog deleted successfully" ;;
      redirect "/dashboard")).

(** [app.get("/contact", ...)] and [app.get("/about", ...)] *)
Definition contact_get : M reply := render "contact" [("title", VStr "Contact")].
Definition about_get : M reply := render "about" [("title", VStr "About")].

(** The middleware after the routes, for requests no route matched. *)
Definition not_found : M reply :=
  render_status 404 "404" [("title", VStr "Page Not Found")].

(** *** adminRoutes.js *)

(** [catch (err) { console.error(err); res.status(500).send("Server error"); }] *)
Definition server_error (err : string) : M reply :=
  send_status 500 "Server error".

(** [router.get("/login", ...)] *)
Definition admin_login_get : M reply :=
  render "admin/admin-login" [("layout", VBool false); ("error", VNull)].

(** [router.post("/login", ...)] *)
Definition admin_login_post (body : Body) : M reply :=
  let email := body_email body in
  let password := body_password body in
  try_catch
    (result <- pool_query (SelectAdminsByEmail email) ;;
     match users_of result with
     | [] =>
         render "admin/admin-login"
           [("layout", VBool false); ("error", VStr "Invalid email or password")]
     | admin :: _ =>
         matched <- bcrypt_compare_async password (u_password admin) ;;
         if negb matched then
           render "admin/admin-login"
             [("layout", VBool false); ("error", VStr "Invalid email or password")]
         else
           set_session_user
             (mkIdentity (u_id admin) (u_username admin) (Some (u_email admin))
                (Some (u_role admin))) ;;
           redirect "/admin"
     end)
    server_error.

(** [router.get("/logout", isAdmin, ...)] *)
Definition admin_logout : M reply :=
  isAdmin (
    session_destroy ;;
    redirect "/admin/login").

(** [user: req.session.user] in the options of a render. *)
Definition session_user_value : M value :=
  u <- session_user ;;
  ret match u with Some i => VIdentity i | None => VNull end.

(** [router.get("/", isAdmin, ...)] *)
Definition admin_dashboard : M reply :=
  isAdmin (
    try_catch
      (usersResult <- pool_query SelectUsersOrderByIdDesc ;;
       blogsResult <- pool_query SelectBlogsJoinUsers ;;
       u <- session_user_value ;;
       render "admin/admin-dashboard"
         [("layout", VBool false); ("user", u);
          ("users", VUsers (users_of usersResult));
          ("blogs", VJoined (joined_of blogsResult))])
      server_error).

(** [router.get("/messages", isAdmin, ...)] *)
Definition admin_messages : M reply :=
  isAdmin (
    try_catch
      (result <- pool_query SelectContactMessages ;;
       u <- session_user_value ;;
       render "admin/admin-messages"
         [("layout", VBool false); ("user", u);
          ("messages", VMessages (messages_of result))])
      (fun err => send_status 500 "Error retrieving messages")).

(** [router.get("/users", isAdmin, ...)] *)
Definition admin_users : M reply :=
  isAdmin (
    try_catch
      (usersResult <- pool_query SelectUsersOrderByIdDesc ;;
       u <- session_user_value ;;
       render "admin/admin-users"
         [("layout", VBool false); ("user", u);
          ("users", VUsers (users_of usersResult))])
      server_error).

(** [router.post("/users/delete/:id", isAdmin, ...)] *)
Definition admin_users_delete (params_id : string) : M reply :=
  isAdmin (
    let userId := params_id in
    try_catch
      (userResult <- pool_query (SelectUserById (PStr userId)) ;;
       match users_of userResult with
       | [] => send_status 404 "User not found"
       | row :: _ =>
           if String.eqb (u_role row) "admin" then
             send_status 403 "Cannot delete another admin"
           else
             pool_query (DeleteUserById (PStr userId)) ;;
             redirect "/admin/users"
       end)
      server_error).

(** [router.post("/users/promote/:id", isAdmin, ...)] *)
Definition admin_users_promote (params_id : string) : M reply :=
  isAdmin (
    try_catch
      (pool_query (UpdateUserRoleById "admin" (PStr params_id)) ;;
       redirect "/admin/users")
      server_error).

(** [router.post("/users/demote/:id", isAdmin, ...)] *)
Definition admin_users_demote (params_id : string) : M reply :=
  isAdmin (
    try_catch
      (pool_query (UpdateUserRoleById "user" (PStr params_id)) ;;
       redirect "/admin/users")
      server_error).

(** [router.post("/users/reset-password/:id", isAdmin, ...)] *)
Definition admin_users_reset_password (params_id : string) : M reply :=
  isAdmin (
    try_catch
      (let newPassword := "123456" in
       hashedPassword <- bcrypt_hash_async (Some newPassword) ;;
       pool_query (UpdateUserPasswordById hashedPassword (PStr params_id)) ;;
       redirect "/admin/users")
      server_error).

(** [router.get("/blogs", isAdmin, ...)] *)
Definition admin_blogs : M reply :=
  isAdmin (
    try_catch
      (blogsResult <- pool_query SelectBlogsJoinUsers ;;
       u <- session_user_value ;;
       render "admin/admin-blogs"
         [("layout", VBool false); ("user", u);
          ("blogs", VJoined (joined_of blogsResult))])
      server_error).

(** [router.post("/blogs/delete/:id", isAdmin, ...)] *)
Definition admin_blogs_delete (params_id : string) : M reply :=
  isAdmin (
    try_catch
      (pool_query (DeleteBlogById (PStr params_id)) ;;
       redirect "/admin/blogs")
      server_error).

(** [router.post("/blogs/approve/:id", isAdmin, ...)] *)
Definition admin_blogs_approve (params_id : string) : M reply :=
  isAdmin (
    try_catch
      (pool_query (UpdateBlogStatusById "approved" (PStr params_id)) ;;
       redirect "/admin/blogs")
      server_error).

(** [router.get("/blogs/edit/:id", isAdmin, ...)] *)
Definition admin_blogs_edit_get (params_id : string) : M reply :=
  isAdmin (
    try_catch
      (blogResult <- pool_query (SelectBlogById (PStr params_id)) ;;
       match blogs_of blogResult with
       | [] => send_status 404 "Blog not found"
       | row :: _ =>
           u <- session_user_value ;;
           render "admin/admin-edit-blog"
             [("layout", VBool false); ("user", u); ("blog", VBlog row)]
       end)
      server_error).

(** [router.post("/blogs/edit/:id", isAdmin, ...)] *)
Definition admin_blogs_edit_post (params_id : string) (body : Body) : M reply :=
  isAdmin (
    let title := body_title body in
    let content := body_content body in
    try_catch
      (pool_query (UpdateBlogById title content (PStr params_id)) ;;
       redirect "/admin/blogs")
      server_error).

(** [router.get("/contact-messages", isAdmin, ...)] *)
Definition admin_contact_messages : M reply :=
  isAdmin (
    try_catch
      (result <- pool_query SelectContactMessages ;;
       u <- session_user_value ;;
       render "admin/admin-messages"
         [("layout", VBool false); ("user", u);
          ("messages", VMessages (messages_of result))])
      (fun err => send_status 500 "Error retrieving messages")).

(** *** The application *)

(** The handler a request is routed to. *)
Definition handle (req : request) : M reply :=
  match req_route req with
  | GetHome => home
  | GetSignup => signup_get
  | PostSignup => signup_post (req_body req)
  | GetLogin => login_get
  | PostLogin => login_post (req_body req)
  | GetLogout => logout
  | GetForgotPassword => forgot_password_get
  | PostForgotPassword => forgot_password_post (req_body req)
  | PostContact => contact_post (req_body req)
  | GetDashboard => dashboard
  | GetCreate => create_get
  | PostCreate => create_post (req_body req)
  | GetView id => view_get id
  | GetEdit id => edit_get id
  | PostEdit id => edit_post id (req_body req)
  | PostDelete id => delete_post id
  | GetContact => contact_get
  | GetAbout => about_get
  | GetAdminLogin => admin_login_get
  | PostAdminLogin => admin_login_post (req_body req)
  | GetAdminLogout => admin_logout
  | GetAdmin => admin_dashboard
  | GetAdminMessages => admin_messages
  | GetAdminUsers => admin_users
  | PostAdminUsersDelete id => admin_users_delete id
  | PostAdminUsersPromote id => admin_users_promote id
  | PostAdminUsersDemote id => admin_users_demote id
  | PostAdminUsersResetPassword id => admin_users_reset_password id
  | GetAdminBlogs => admin_blogs
  | PostAdminBlogsDelete id => admin_blogs_delete id
  | PostAdminBlogsApprove id => admin_blogs_approve id
  | GetAdminBlogsEdit id => admin_blogs_edit_get id
  | PostAdminBlogsEdit id => admin_blogs_edit_post id (req_body req)
  | GetAdminContactMessages => admin_contact_messages
  | Unmatched => not_found
  end.

(** One request through the middleware stack: the template variables are
    set, the handler runs, and an error it lets escape reaches the error
    handler. *)
Definition app (req : request) : M response :=
  locals <- template_variables ;;
  r <- try_catch (handle req) error_handler ;;
  ret (mkResponse locals r).

(** What [express.urlencoded] and [express.json], the first two
    middlewares of [index.js], make of the body of a request: the fields
    the handlers read from [req.body], or an error passed to [next] (for a
    body that is not JSON under [Content-Type: application/json], for
    one). *)
Inductive parsing : Type :=
| Parsed (fields : Body)
| Rejected (message : string).

(** One request from the body parsers on.  An error of theirs skips the
    session, the template variables and every route, and reaches the error
    handler, with nothing in [res.locals]. *)
Definition server (r : route) (body : parsing) : M response :=
  match body with
  | Parsed fields => app (mkRequest r fields)
  | Rejected message =>
      reply <- error_handler message ;;
      ret (mkResponse [] reply)
  end.

End App.

(** ** Classes of routes *)

(** The routes registered with [checkAuth]. *)
Definition requires_user (r : route) : bool :=
  match r with
  | GetDashboard | GetCreate | PostCreate
  | GetEdit _ | PostEdit _ | PostDelete _ => true
  | _ => false
  end.

(** The routes registered with [isAdmin]: all of [adminRoutes.js] but the
    two of [/admin/login]. *)
Definition requires_admin (r : route) : bool :=
  match r with
  | GetAdminLogout | GetAdmin | GetAdminMessages | GetAdminUsers
  | PostAdminUsersDelete _ | PostAdminUsersPromote _ | PostAdminUsersDemote _
  | PostAdminUsersResetPassword _ | GetAdminBlogs | PostAdminBlogsDelete _
  | PostAdminBlogsApprove _ | GetAdminBlogsEdit _ | PostAdminBlogsEdit _
  | GetAdminContactMessages => true
  | _ => false
  end.

(** The routes whose handler calls [validateId], with their [:id]. *)
Definition validated_id (r : route) : option string :=
  match r with
  | GetView id | GetEdit id | PostDelete id => Some id
  | _ => None
  end.

(** The [:id] segment of a route that has one. *)
Definition route_id (r : route) : option string :=
  match r with
  | GetView id | GetEdit id | PostEdit id | PostDelete id
  | PostAdminUsersDelete id | PostAdminUsersPromote id
  | PostAdminUsersDemote id | PostAdminUsersResetPassword id
  | PostAdminBlogsDelete id | PostAdminBlogsApprove id
  | GetAdminBlogsEdit id | PostAdminBlogsEdit id => Some id
  | _ => None
  end.

(** The identity passes [isAdmin]. *)
Definition admin_identity (u : option Identity) : bool :=
  match u with
  | Some i =>
      match i_role i with
      | Some r => String.eqb r "admin"
      | None => false
      end
  | None => false
  end.

(** The check as the spec words it: a base-10 integer string is an
    optional minus sign followed by decimal digits, at least one, and
    nothing else. *)
Definition is_base10_integer_string (s : string) : bool :=
  let digits :=
    match s with
    | String c r => if (c =? "-")%char then r else s
    | EmptyString => s
    end in
  negb (String.eqb digits "") && all_decimal digits.

(** ** A concrete platform for examples *)

(** A store with 32-bit integer columns that reads a Number by its value
    and a string when it is the canonical decimal numeral of an integer. *)
Definition sample_pg_integer (p : idparam) : option Z :=
  let in_range (z : Z) :=
    if (- 2 ^ 31 <=? z) && (z <? 2 ^ 31) then Some z else None in
  match p with
  | PNum (Int z) => in_range z
  | PNum _ => None
  | PStr s =>
      match parseInt s with
      | Int z => if String.eqb (ToString (Int z)) s then in_range z else None
      | _ => None
      end
  end.

(** A stand-in for bcrypt: the digest shows salt and plaintext. *)
Definition sample_hash (salt plaintext : string) : string :=
  "$" ++ salt ++ "$" ++ plaintext.

Fixpoint after_dollar (s : string) : string :=
  match s with
  | String c r => if (c =? "$")%char then r else after_dollar r
  | EmptyString => ""
  end.

Definition sample_compare (plaintext digest : string) : bool :=
  String.eqb (after_dollar (after_dollar digest)) plaintext.

Definition sample_platform : Platform :=
  {| pg_integer := sample_pg_integer;
     bcrypt_hash := sample_hash;
     bcrypt_compare := sample_compare |}.

Definition sample_app : request -> M response := @app sample_platform.

Definition sample_server : route -> parsing -> M response :=
  @server sample_platform.

Definition alice : User :=
  mkUser 1 "alice" "alice@example.org" (sample_hash "s1" "wonderland") "user".
Definition bob : User :=
  mkUser 2 "bob" "bob@example.org" (sample_hash "s2" "builder") "user".
Definition root : User :=
  mkUser 3 "root" "root@example.org" (sample_hash "s3" "toor-toor") "admin".

Definition sample_db : database :=
  mkDatabase [alice; bob; root]
    [mkBlog 10 1 (Some "Hello") (Some "First post") None 100;
     mkBlog 11 2 (Some "Bricks") (Some "On walls") (Some "approved") 101;
     mkBlog 12 1 (Some "Tea") (Some "With the hatter") None 102]
    [mkMessage 1 "carol" "carol@example.org" "Hi" 50;
     mkMessage 2 "dave" "dave@example.org" "Nice" 60]
    4 13 3 200.

Definition anonymous : state := mkState sample_db fresh_session [] [] [].

Definition as_identity (i : Identity) : state :=
  mkState sample_db (mkSession (Some i) [] []) [] [] [].

Definition alice_session : Identity := mkIdentity 1 "alice" None None.
Definition root_session : Identity :=
  mkIdentity 3 "root" (Some "root@example.org") (Some "admin").

Definition get (r : route) : request := mkRequest r empty_body.

Definition form (title content : string) : Body :=
  mkBody None None None None None None (Some title) (Some content).

Definition credentials (email password : string) : Body :=
  mkBody None (Some email) (Some password) None None None None None.

Definition contact_form (name email message : string) : Body :=
  mkBody None (Some email) None None (Some name) (Some message) None None.

(** ** Vocabulary of the proofs *)

(** A numeral as [ToString] writes it: decimal digits only, at least one
    and at most [bound]. *)
Definition numeral (bound : nat) (s : string) : Prop :=
  all_decimal s = true /\ (String.length s <= bound)%nat
  /\ exists c r, s = String c r.

(** Where the digits of a numeral end: at the end of the string, or at a
    character that is neither a decimal digit nor [x]. *)
Definition stops (rest : string) : Prop :=
  rest = ""
  \/ exists c r, rest = String c r /\ radix_digit 10 c = None
                 /\ (c =? "x")%char = false /\ (c =? "X")%char = false.

(** Newest first: no row is older than a row after it. *)
Definition newest_first (l : list ContactMessage) : Prop :=
  StronglySorted (fun a b => m_created_at b <= m_created_at a) l.

(** [R] holds between the state before a computation and the state after
    it, whatever the state before. *)
Definition preserves (R : state -> state -> Prop) {A : Type} (m : M A) : Prop :=
  forall st, R st (snd (m st)).

(** Every user id of the first state is a user id of the second. *)
Definition keeps_user_ids (st st' : state) : Prop :=
  incl (map u_id (users (db st))) (map u_id (users (db st'))).

(** The session is an administrator's in the second state only if it was
    in the first. *)
Definition admin_only_if_before (st st' : state) : Prop :=
  admin_identity (user (session st')) = true ->
  admin_identity (user (session st)) = true.

(** What [UPDATE blogs SET status='approved' WHERE id=i] does to a row. *)
Definition approve (i : Z) (b : Blog) : Blog :=
  if b_id b =? i
  then mkBlog (b_id b) (b_user_id b) (b_title b) (b_content b)
         (Some "approved") (b_created_at b)
  else b.

(** The statement that a handler calling [validateId] sends for the
    Number [n] it has parsed from the path, on behalf of the session's
    user. *)
Definition validated_statement (r : route) (n : number) (u : option Identity)
    : option statement :=
  match r, u with
  | GetView _, _ => Some (SelectBlogJoinUserById (PNum n))
  | GetEdit _, Some a =>
      Some (SelectBlogByIdAndUser (PNum n) (PNum (Int (i_id a))))
  | PostDelete _, Some a =>
      Some (DeleteBlogByIdAndUser (PNum n) (PNum (Int (i_id a))))
  | _, _ => None
  end.

(** The variable [name] as a rendered view sees it: Express merges
    [res.locals] with the options of [res.render], and the options win.
    A redirect, a JSON body and a plain text have no view. *)
Fixpoint view_variable (name : string) (l : list (string * value)) : option value :=
  match l with
  | [] => None
  | (n, v) :: rest =>
      if String.eqb n name then Some v else view_variable name rest
  end.

Definition seen_by_view (res : response) (name : string) : option value :=
  match sent (res_reply res) with
  | Render _ options =>
      match view_variable name options with
      | Some v => Some v
      | None => view_variable name (res_locals res)
      end
  | _ => None
  end.

(** The same state with no flash message queued. *)
Definition without_flashes (st : state) : state :=
  with_session st (mkSession (user (session st)) [] []).

(** No blog of [after] has another status than the blog of [before] with
    its id, and a blog of [after] whose id is new has no status. *)
Definition keeps_statuses (before after : list Blog) : Prop :=
  forall b', In b' after ->
    (forall b, In b before -> b_id b = b_id b' -> b_status b' = b_status b)
    /\ ((forall b, In b before -> b_id b <> b_id b') -> b_status b' = None).

(** The store reads a Number parameter by its value when it accepts it. *)
Definition reads_numbers {platform : Platform} : Prop :=
  forall z v, pg_integer (PNum (Int z)) = Some v -> v = z.

(** The routes registered with [get]. *)
Definition is_get (r : route) : bool :=
  match r with
  | GetHome | GetSignup | GetLogin | GetLogout | GetForgotPassword
  | GetDashboard | GetCreate | GetView _ | GetEdit _ | GetContact | GetAbout
  | GetAdminLogin | GetAdminLogout | GetAdmin | GetAdminMessages
  | GetAdminUsers | GetAdminBlogs | GetAdminBlogsEdit _
  | GetAdminContactMessages => true
  | _ => false
  end.

(** The routes of [adminRoutes.js]. *)
Definition is_admin_route (r : route) : bool :=
  match r with
  | GetAdminLogin | PostAdminLogin => true
  | _ => requires_admin r
  end.

(** A user row with another password, and with another role. *)
Definition with_password (password : string) (u : User) : User :=
  mkUser (u_id u) (u_username u) (u_email u) password (u_role u).

Definition with_role (role : string) (u : User) : User :=
  mkUser (u_id u) (u_username u) (u_email u) (u_password u) role.

(** The same state seen from a browser that has no session yet. *)
Definition another_browser (st : state) : state :=
  with_session st fresh_session.

(** The body of [{success: true, message}]. *)
Definition sent_message : payload :=
  Json [("success", VBool true); ("message", VStr "Message sent successfully!")].

(** The forms of [/signup] and of [/forgot-password]. *)
Definition signup_form (username email password : string) : Body :=
  mkBody (Some username) (Some email) (Some password) None None None None None.

Definition reset_form (email newPassword : string) : Body :=
  mkBody None (Some email) None (Some newPassword) None None None None.

(** A store in which [bob] has written nothing, and an administrator's
    browser on it. *)
Definition quiet_db : database :=
  mkDatabase [alice; bob; root]
    [mkBlog 10 1 (Some "Hello") (Some "First post") None 100]
    [] 4 11 1 200.

Definition quiet_console : state :=
  mkState quiet_db (mkSession (Some root_session) [] []) [] [] [].

(** [bob]'s browser, and a browser with two flash messages queued. *)
Definition bob_session : Identity := mkIdentity 2 "bob" None None.

Definition flashed : state :=
  mkState sample_db (mkSession None ["Saved"] ["Oops"]) [] [] [].

(** ** Facts about the JavaScript fragment *)

Module JsFacts.

Example parseInt_examples :
  parseInt "42" = Int 42 /\ parseInt "  -42" = Int (-42)
  /\ parseInt "12abc" = Int 12 /\ parseInt "12.5" = Int 12
  /\ parseInt "1e3" = Int 1 /\ parseInt "0x1A" = Int 26
  /\ parseInt "abc" = NaN /\ parseInt "" = NaN /\ parseInt "-" = NaN
  /\ parseInt "0x" = NaN /\ parseInt "Infinity" = NaN.
Proof. repeat apply conj; vm_compute; reflexivity. Qed.

Example to_double_examples :
  to_double (2 ^ 53 + 1) = Int (2 ^ 53)
  /\ to_double (2 ^ 53 + 3) = Int (2 ^ 53 + 4)
  /\ to_double (- (2 ^ 53 + 3)) = Int (- (2 ^ 53 + 4))
  /\ to_double (2 ^ 1024 - 2 ^ 970 - 1) = Int (2 ^ 1024 - 2 ^ 971)
  /\ to_double (2 ^ 1024 - 2 ^ 970) = Infinity false.
Proof. repeat apply conj; vm_compute; reflexivity. Qed.

Example ToString_examples :
  ToString (Int 0) = "0" /\ ToString (Int (-15)) = "-15"
  /\ ToString (Int (2 ^ 53)) = "9007199254740992"
  /\ ToString (Int (2 ^ 64)) = "18446744073709552000"
  /\ ToString (Int (10 ^ 21)) = "1e+21"
  /\ ToString (Int (2 ^ 70)) = "1.1805916207174113e+21"
  /\ ToString (to_double (10 ^ 23)) = "1e+23"
  /\ ToString (to_double (2 ^ 1024 - 2 ^ 970 - 1)) = "1.7976931348623157e+308"
  /\ ToString NaN = "NaN" /\ ToString (Infinity true) = "-Infinity".
Proof. repeat apply conj; vm_compute; reflexivity. Qed.

Example validateId_examples :
  validateId (parseInt "7") = true /\ validateId (parseInt "12abc") = true
  /\ validateId (parseInt "abc") = false
  /\ validateId (to_double (10 ^ 400)) = false
  /\ validateId (Int (10 ^ 21)) = true.
Proof. repeat apply conj; vm_compute; reflexivity. Qed.

Lemma radix_digit_range R c d :
  radix_digit R c = Some d -> 0 <= d < R.
Proof.
  unfold radix_digit, digit_value.
  set (n := Z.of_N (N_of_ascii c)).
  destruct ((48 <=? n) && (n <=? 57)) eqn:E1;
    [|destruct ((97 <=? n) && (n <=? 122)) eqn:E2;
      [|destruct ((65 <=? n) && (n <=? 90)) eqn:E3; [|discriminate]]];
    match goal with |- context [?x <? R] => destruct (x <? R) eqn:E end;
    try discriminate; intros [= <-]; apply Z.ltb_lt in E; lia.
Qed.

Lemma radix_digit_digit_char m :
  radix_digit 10 (digit_char (m mod 10)) = Some (m mod 10).
Proof.
  assert (H : 0 <= m mod 10 < 10) by (apply Z.mod_pos_bound; lia).
  assert (C : m mod 10 = 0 \/ m mod 10 = 1 \/ m mod 10 = 2 \/ m mod 10 = 3
              \/ m mod 10 = 4 \/ m mod 10 = 5 \/ m mod 10 = 6 \/ m mod 10 = 7
              \/ m mod 10 = 8 \/ m mod 10 = 9) by lia.
  repeat (destruct C as [C | C]; [rewrite C; reflexivity|]).
  rewrite C; reflexivity.
Qed.

Lemma decimal_char_plain c d :
  radix_digit 10 c = Some d ->
  is_white_space c = false /\ (c =? "-")%char = false /\ (c =? "+")%char = false
  /\ (c =? "x")%char = false /\ (c =? "X")%char = false.
Proof.
  destruct c as [[] [] [] [] [] [] [] []]; cbv; intros H;
    try discriminate H; repeat split.
Qed.

(** The digits read from a string never add up to more than its length
    allows. *)
Lemma digits_prefix_bound s : forall a L,
  0 <= a < 10 ^ Z.of_nat L ->
  exists v, digits_prefix 10 s (Some a) = Some v
            /\ 0 <= v < 10 ^ Z.of_nat (L + String.length s).
Proof.
  induction s as [|c r IH]; intros a L Ha; simpl.
  - exists a. split; [reflexivity|]. now rewrite Nat.add_0_r.
  - destruct (radix_digit 10 c) as [d|] eqn:E.
    + apply radix_digit_range in E.
      destruct (IH (a * 10 + d) (S L)) as [v [Hv Hb]].
      * rewrite Nat2Z.inj_succ, Z.pow_succ_r by lia. lia.
      * exists v. split; [exact Hv|].
        now replace (L + S (String.length r))%nat
          with (S L + String.length r)%nat by lia.
    + exists a. split; [reflexivity|].
      assert (10 ^ Z.of_nat L <= 10 ^ Z.of_nat (L + S (String.length r)))
        by (apply Z.pow_le_mono_r; lia).
      lia.
Qed.

Lemma to_double_small z :
  Z.abs z < 2 ^ 1023 -> exists v, to_double z = Int v.
Proof.
  intros Hz. unfold to_double.
  destruct (Z.abs z <? 2 ^ 53) eqn:E; [eauto|].
  apply Z.ltb_ge in E.
  set (a := Z.abs z) in *.
  assert (Ha : 0 < a) by (assert (0 < 2 ^ 53) by (apply Z.pow_pos_nonneg; lia); lia).
  destruct (Z.log2_spec a Ha) as [Hlo Hhi].
  assert (H53 : 53 <= Z.log2 a) by (apply Z.log2_le_pow2; lia).
  assert (H1023 : Z.log2 a < 1023) by (apply Z.log2_lt_pow2; lia).
  set (e := Z.log2 a - 52) in *.
  assert (He : 0 < 2 ^ e) by (apply Z.pow_pos_nonneg; lia).
  assert (Hq : a / 2 ^ e < 2 ^ 53).
  { apply Z.div_lt_upper_bound; [exact He|].
    rewrite <- Z.pow_add_r by lia.
    replace (e + 53) with (Z.succ (Z.log2 a)) by lia. exact Hhi. }
  match goal with |- context [if ?c then a / 2 ^ e + 1 else a / 2 ^ e] =>
    set (q' := if c then a / 2 ^ e + 1 else a / 2 ^ e) end.
  assert (Hq' : q' <= 2 ^ 53) by (subst q'; destruct (_ || _); lia).
  assert (Hv : q' * 2 ^ e <= 2 ^ 53 * 2 ^ e) by (apply Z.mul_le_mono_nonneg_r; lia).
  rewrite <- Z.pow_add_r in Hv by lia.
  assert (Hle : 2 ^ (53 + e) <= 2 ^ 1023) by (apply Z.pow_le_mono_r; lia).
  assert (Hlt : 2 ^ 1023 < 2 ^ 1024) by (apply Z.pow_lt_mono_r; lia).
  destruct (2 ^ 1024 <=? q' * 2 ^ e) eqn:E2; [|eauto].
  apply Z.leb_le in E2. lia.
Qed.

Lemma all_decimal_app p q :
  all_decimal p = true -> all_decimal q = true -> all_decimal (p ++ q) = true.
Proof.
  induction p as [|c r IH]; simpl; [easy|].
  destruct (radix_digit 10 c); [auto|discriminate].
Qed.

Lemma all_decimal_zeros m : all_decimal (zeros m) = true.
Proof. induction m; simpl; [reflexivity|exact IHm]. Qed.

Lemma length_zeros m : String.length (zeros m) = m.
Proof. induction m; simpl; congruence. Qed.

Lemma length_app p q :
  String.length (p ++ q) = (String.length p + String.length q)%nat.
Proof. induction p; simpl; congruence. Qed.

Lemma app_empty_r p : p ++ "" = p.
Proof. induction p; simpl; congruence. Qed.

Lemma decimal_digits_numeral fuel : forall n acc,
  all_decimal acc = true ->
  numeral (String.length acc + fuel + 1) (decimal_digits fuel n acc).
Proof.
  induction fuel as [|f IH]; intros n acc Hacc; simpl.
  - repeat split; simpl; [now rewrite radix_digit_digit_char | lia | eauto].
  - destruct (n <? 10).
    + repeat split; simpl; [now rewrite radix_digit_digit_char | lia | eauto].
    + destruct (IH (n / 10) (String (digit_char (n mod 10)) acc)) as [H1 [H2 H3]].
      * simpl. now rewrite radix_digit_digit_char.
      * repeat split; [exact H1 | simpl in H2; lia | exact H3].
Qed.

Lemma decimal_numeral n : numeral (Z.to_nat (Z.log2 n) + 1) (decimal n).
Proof. apply (decimal_digits_numeral _ n ""). reflexivity. Qed.

(** The fuel of [decimal] is enough: reading the digits back gives the
    integer. *)
Lemma decimal_digits_read_back fuel : forall n acc,
  0 <= n < 10 ^ (Z.of_nat fuel + 1) ->
  digits_prefix 10 (decimal_digits fuel n acc) None
  = digits_prefix 10 acc (Some n).
Proof.
  assert (One : forall n acc, 0 <= n < 10 ->
            digits_prefix 10 (String (digit_char (n mod 10)) acc) None
            = digits_prefix 10 acc (Some n)).
  { intros n acc Hn. simpl. rewrite radix_digit_digit_char.
    now rewrite Z.mod_small by lia. }
  induction fuel as [|f IH]; intros n acc Hn.
  - apply One. simpl in Hn. lia.
  - cbn [decimal_digits]. destruct (n <? 10) eqn:E.
    + apply Z.ltb_lt in E. apply One. lia.
    + apply Z.ltb_ge in E. rewrite IH.
      * simpl. rewrite radix_digit_digit_char. do 2 f_equal.
        rewrite (Z.div_mod n 10) at 3 by lia. lia.
      * split; [apply Z.div_pos; lia|].
        apply Z.div_lt_upper_bound; [lia|].
        rewrite <- Z.pow_succ_r by lia.
        replace (Z.succ (Z.of_nat f + 1)) with (Z.of_nat (S f) + 1) by lia.
        lia.
Qed.

Lemma decimal_read_back n :
  0 <= n -> digits_prefix 10 (decimal n) None = Some n.
Proof.
  intros Hn. unfold decimal. rewrite decimal_digits_read_back; [reflexivity|].
  split; [exact Hn|].
  destruct (Z.eq_dec n 0) as [-> | Hz]; [reflexivity|].
  destruct (Z.log2_spec n ltac:(lia)) as [_ Hhi].
  pose proof (Z.log2_nonneg n).
  rewrite Z2Nat.id by lia.
  assert (2 ^ (Z.log2 n + 1) <= 10 ^ (Z.log2 n + 1))
    by (apply Z.pow_le_mono_l; lia).
  replace (Z.succ (Z.log2 n)) with (Z.log2 n + 1) in Hhi by lia. lia.
Qed.

Lemma numeral_weaken a b s : (a <= b)%nat -> numeral a s -> numeral b s.
Proof. intros Hab [H1 [H2 H3]]. repeat split; [exact H1 | lia | exact H3]. Qed.

Lemma decimal_numeral_57 s : s < 10 ^ 17 -> numeral 57 (decimal s).
Proof.
  intros Hs. apply (numeral_weaken (Z.to_nat (Z.log2 s) + 1)); [|apply decimal_numeral].
  destruct (Z.le_gt_cases s 0) as [H0 | H0].
  - rewrite Z.log2_nonpos by exact H0. simpl. lia.
  - assert (Z.log2 s < 57) by (apply Z.log2_lt_pow2; [exact H0|]; lia). lia.
Qed.

Lemma substring_numeral m : forall s,
  all_decimal s = true -> (exists c r, s = String c r) ->
  numeral (S m) (substring 0 (S m) s).
Proof.
  assert (G : forall k s, all_decimal s = true ->
            all_decimal (substring 0 k s) = true
            /\ (String.length (substring 0 k s) <= k)%nat).
  { induction k as [|k IH]; intros s Hs; destruct s as [|c r]; simpl;
      try (split; [reflexivity | lia]).
    simpl in Hs. destruct (radix_digit 10 c); [|discriminate].
    destruct (IH r Hs). split; [assumption | lia]. }
  intros s Hs [c [r ->]]. destruct (G (S m) _ Hs) as [G1 G2].
  repeat split; [exact G1 | exact G2 | simpl; eauto].
Qed.

Lemma fold_closer_In x k cs : forall c,
  In (fold_left (closer x k) cs c) (c :: cs).
Proof.
  induction cs as [|c' cs IH]; intros c; simpl; [auto|].
  destruct (IH (closer x k c c')) as [H | H]; [|auto].
  rewrite <- H. unfold closer.
  repeat match goal with |- context [if ?b then _ else _] => destruct b end; auto.
Qed.

Lemma candidates_bound x k ns : In ns (candidates x k) -> snd ns < 10 ^ k.
Proof.
  unfold candidates. intros H. apply in_flat_map in H. destruct H as [n [_ H]].
  apply filter_In in H. destruct H as [_ H].
  apply andb_prop in H. destruct H as [H _].
  apply andb_prop in H. destruct H as [_ H]. now apply Z.ltb_lt in H.
Qed.

Lemma shortest_numeral fuel : forall x k,
  1 <= k -> k + Z.of_nat fuel <= 17 -> numeral 57 (snd (shortest fuel x k)).
Proof.
  induction fuel as [|f IH]; intros x k H1 H17; simpl;
    destruct (candidates x k) as [|c cs] eqn:E.
  - simpl. apply (numeral_weaken 17); [lia|].
    destruct (decimal_numeral x) as [Ha [_ Hc]]. now apply substring_numeral.
  - pose proof (fold_closer_In x k cs c) as Hin. rewrite <- E in Hin.
    apply candidates_bound in Hin.
    destruct (fold_left (closer x k) cs c) as [n s]. simpl in *.
    apply decimal_numeral_57.
    assert (10 ^ k <= 10 ^ 17) by (apply Z.pow_le_mono_r; lia). lia.
  - apply IH; lia.
  - pose proof (fold_closer_In x k cs c) as Hin. rewrite <- E in Hin.
    apply candidates_bound in Hin.
    destruct (fold_left (closer x k) cs c) as [n s]. simpl in *.
    apply decimal_numeral_57.
    assert (10 ^ k <= 10 ^ 17) by (apply Z.pow_le_mono_r; lia). lia.
Qed.

Lemma digits_prefix_stops p : forall rest acc,
  all_decimal p = true -> stops rest ->
  digits_prefix 10 (p ++ rest) acc = digits_prefix 10 p acc.
Proof.
  induction p as [|c r IH]; intros rest acc Hp Hrest; simpl.
  - destruct Hrest as [-> | [c [r [-> [H _]]]]]; simpl; [reflexivity|].
    now rewrite H.
  - simpl in Hp. destruct (radix_digit 10 c); [|discriminate]. now apply IH.
Qed.

(** [parseInt] reads a numeral, with or without a minus sign, as an
    integral Number. *)
Lemma parseInt_numeral p rest :
  numeral 300 p -> stops rest ->
  (exists v, parseInt (p ++ rest) = Int v)
  /\ (exists v, parseInt (String "-" (p ++ rest)) = Int v).
Proof.
  intros [Hall [Hlen [c [r ->]]]] Hrest.
  simpl in Hall. destruct (radix_digit 10 c) as [d|] eqn:Hd; [|discriminate].
  destruct (decimal_char_plain c d Hd) as [Hws [Hminus [Hplus [Hx HX]]]].
  assert (Hval : exists v, digits_prefix 10 (String c r) None = Some v
                           /\ 0 <= v < 2 ^ 1023).
  { simpl. rewrite Hd. apply radix_digit_range in Hd.
    destruct (digits_prefix_bound r d 1) as [v [Hv Hb]]; [simpl; lia|].
    exists v. split; [exact Hv|].
    assert (10 ^ Z.of_nat (1 + String.length r) <= 10 ^ 300)
      by (apply Z.pow_le_mono_r; simpl in Hlen; lia).
    assert (10 ^ 300 < 2 ^ 1023) by (vm_compute; reflexivity).
    lia. }
  destruct Hval as [v [Hv Hb]].
  assert (Hstrip : strip_prefix (String c r ++ rest) = (10, String c r ++ rest)).
  { simpl. destruct r as [|c1 r1]; simpl.
    - destruct Hrest as [-> | [c1 [r1 [-> [_ [H1 H2]]]]]]; [reflexivity|].
      rewrite H1, H2. now rewrite andb_false_r.
    - simpl in Hall. destruct (radix_digit 10 c1) as [d1|] eqn:Hd1; [|discriminate].
      destruct (decimal_char_plain c1 d1 Hd1) as [_ [_ [_ [H1 H2]]]].
      rewrite H1, H2. now rewrite andb_false_r. }
  assert (Hsigned : forall t, Z.abs t = 1 ->
            exists w, signed_digits t (String c r ++ rest) = Int w).
  { intros t Ht. unfold signed_digits. rewrite Hstrip.
    rewrite digits_prefix_stops; [|simpl; now rewrite Hd|exact Hrest].
    rewrite Hv. apply to_double_small. rewrite Z.abs_mul, Ht. lia. }
  split.
  - unfold parseInt. change (String c r ++ rest) with (String c (r ++ rest)).
    cbn [trim_start]. rewrite Hws, Hminus, Hplus.
    apply (Hsigned 1). reflexivity.
  - unfold parseInt. cbn [trim_start].
    replace (is_white_space "-") with false by reflexivity.
    replace ("-" =? "-")%char with true by reflexivity.
    apply (Hsigned (-1)). reflexivity.
Qed.

Lemma ToString_positive_numeral x :
  exists p rest, ToString_positive x = p ++ rest /\ numeral 78 p /\ stops rest.
Proof.
  unfold ToString_positive.
  pose proof (shortest_numeral 16 x 1 ltac:(lia) ltac:(lia)) as H.
  destruct (shortest 16 x 1) as [n digits]. simpl in H.
  destruct H as [Hall [Hlen [c [r ->]]]].
  destruct (n <=? 21) eqn:En.
  - apply Z.leb_le in En.
    exists (String c r ++ zeros (Z.to_nat (n - Z.of_nat (String.length (String c r))))), "".
    split; [now rewrite app_empty_r|]. split; [|now left].
    repeat split.
    + apply all_decimal_app; [exact Hall | apply all_decimal_zeros].
    + rewrite length_app, length_zeros. lia.
    + simpl. eauto.
  - assert (Hc : numeral 78 (String c "")).
    { simpl in Hall. destruct (radix_digit 10 c) eqn:E; [|discriminate].
      repeat split; simpl; [now rewrite E | lia | eauto]. }
    destruct r as [|c1 r1].
    + exists (String c ""), ("e+" ++ decimal (n - 1)).
      split; [reflexivity|]. split; [exact Hc|].
      right. exists "e"%char, ("+" ++ decimal (n - 1)). now repeat split.
    + exists (String c ""), ("." ++ String c1 r1 ++ "e+" ++ decimal (n - 1)).
      split; [reflexivity|]. split; [exact Hc|].
      right. exists "."%char, (String c1 r1 ++ "e+" ++ decimal (n - 1)).
      now repeat split.
Qed.

(** [ToString] followed by [parseInt] takes an integral Number to an
    integral Number. *)
Lemma parseInt_ToString_Int z : exists v, parseInt (ToString (Int z)) = Int v.
Proof.
  unfold ToString. destruct (z =? 0); [exists 0; reflexivity|].
  destruct (z <? 0).
  - destruct (ToString_positive_numeral (- z)) as [p [rest [-> [Hp Hr]]]].
    apply (parseInt_numeral p rest); [|exact Hr].
    apply (numeral_weaken 78); [lia | exact Hp].
  - destruct (ToString_positive_numeral z) as [p [rest [-> [Hp Hr]]]].
    apply (parseInt_numeral p rest); [|exact Hr].
    apply (numeral_weaken 78); [lia | exact Hp].
Qed.

(** A decimal numeral of up to 300 characters, with or without a minus
    sign, is read as an integral Number. *)
Lemma parseInt_decimal_string s :
  (String.length s <= 300)%nat ->
  (let digits :=
     match s with
     | String c r => if (c =? "-")%char then r else s
     | EmptyString => s
     end in
   negb (String.eqb digits "") && all_decimal digits) = true ->
  Number_isInteger (parseInt s) = true.
Proof.
  intros Hlen H. cbv zeta in H. apply andb_prop in H. destruct H as [Hne Hall].
  assert (G : forall p, (String.length p <= 300)%nat ->
                negb (String.eqb p "") = true -> all_decimal p = true ->
                numeral 300 p).
  { intros p Hp Hn Ha. repeat split; [exact Ha | exact Hp|].
    destruct p as [|c r]; [discriminate Hn | eauto]. }
  destruct s as [|c r]; [discriminate Hne|].
  destruct (c =? "-")%char eqn:E.
  - apply Ascii.eqb_eq in E. subst c.
    destruct (parseInt_numeral r "") as [_ [v Hv]];
      [apply G; [simpl in Hlen; lia | exact Hne | exact Hall] | now left|].
    rewrite app_empty_r in Hv. now rewrite Hv.
  - destruct (parseInt_numeral (String c r) "") as [[v Hv] _];
      [now apply G | now left|].
    rewrite app_empty_r in Hv. now rewrite Hv.
Qed.

End JsFacts.

(** ** Properties of the handlers *)

Lemma validateId_isInteger n : validateId n = Number_isInteger n.
Proof.
  unfold validateId. destruct n as [|[]|z]; try reflexivity.
  destruct (JsFacts.parseInt_ToString_Int z) as [v ->]. reflexivity.
Qed.

Ltac run :=
  cbv [app handle bind ret throw try_catch template_variables
       session_user set_session_user session_destroy flash flash_drain
       render render_status redirect json send_status with_session
       pool_query bcrypt_hash_async bcrypt_compare_async
       isAdmin checkAuth asyncHandler error_handler session_user_id
       session_user_value server_error
       home signup_get signup_post login_get login_post logout
       forgot_password_get forgot_password_post contact_post dashboard
       create_get create_post view_get edit_get edit_post delete_post
       contact_get about_get not_found
       admin_login_get admin_login_post admin_logout admin_dashboard
       admin_messages admin_users admin_users_delete admin_users_promote
       admin_users_demote admin_users_reset_password admin_blogs
       admin_blogs_delete admin_blogs_approve admin_blogs_edit_get
       admin_blogs_edit_post admin_contact_messages
       fresh_session negb];
  cbn [req_route req_body db session faults salts log
       user flash_success flash_error res_locals res_reply status sent
       i_id i_username i_email i_role fst snd orb andb
       body_username body_email body_password body_newPassword body_name
       body_message body_title body_content
       users_of blogs_of joined_of messages_of ids_of id_names_of row_count].

(** Case analysis on whatever a computation is stuck on, innermost first. *)
Ltac cases :=
  repeat (run; cbv [exec with_id];
          match goal with
          | |- context [match ?x with _ => _ end] =>
              lazymatch x with
              | context [match _ with _ => _ end] => fail
              | _ => destruct x eqn:?
              end
          end).

(** *** ORDER BY ... DESC *)

Section Ordering.

Context {A : Type} (key : A -> Z).

Lemma insert_desc_permutation x l : Permutation (insert_desc key x l) (x :: l).
Proof.
  induction l as [|y l IH]; simpl; [reflexivity|].
  destruct (key x <? key y); [|reflexivity].
  rewrite IH. apply perm_swap.
Qed.

Lemma order_by_desc_permutation l : Permutation (order_by_desc key l) l.
Proof.
  induction l as [|x l IH]; simpl; [reflexivity|].
  rewrite insert_desc_permutation. now apply perm_skip.
Qed.

Lemma insert_desc_sorted x l :
  StronglySorted (fun a b => key b <= key a) l ->
  StronglySorted (fun a b => key b <= key a) (insert_desc key x l).
Proof.
  induction l as [|y l IH]; intros Hs; simpl.
  - constructor; constructor.
  - apply StronglySorted_inv in Hs. destruct Hs as [Hs Hy].
    destruct (key x <? key y) eqn:E.
    + apply Z.ltb_lt in E. constructor; [now apply IH|].
      apply (Permutation_Forall (Permutation_sym (insert_desc_permutation x l))).
      constructor; [lia | exact Hy].
    + apply Z.ltb_ge in E. constructor; [now constructor|].
      constructor; [exact E|].
      apply (Forall_impl _ (P := fun b => key b <= key y)); [intros b Hb; lia | exact Hy].
Qed.

Lemma order_by_desc_sorted l :
  StronglySorted (fun a b => key b <= key a) (order_by_desc key l).
Proof.
  induction l as [|x l IH]; simpl; [constructor | now apply insert_desc_sorted].
Qed.

End Ordering.

Section Properties.

Context {platform : Platform}.

(** *** Relations every request preserves *)

Section Preservation.

(** [R] relates the state before a computation to the state after it.
    [delete_ok] says whether [R] survives the deletion of users,
    [admin_ok] whether it survives the binding of an identity with a role. *)
Variable R : state -> state -> Prop.
Variables delete_ok admin_ok : bool.

Hypothesis R_refl : forall st, R st st.
Hypothesis R_trans : forall a b c, R a b -> R b c -> R a c.
Hypothesis R_query : forall q st,
  (forall p, q <> DeleteUserById p) -> R st (snd (pool_query q st)).
Hypothesis R_delete : delete_ok = true ->
  forall p st, R st (snd (pool_query (DeleteUserById p) st)).
Hypothesis R_flash : forall st s,
  user s = user (session st) -> R st (with_session st s).
Hypothesis R_destroy : forall st, R st (with_session st fresh_session).
Hypothesis R_bind : forall st s i,
  user s = Some i -> i_role i = None -> R st (with_session st s).
Hypothesis R_bind_admin : admin_ok = true ->
  forall st s, R st (with_session st s).
Hypothesis R_salts : forall st sa,
  R st (mkState (db st) (session st) (faults st) sa (log st)).

Lemma preserves_ret {A : Type} (a : A) : preserves R (ret a).
Proof. intros st. apply R_refl. Qed.

Lemma preserves_throw {A : Type} e : preserves R (@throw A e).
Proof. intros st. apply R_refl. Qed.

Lemma preserves_bind {A B : Type} (m : M A) (k : A -> M B) :
  preserves R m -> (forall a, preserves R (k a)) -> preserves R (bind m k).
Proof.
  intros Hm Hk st. unfold bind. specialize (Hm st).
  destruct (m st) as [[a|e] st1]; simpl in *; [|exact Hm].
  apply (R_trans _ st1); [exact Hm | apply Hk].
Qed.

Lemma preserves_try_catch {A : Type} (m : M A) (h : string -> M A) :
  preserves R m -> (forall e, preserves R (h e)) -> preserves R (try_catch m h).
Proof.
  intros Hm Hh st. unfold try_catch. specialize (Hm st).
  destruct (m st) as [[a|e] st1]; simpl in *; [exact Hm|].
  apply (R_trans _ st1); [exact Hm | apply Hh].
Qed.

Lemma preserves_session_user : preserves R session_user.
Proof. intros st. apply R_refl. Qed.

Lemma preserves_flash c msg : preserves R (flash c msg).
Proof. intros st. destruct c; apply R_flash; reflexivity. Qed.

Lemma preserves_flash_drain c : preserves R (flash_drain c).
Proof. intros st. destruct c; apply R_flash; reflexivity. Qed.

Lemma preserves_session_destroy : preserves R session_destroy.
Proof. intros st. apply R_destroy. Qed.

Lemma preserves_set_session_user i :
  i_role i = None \/ admin_ok = true -> preserves R (set_session_user i).
Proof.
  intros [H | H] st; simpl.
  - now apply (R_bind _ _ i).
  - now apply R_bind_admin.
Qed.

Lemma preserves_pool_query q :
  (forall p, q <> DeleteUserById p) \/ delete_ok = true ->
  preserves R (pool_query q).
Proof.
  intros [H | H] st; [now apply R_query|].
  destruct q; try (apply R_query; intros p; discriminate).
  now apply R_delete.
Qed.

Lemma preserves_bcrypt_hash_async s :
  preserves R (bcrypt_hash_async s).
Proof. intros st. destruct s; simpl; [apply R_salts | apply R_refl]. Qed.

Lemma preserves_bcrypt_compare_async s h :
  preserves R (bcrypt_compare_async s h).
Proof. destruct s; [apply preserves_ret | apply preserves_throw]. Qed.

Ltac preserve :=
  repeat match goal with
    | |- preserves R (bind _ _) => apply preserves_bind; [|intro]
    | |- preserves R (try_catch _ _) => apply preserves_try_catch; [|intro]
    | |- preserves R (ret _) => apply preserves_ret
    | |- preserves R (throw _) => apply preserves_throw
    | |- preserves R session_user => apply preserves_session_user
    | |- preserves R (flash _ _) => apply preserves_flash
    | |- preserves R (flash_drain _) => apply preserves_flash_drain
    | |- preserves R session_destroy => apply preserves_session_destroy
    | |- preserves R (set_session_user _) =>
        apply preserves_set_session_user; solve [left; reflexivity | now right]
    | |- preserves R (pool_query _) =>
        apply preserves_pool_query;
        solve [left; intros ?; discriminate | now right]
    | |- preserves R (bcrypt_hash_async _) => apply preserves_bcrypt_hash_async
    | |- preserves R (bcrypt_compare_async _ _) =>
        apply preserves_bcrypt_compare_async
    | |- preserves R (if ?b then _ else _) => destruct b
    | |- preserves R (match ?x with _ => _ end) => destruct x
    end.

(** Every handler preserves [R], the user deletion and the admin login
    when [R] allows what they do. *)
Lemma handle_preserves req :
  (forall id, req_route req = PostAdminUsersDelete id -> delete_ok = true) ->
  (req_route req = PostAdminLogin -> admin_ok = true) ->
  preserves R (handle req).
Proof.
  intros Hdel Hadm. unfold handle.
  destruct (req_route req) eqn:E;
    try specialize (Hdel _ eq_refl); try specialize (Hadm eq_refl);
    cbv [home signup_get signup_post login_get login_post logout
         forgot_password_get forgot_password_post contact_post dashboard
         create_get create_post view_get edit_get edit_post delete_post
         contact_get about_get not_found
         admin_login_get admin_login_post admin_logout admin_dashboard
         admin_messages admin_users admin_users_delete admin_users_promote
         admin_users_demote admin_users_reset_password admin_blogs
         admin_blogs_delete admin_blogs_approve admin_blogs_edit_get
         admin_blogs_edit_post admin_contact_messages
         isAdmin checkAuth asyncHandler error_handler session_user_id
         session_user_value server_error
         render render_status redirect json send_status];
    preserve.
Qed.

Lemma app_preserves req :
  (forall id, req_route req = PostAdminUsersDelete id -> delete_ok = true) ->
  (req_route req = PostAdminLogin -> admin_ok = true) ->
  preserves R (app req).
Proof.
  intros Hdel Hadm. unfold app, template_variables, error_handler,
    render_status.
  pose proof (handle_preserves req Hdel Hadm).
  preserve; assumption.
Qed.

End Preservation.

(** *** User rows *)

Lemma map_u_id_update (f : User -> User) us :
  (forall u, u_id (f u) = u_id u) -> map u_id (map f us) = map u_id us.
Proof. intros H. rewrite map_map. apply map_ext. exact H. Qed.

(** No statement but [DELETE FROM users] removes a user. *)
Lemma exec_keeps_user_ids q d r d' :
  (forall p, q <> DeleteUserById p) ->
  exec pg_integer q d = Ok (r, d') ->
  incl (map u_id (users d)) (map u_id (users d')).
Proof.
  intros Hq H.
  destruct q; cbv [exec with_id] in H;
    repeat match type of H with
      | context [match pg_integer ?p with _ => _ end] => destruct (pg_integer p)
      | context [match ?o with Some _ => _ | None => _ end] => destruct o
      | context [if ?b then _ else _] => destruct b
      end;
    try discriminate H; try (injection H as <- <-); simpl;
    try apply incl_refl.
  - rewrite map_app. apply incl_appl, incl_refl.
  - rewrite map_u_id_update; [apply incl_refl|]. intros u. now destruct text_eqb.
  - now contradiction (Hq id).
  - rewrite map_u_id_update; [apply incl_refl|]. intros u. now destruct (u_id u =? z).
  - rewrite map_u_id_update; [apply incl_refl|]. intros u. now destruct (u_id u =? z).
Qed.

Lemma pool_query_keeps_user_ids q st :
  (forall p, q <> DeleteUserById p) -> keeps_user_ids st (snd (pool_query q st)).
Proof.
  intros Hq. unfold keeps_user_ids, pool_query.
  destruct (hd false (faults st)); simpl; [apply incl_refl|].
  destruct (exec pg_integer q (db st)) as [[r d']|e] eqn:E; simpl;
    [|apply incl_refl].
  now apply (exec_keeps_user_ids q _ r).
Qed.

(** Every request but the deletion of a user keeps all user ids. *)
Lemma app_keeps_user_ids req st :
  (forall id, req_route req <> PostAdminUsersDelete id) ->
  keeps_user_ids st (snd (app req st)).
Proof.
  intros Hreq.
  apply (app_preserves keeps_user_ids false true); try (intros; apply incl_refl).
  - intros a b c Hab Hbc. exact (incl_tran Hab Hbc).
  - intros q st0 Hq. now apply pool_query_keeps_user_ids.
  - discriminate.
  - intros id E. now contradiction (Hreq id).
  - reflexivity.
Qed.

Lemma unique_id (us : list User) u v :
  NoDup (map u_id us) -> In u us -> In v us -> u_id u = u_id v -> u = v.
Proof.
  induction us as [|w us IH]; simpl; [easy|].
  intros Hnd Hu Hv E. inversion Hnd as [|? ? Hnotin Hnd']; subst.
  destruct Hu as [-> | Hu], Hv as [-> | Hv]; auto.
  - exfalso. apply Hnotin. rewrite E. now apply in_map.
  - exfalso. apply Hnotin. rewrite <- E. now apply in_map.
Qed.

(** *** Every request is answered *)

Lemma app_responds req st : exists res st', app req st = (Ok res, st').
Proof.
  destruct req as [r body]. destruct st as [d [u fs fe] fl sa lg].
  destruct body as [username email password newPassword name message title content].
  destruct r; cases; eexists; eexists; reflexivity.
Qed.

(** C1, amended.  The routes whose handler calls [validateId] are
    GET /view/:id, GET /edit/:id and POST /delete/:id.  For a request to one
    of them that is past the login gate:
    - [validateId] is the test "[parseInt] of the id is an integer";
    - every base-10 integer string of at most 300 characters passes it;
    - so does a decimal numeral of at most 300 digits, with or without a
      minus sign, followed by a text that begins with neither a decimal
      digit nor [x], such as [12abc];
    - when [parseInt(id)] is not an integer ([NaN] or an infinity), the
      response is HTTP 400 with the message "Invalid blog ID", no statement
      has been sent to the pool and the store is unchanged;
    - when [parseInt(id)] is an integer, the response is not 400 and exactly
      one statement has been sent: the route's statement with the Number
      [parseInt(id)] as the blog id. *)
Theorem id_validation_by_parseInt r id body st :
  validated_id r = Some id ->
  (requires_user r = true -> user (session st) <> None) ->
  validateId (parseInt id) = Number_isInteger (parseInt id)
  /\ (is_base10_integer_string id = true -> (String.length id <= 300)%nat ->
      Number_isInteger (parseInt id) = true)
  /\ (forall p rest, numeral 300 p -> stops rest ->
      id = p ++ rest \/ id = String "-" (p ++ rest) ->
      Number_isInteger (parseInt id) = true)
  /\ (Number_isInteger (parseInt id) = false ->
      exists locals st',
        app (mkRequest r body) st
        = (Ok (mkResponse locals
                 (mkReply 400 (Render "error" [("message", VStr "Invalid blog ID")]))),
           st')
        /\ log st' = log st /\ db st' = db st)
  /\ (Number_isInteger (parseInt id) = true ->
      exists res st' q,
        app (mkRequest r body) st = (Ok res, st')
        /\ status (res_reply res) <> 400
        /\ validated_statement r (parseInt id) (user (session st)) = Some q
        /\ log st' = (log st ++ [q])%list).
Proof.
  intros Hr Hu. split; [apply validateId_isInteger|].
  split; [intros H Hlen; now apply JsFacts.parseInt_decimal_string|].
  split.
  { intros p rest Hp Hrest E.
    destruct (JsFacts.parseInt_numeral p rest Hp Hrest) as [[v Hv] [w Hw]].
    destruct E as [-> | ->]; [rewrite Hv | rewrite Hw]; reflexivity. }
  destruct st as [d [u fs fe] fl sa lg].
  destruct r; try discriminate Hr; injection Hr as ->; simpl in Hu.
  - (* GET /view/:id *)
    split; intros H; run; rewrite validateId_isInteger, H; run.
    + eexists; eexists. repeat split.
    + destruct (hd false fl); run.
      * eexists; eexists; eexists. repeat split. discriminate.
      * destruct (exec pg_integer _ d) as [[rs d']|e]; run.
        -- destruct (joined_of rs); run;
             eexists; eexists; eexists; repeat split; discriminate.
        -- eexists; eexists; eexists. repeat split. discriminate.
  - (* GET /edit/:id *)
    destruct u as [i|]; [|exfalso; now apply Hu].
    split; intros H; run; rewrite validateId_isInteger, H; run.
    + eexists; eexists. repeat split.
    + destruct (hd false fl); run.
      * eexists; eexists; eexists. repeat split. discriminate.
      * destruct (exec pg_integer _ d) as [[rs d']|e]; run.
        -- destruct (blogs_of rs); run;
             eexists; eexists; eexists; repeat split; discriminate.
        -- eexists; eexists; eexists. repeat split. discriminate.
  - (* POST /delete/:id *)
    destruct u as [i|]; [|exfalso; now apply Hu].
    split; intros H; run; rewrite validateId_isInteger, H; run.
    + eexists; eexists. repeat split.
    + destruct (hd false fl); run.
      * eexists; eexists; eexists. repeat split. discriminate.
      * destruct (exec pg_integer _ d) as [[rs d']|e]; run;
          eexists; eexists; eexists; repeat split; discriminate.
Qed.

(** *** The two gates *)

Lemma checkAuth_redirects next st :
  user (session st) = None ->
  checkAuth next st
  = (Ok (mkReply 302 (Redirect "/login")),
     with_session st
       (mkSession None (flash_success (session st))
          (flash_error (session st) ++ ["Please login to continue"]))).
Proof.
  destruct st as [d [u fs fe] fl sa lg]. intros H. simpl in H. subst u.
  reflexivity.
Qed.

Lemma isAdmin_redirects next st :
  admin_identity (user (session st)) = false ->
  isAdmin next st = (Ok (mkReply 302 (Redirect "/admin/login")), st).
Proof.
  destruct st as [d [[[id name mail [role|]]|] fs fe] fl sa lg]; intros H;
    simpl in H; run; [rewrite H|..]; reflexivity.
Qed.

Lemma user_gate r body st :
  requires_user r = true ->
  user (session st) = None ->
  exists locals,
    app (mkRequest r body) st
    = (Ok (mkResponse locals (mkReply 302 (Redirect "/login"))),
       mkState (db st) (mkSession None [] ["Please login to continue"])
         (faults st) (salts st) (log st)).
Proof.
  destruct st as [d [u fs fe] fl sa lg]. intros Hr H. simpl in H. subst u.
  destruct r; try discriminate Hr; eexists; reflexivity.
Qed.

Lemma admin_gate r body st :
  requires_admin r = true ->
  admin_identity (user (session st)) = false ->
  exists locals,
    app (mkRequest r body) st
    = (Ok (mkResponse locals (mkReply 302 (Redirect "/admin/login"))),
       mkState (db st) (mkSession (user (session st)) [] [])
         (faults st) (salts st) (log st)).
Proof.
  destruct st as [d [[[id name mail [role|]]|] fs fe] fl sa lg]; intros Hr H;
    simpl in H; destruct r; try discriminate Hr;
    run; try rewrite H; eexists; reflexivity.
Qed.

(** C9.  The gates never run part of the handler they guard.
    - [checkAuth], with no identity in the session, answers with a redirect
      to /login after queueing the error flash "Please login to continue",
      whatever the guarded handler [next] is;
    - [isAdmin], with no identity or an identity whose role is not "admin",
      answers with a redirect to /admin/login and leaves the state as it
      is, whatever [next] is;
    - so a request without identity to a route behind [checkAuth] ends with
      that redirect, the one flash message, and the store, the log of
      statements, the faults and the salts untouched;
    - and a request without an administrator's identity to a route behind
      [isAdmin] ends with the redirect to /admin/login, no flash message,
      the same identity, and everything else untouched. *)
Theorem gates_short_circuit :
  (forall next st,
      user (session st) = None ->
      checkAuth next st
      = (Ok (mkReply 302 (Redirect "/login")),
         with_session st
           (mkSession None (flash_success (session st))
              (flash_error (session st) ++ ["Please login to continue"]))))
  /\ (forall next st,
      admin_identity (user (session st)) = false ->
      isAdmin next st = (Ok (mkReply 302 (Redirect "/admin/login")), st))
  /\ (forall r body st,
      requires_user r = true ->
      user (session st) = None ->
      exists locals,
        app (mkRequest r body) st
        = (Ok (mkResponse locals (mkReply 302 (Redirect "/login"))),
           mkState (db st) (mkSession None [] ["Please login to continue"])
             (faults st) (salts st) (log st)))
  /\ (forall r body st,
      requires_admin r = true ->
      admin_identity (user (session st)) = false ->
      exists locals,
        app (mkRequest r body) st
        = (Ok (mkResponse locals (mkReply 302 (Redirect "/admin/login"))),
           mkState (db st) (mkSession (user (session st)) [] [])
             (faults st) (salts st) (log st))).
Proof.
  split; [exact checkAuth_redirects|].
  split; [exact isAdmin_redirects|].
  split; [exact user_gate | exact admin_gate].
Qed.

(** *** Who can become an administrator *)

Lemma pool_query_session q st : session (snd (pool_query q st)) = session st.
Proof.
  unfold pool_query. destruct (hd false (faults st)); [reflexivity|].
  now destruct (exec pg_integer q (db st)) as [[r d']|e].
Qed.

(** Only the admin login makes an administrator of a session. *)
Lemma app_admin_only_if_before req st :
  req_route req <> PostAdminLogin ->
  admin_only_if_before st (snd (app req st)).
Proof.
  intros Hreq.
  apply (app_preserves admin_only_if_before true false);
    unfold admin_only_if_before.
  - auto.
  - auto.
  - intros q st0 _. now rewrite pool_query_session.
  - intros _ p st0. now rewrite pool_query_session.
  - intros st0 s E. simpl. now rewrite E.
  - intros st0 H. discriminate H.
  - intros st0 s i E Hrole. simpl. rewrite E. simpl. rewrite Hrole. discriminate.
  - discriminate.
  - auto.
  - reflexivity.
  - intros E. now contradiction Hreq.
Qed.

(** C10.  A session made by the public routes is never an administrator's.
    - When POST /login or POST /signup succeeds (it redirects to /), the
      identity bound to the session is [{id, username}] with neither email
      nor role; with that identity every route behind [isAdmin], that is
      every route of /admin but /admin/login, redirects to /admin/login and
      changes nothing, whatever the role of the user in the store.
    - For any request at all: if the session is an administrator's after the
      request, it was one before, or the request was POST /admin/login. *)
Theorem public_sessions_are_not_admin :
  (forall r body st res st',
      r = PostLogin \/ r = PostSignup ->
      app (mkRequest r body) st = (Ok res, st') ->
      sent (res_reply res) = Redirect "/" ->
      (exists id name, user (session st') = Some (mkIdentity id name None None))
      /\ forall ar abody st2,
          requires_admin ar = true ->
          user (session st2) = user (session st') ->
          exists locals,
            app (mkRequest ar abody) st2
            = (Ok (mkResponse locals (mkReply 302 (Redirect "/admin/login"))),
               mkState (db st2) (mkSession (user (session st2)) [] [])
                 (faults st2) (salts st2) (log st2)))
  /\ (forall req st,
      admin_identity (user (session (snd (app req st)))) = true ->
      admin_identity (user (session st)) = true
      \/ req_route req = PostAdminLogin).
Proof.
  split.
  - intros r body st res st' Hr Happ Hsent.
    assert (H : exists id name,
               user (session st') = Some (mkIdentity id name None None)).
    { revert Happ Hsent. destruct st as [d [u fs fe] fl sa lg].
      destruct body as [username email password newPassword name message title content].
      destruct Hr as [-> | ->]; cases;
        intros Happ; first [injection Happ as <- <- | match type of Happ with ?g => idtac g end; fail 1 ]; intros Hsent;
        try discriminate Hsent; simpl; eauto. }
    split; [exact H|].
    intros ar abody st2 Har E. apply admin_gate; [exact Har|].
    destruct H as [id [name H]]. rewrite E, H. reflexivity.
  - intros [r body] st H.
    assert (D : {r = PostAdminLogin} + {r <> PostAdminLogin})
      by (destruct r; (now left) || (right; discriminate)).
    destruct D as [-> | D]; [now right|]. left.
    now apply (app_admin_only_if_before (mkRequest r body) st).
Qed.

(** C7.  No administrator is deleted.  Let [u] be a user row with role
    "admin" in a store whose user ids are unique (the primary key).
    - After any request, a row with the id of [u] is still in the table.
    - A request to any route but POST /admin/users/delete/:id removes no
      user row at all.
    - A request to POST /admin/users/delete/:id whose id denotes [u] leaves
      the users table as it is; from an administrator's session, and with
      the connection up, the answer is HTTP 403 "Cannot delete another
      admin". *)
Theorem admins_are_never_deleted req st u :
  NoDup (map u_id (users (db st))) ->
  In u (users (db st)) ->
  u_role u = "admin" ->
  (exists u', In u' (users (db (snd (app req st)))) /\ u_id u' = u_id u)
  /\ ((forall id, req_route req <> PostAdminUsersDelete id) ->
      incl (map u_id (users (db st))) (map u_id (users (db (snd (app req st))))))
  /\ (forall id,
      req_route req = PostAdminUsersDelete id ->
      pg_integer (PStr id) = Some (u_id u) ->
      users (db (snd (app req st))) = users (db st)
      /\ (admin_identity (user (session st)) = true ->
          hd false (faults st) = false ->
          exists locals,
            fst (app req st)
            = Ok (mkResponse locals
                    (mkReply 403 (Send "Cannot delete another admin"))))).
Proof.
  intros Hnd Hin Hrole.
  assert (Hkeep : (forall id, req_route req <> PostAdminUsersDelete id) ->
                  incl (map u_id (users (db st)))
                    (map u_id (users (db (snd (app req st)))))).
  { intros Hreq. now apply app_keeps_user_ids. }
  assert (Hfilter : forall i, u_id u = i ->
            exists rest, filter (fun w => u_id w =? i) (users (db st)) = u :: rest).
  { intros i E.
    destruct (filter (fun w => u_id w =? i) (users (db st))) as [|w rest] eqn:F.
    - exfalso. assert (In u []) as []. rewrite <- F. apply filter_In.
      split; [exact Hin | now apply Z.eqb_eq].
    - assert (Hw : In w (filter (fun w => u_id w =? i) (users (db st))))
        by (rewrite F; now left).
      apply filter_In in Hw. destruct Hw as [Hw Hi]. apply Z.eqb_eq in Hi.
      exists rest. f_equal. apply (unique_id (users (db st))); auto. congruence. }
  split; [|split; [exact Hkeep|]].
  - destruct req as [r body]. destruct r;
      try (assert (Hi : In (u_id u) (map u_id (users (db (snd (app (mkRequest _ body) st))))))
             by (apply Hkeep; [intros ? ?; discriminate | now apply in_map]);
           apply in_map_iff in Hi; destruct Hi as [u' [E Hu']]; now exists u').
    (* POST /admin/users/delete/:id *)
    destruct st as [d [v fs fe] fl sa lg]. simpl in Hnd, Hin.
    assert (Hsame : exists u', In u' (users d) /\ u_id u' = u_id u) by now exists u.
    run. destruct v as [[vid vname vmail [vrole|]]|]; run; try exact Hsame.
    destruct (vrole =? "admin")%string; run; [|exact Hsame].
    destruct (hd false fl); run; [exact Hsame|].
    cbv [exec with_id]. destruct (pg_integer (PStr id)) as [i|]; run; [|exact Hsame].
    destruct (filter (fun w => u_id w =? i) (users d)) as [|row rest] eqn:F; run;
      [exact Hsame|].
    destruct (u_role row =? "admin")%string eqn:Erow; run; [exact Hsame|].
    destruct (hd false (tl fl)); run; [exact Hsame|].
    destruct (existsb _ (users d) && existsb _ (blogs d)); run; [exact Hsame|].
    simpl. exists u. split; [|reflexivity]. apply filter_In. split; [exact Hin|].
    destruct (u_id u =? i) eqn:Ei; [|reflexivity]. exfalso.
    apply Z.eqb_eq in Ei. destruct (Hfilter i Ei) as [rest' F'].
    simpl in F'. rewrite F in F'. injection F' as -> _.
    rewrite Hrole in Erow. discriminate Erow.
  - intros id Hreq Hpg. destruct req as [r body]. simpl in Hreq. subst r.
    destruct (Hfilter (u_id u) eq_refl) as [rest F].
    destruct st as [d [v fs fe] fl sa lg]. simpl in Hnd, Hin, F |- *.
    split.
    + run. destruct v as [[vid vname vmail [vrole|]]|]; run; try reflexivity.
      destruct (vrole =? "admin")%string; run; [|reflexivity].
      destruct (hd false fl); run; [reflexivity|].
      cbv [exec with_id]. rewrite Hpg. run. rewrite F. run. rewrite Hrole.
      reflexivity.
    + intros Hadm Hfault.
      destruct v as [[vid vname vmail [vrole|]]|]; try discriminate Hadm.
      simpl in Hadm, Hfault. run. rewrite Hadm. run. rewrite Hfault. run.
      cbv [exec with_id]. rewrite Hpg. run. rewrite F. run. rewrite Hrole.
      eexists. reflexivity.
Qed.

(** *** The contact form *)

(** C3, amended.  A POST to /contact whose body the body parsers reject
    never reaches the route: the error handler answers HTTP 500 with the
    rendered error page, and neither the session nor the store is touched.
    A POST to /contact whose body is parsed is answered HTTP 200 with a
    JSON body.  [valid] says that name, email and message are all
    non-empty; [insert] is the INSERT as it would run after the template
    variables are set.
    - When a field is empty the body is [{success: false, error: "All
      fields are required"}] and nothing else happens.
    - When the INSERT throws the body is [{success: false, error: "Server
      error while sending message"}], still with status 200, and the store
      is unchanged.
    - When the INSERT succeeds the body is [{success: true, message:
      "Message sent successfully!"}] and the state is the one the INSERT
      left.
    - [success: true] is returned only in the last case. *)
Theorem contact_post_answers_json_once_parsed body st :
  (forall message,
      server PostContact (Rejected message) st
      = (Ok (mkResponse []
               (mkReply 500
                  (Render "error"
                     [("message",
                       VStr (if String.eqb message "" then "Server Error"
                             else message))]))),
         st))
  /\ let valid :=
       negb (falsy (body_name body) || falsy (body_email body)
             || falsy (body_message body)) in
     let st1 := with_session st (mkSession (user (session st)) [] []) in
     let insert :=
       pool_query
         (InsertContactMessage (body_name body) (body_email body)
            (body_message body)) st1 in
     exists locals fields,
       fst (server PostContact (Parsed body) st)
       = Ok (mkResponse locals (mkReply 200 (Json fields)))
       /\ (valid = false ->
           fields = [("success", VBool false);
                     ("error", VStr "All fields are required")]
           /\ snd (server PostContact (Parsed body) st) = st1)
       /\ (valid = true ->
           forall e, fst insert = Throw e ->
           fields = [("success", VBool false);
                     ("error", VStr "Server error while sending message")]
           /\ db (snd (server PostContact (Parsed body) st)) = db st)
       /\ (valid = true ->
           forall r, fst insert = Ok r ->
           fields = [("success", VBool true);
                     ("message", VStr "Message sent successfully!")]
           /\ snd (server PostContact (Parsed body) st) = snd insert)
       /\ (In ("success", VBool true) fields <->
           valid = true /\ exists r, fst insert = Ok r).
Proof.
  split; [intros message; destruct st; reflexivity|].
  destruct st as [d [u fs fe] fl sa lg].
  destruct body as [username email password newPassword name message title content].
  cbv zeta. cbv [server]. run.
  destruct (falsy name || falsy email || falsy message); run.
  - eexists; eexists. split; [reflexivity|].
    split; [intros _; split; reflexivity|].
    split; [intros H; discriminate H|].
    split; [intros H; discriminate H|].
    split; [intros [H | [H | []]]; discriminate H | intros [H _]; discriminate H].
  - destruct (hd false fl); run.
    + eexists; eexists. split; [reflexivity|].
      split; [intros H; discriminate H|].
      split; [intros _ e _; split; reflexivity|].
      split; [intros _ r H; discriminate H|].
      split; [intros [H | [H | []]]; discriminate H
             | intros [_ [r H]]; discriminate H].
    + destruct (exec pg_integer _ d) as [[r d']|e] eqn:E; run.
      * eexists; eexists. split; [reflexivity|].
        split; [intros H; discriminate H|].
        split; [intros _ e H; discriminate H|].
        split; [intros _ r0 _; split; reflexivity|].
        split; [intros _; split; [reflexivity | now exists r] | now left].
      * eexists; eexists. split; [reflexivity|].
        split; [intros H; discriminate H|].
        split; [intros _ e0 _; split; reflexivity|].
        split; [intros _ r H; discriminate H|].
        split; [intros [H | [H | []]]; discriminate H
               | intros [_ [r H]]; discriminate H].
Qed.

(** *** Approval *)

Lemma approve_twice i bs : map (approve i) (map (approve i) bs) = map (approve i) bs.
Proof.
  rewrite map_map. apply map_ext. intros b. unfold approve.
  destruct (b_id b =? i) eqn:E; simpl; now rewrite E.
Qed.

Lemma approve_approved i bs :
  (forall b, In b bs -> b_id b = i -> b_status b = Some "approved") ->
  map (approve i) bs = bs.
Proof.
  intros H. rewrite <- (map_id bs) at 2. apply map_ext_in. intros b Hb.
  unfold approve. destruct (b_id b =? i) eqn:E; [|reflexivity].
  apply Z.eqb_eq in E. specialize (H b Hb E). destruct b; simpl in *. now subst.
Qed.

Lemma approve_sets_status i bs b :
  In b (map (approve i) bs) -> b_id b = i -> b_status b = Some "approved".
Proof.
  intros Hb E. apply in_map_iff in Hb. destruct Hb as [b0 [<- _]].
  unfold approve in *. destruct (b_id b0 =? i) eqn:E0; [reflexivity|].
  apply Z.eqb_neq in E0. contradiction.
Qed.

(** C4.  Approval is idempotent.  From an administrator's session, with
    the connection up for both requests and an id the store accepts as the
    integer [i]: POST /admin/blogs/approve/:id answers with a redirect to
    /admin/blogs the first and the second time; after either request every
    blog with id [i] has status 'approved'; the second request leaves the
    store exactly as the first left it; and when the blogs with id [i] are
    approved already, the first request changes nothing either. *)
Theorem approve_is_idempotent id i body st :
  admin_identity (user (session st)) = true ->
  hd false (faults st) = false ->
  hd false (tl (faults st)) = false ->
  pg_integer (PStr id) = Some i ->
  let req := mkRequest (PostAdminBlogsApprove id) body in
  let once := app req st in
  let twice := app req (snd once) in
  (exists locals,
      fst once = Ok (mkResponse locals (mkReply 302 (Redirect "/admin/blogs"))))
  /\ (exists locals,
      fst twice = Ok (mkResponse locals (mkReply 302 (Redirect "/admin/blogs"))))
  /\ (forall b, In b (blogs (db (snd once))) -> b_id b = i ->
      b_status b = Some "approved")
  /\ (forall b, In b (blogs (db (snd twice))) -> b_id b = i ->
      b_status b = Some "approved")
  /\ db (snd twice) = db (snd once)
  /\ ((forall b, In b (blogs (db st)) -> b_id b = i ->
       b_status b = Some "approved") ->
      db (snd once) = db st).
Proof.
  destruct st as [d [[[aid aname amail [arole|]]|] fs fe] fl sa lg];
    intros Hadm Hf1 Hf2 Hpg; try discriminate Hadm.
  simpl in Hadm, Hf1, Hf2. cbv zeta.
  repeat first [ rewrite Hadm | rewrite Hf1 | rewrite Hf2 | rewrite Hpg
               | progress run | progress cbv [exec with_id] ].
  fold (approve i). cbn [blogs with_blogs].
  split; [eexists; reflexivity|].
  split; [eexists; reflexivity|].
  split; [apply approve_sets_status|].
  split; [rewrite approve_twice; apply approve_sets_status|].
  split; [unfold with_blogs; simpl; now rewrite approve_twice|].
  intros H. unfold with_blogs. rewrite approve_approved by exact H.
  now destruct d.
Qed.

(** *** Login *)

(** C5.  A login with a wrong password.  The body carries a non-empty
    email [e] and a non-empty password [p], the connection is up, the
    lookup by [e] returns the row [u] first, and [p] does not verify against
    the digest of [u].  Then the response is a redirect to /login, the
    error flash queue holds exactly "Incorrect password", the identity bound
    to the session is the one it had (none, if there was none), and the
    store is unchanged; the only statement sent is the lookup. *)
Theorem login_with_wrong_password body st e p u rest :
  body_email body = Some e -> e <> "" ->
  body_password body = Some p -> p <> "" ->
  hd false (faults st) = false ->
  exec pg_integer (SelectUsersByEmail (Some e)) (db st)
  = Ok (UserRows (u :: rest), db st) ->
  bcrypt_compare p (u_password u) = false ->
  exists locals,
    app (mkRequest PostLogin body) st
    = (Ok (mkResponse locals (mkReply 302 (Redirect "/login"))),
       mkState (db st)
         (mkSession (user (session st)) [] ["Incorrect password"])
         (tl (faults st)) (salts st)
         (log st ++ [SelectUsersByEmail (Some e)])).
Proof.
  destruct st as [d [v fs fe] fl sa lg].
  destruct body as [username email password newPassword name message title content].
  intros E1 He E2 Hp Hf Hq Hcmp.
  cbn [body_email body_password db faults] in E1, E2, Hf, Hq. subst email password.
  apply String.eqb_neq in He, Hp.
  run. cbv [falsy]. rewrite He, Hp. run. rewrite Hf. run. rewrite Hq. run.
  rewrite Hcmp. run. eexists. reflexivity.
Qed.

(** *** Deleting a blog *)

(** C6.  Deleting somebody else's blog.  The session identity is [a], the
    id parses to an integer that the store reads as [i], the connection is
    up.  Then POST /delete/:id answers with a redirect to /dashboard and
    queues the success flash "Blog deleted successfully" whoever owns the
    blog; the one statement sent is the DELETE with [a]'s id as second
    parameter, which removes exactly the rows with id [i] owned by [a]; and
    when no blog with id [i] is owned by [a], the store is unchanged. *)
Theorem delete_by_non_owner id i a body st :
  user (session st) = Some a ->
  Number_isInteger (parseInt id) = true ->
  hd false (faults st) = false ->
  pg_integer (PNum (parseInt id)) = Some i ->
  pg_integer (PNum (Int (i_id a))) = Some (i_id a) ->
  exists locals st',
    app (mkRequest (PostDelete id) body) st
    = (Ok (mkResponse locals (mkReply 302 (Redirect "/dashboard"))), st')
    /\ session st' = mkSession (Some a) ["Blog deleted successfully"] []
    /\ log st'
       = (log st
          ++ [DeleteBlogByIdAndUser (PNum (parseInt id)) (PNum (Int (i_id a)))])%list
    /\ blogs (db st')
       = filter (fun b => negb ((b_id b =? i) && (b_user_id b =? i_id a)))
           (blogs (db st))
    /\ ((forall b, In b (blogs (db st)) -> b_id b = i -> b_user_id b <> i_id a) ->
        db st' = db st).
Proof.
  destruct st as [d [v fs fe] fl sa lg]. simpl.
  intros -> Hint Hf Hid Hme.
  run. rewrite validateId_isInteger, Hint. run. rewrite Hf. run.
  cbv [exec with_id]. rewrite Hid, Hme. run.
  eexists; eexists. split; [reflexivity|]. cbn [session log db blogs with_blogs].
  repeat split. intros Hown.
  assert (E : filter (fun b => negb ((b_id b =? i) && (b_user_id b =? i_id a)))
                (blogs d) = blogs d).
  { apply forallb_filter_id. apply forallb_forall. intros b Hb.
    destruct (b_id b =? i) eqn:E1; [|reflexivity].
    destruct (b_user_id b =? i_id a) eqn:E2; [|reflexivity].
    apply Z.eqb_eq in E1, E2. now contradiction (Hown b Hb E1). }
  change (with_blogs d
            (filter (fun b => negb ((b_id b =? i) && (b_user_id b =? i_id a)))
               (blogs d)) = d).
  unfold with_blogs. rewrite E. now destruct d.
Qed.

(** *** The two routes to the contact messages *)

(** C8.  GET /admin/messages and GET /admin/contact-messages are the same
    function of the state, whatever the bodies of the two requests; from an
    administrator's session with the connection up, they send the one
    statement [SELECT * FROM contact_messages ORDER BY created_at DESC] and
    render admin/admin-messages with all contact messages, newest first. *)
Theorem admin_messages_routes_agree body body' st :
  app (mkRequest GetAdminMessages body) st
  = app (mkRequest GetAdminContactMessages body') st
  /\ (admin_identity (user (session st)) = true ->
      hd false (faults st) = false ->
      exists locals l st',
        app (mkRequest GetAdminMessages body) st
        = (Ok (mkResponse locals
                 (mkReply 200
                    (Render "admin/admin-messages"
                       [("layout", VBool false);
                        ("user", match user (session st) with
                                 | Some i => VIdentity i
                                 | None => VNull
                                 end);
                        ("messages", VMessages l)]))),
           st')
        /\ log st' = (log st ++ [SelectContactMessages])%list
        /\ Permutation l (contact_messages (db st))
        /\ newest_first l).
Proof.
  split; [reflexivity|].
  destruct st as [d [[[aid aname amail [arole|]]|] fs fe] fl sa lg];
    intros Hadm Hf; try discriminate Hadm.
  simpl in Hadm, Hf. run. rewrite Hadm. run. rewrite Hf. run.
  cbv [exec]. run.
  eexists; eexists; eexists. split; [reflexivity|].
  split; [reflexivity|].
  split; [apply order_by_desc_permutation | apply order_by_desc_sorted].
Qed.

(** *** Editing a blog *)

(** C2, what the code does instead.  For an authenticated user, POST
    /edit/:id never answers HTTP 400, whatever the id: the answer is a
    redirect or a 500, and when title and content are non-empty the UPDATE
    is sent with [parseInt(id)] as it is, [NaN] included. *)
Theorem edit_post_never_answers_400 id body st :
  user (session st) <> None ->
  exists res st',
    app (mkRequest (PostEdit id) body) st = (Ok res, st')
    /\ status (res_reply res) <> 400
    /\ (status (res_reply res) = 302 \/ status (res_reply res) = 500)
    /\ (falsy (body_title body) || falsy (body_content body) = false ->
        exists uid,
          log st'
          = (log st
             ++ [UpdateBlogByIdAndUser (body_title body) (body_content body)
                   (PNum (parseInt id)) uid])%list).
Proof.
  destruct st as [d [[a|] fs fe] fl sa lg]; intros Hu; [|now contradiction Hu].
  destruct body as [username email password newPassword name message title content].
  run. destruct (falsy title || falsy content); run.
  - eexists; eexists. split; [reflexivity|].
    split; [discriminate|]. split; [now left | discriminate].
  - destruct (hd false fl); run.
    + eexists; eexists. split; [reflexivity|].
      split; [discriminate|]. split; [now right | eexists; reflexivity].
    + destruct (exec pg_integer _ d) as [[r d']|e]; run;
        eexists; eexists; (split; [reflexivity|]);
        (split; [discriminate|]);
        (split; [(now left) || (now right) | eexists; reflexivity]).
Qed.

(** The second half of C2: the owner's edit. *)
Lemma edit_post_updates_own_blog id i a body st :
  user (session st) = Some a ->
  falsy (body_title body) || falsy (body_content body) = false ->
  hd false (faults st) = false ->
  pg_integer (PNum (parseInt id)) = Some i ->
  pg_integer (PNum (Int (i_id a))) = Some (i_id a) ->
  exists locals st',
    app (mkRequest (PostEdit id) body) st
    = (Ok (mkResponse locals (mkReply 302 (Redirect "/dashboard"))), st')
    /\ session st' = mkSession (Some a) ["Blog updated successfully"] []
    /\ blogs (db st')
       = map (fun b =>
                if (b_id b =? i) && (b_user_id b =? i_id a)
                then mkBlog (b_id b) (b_user_id b) (body_title body)
                       (body_content body) (b_status b) (b_created_at b)
                else b)
           (blogs (db st)).
Proof.
  destruct st as [d [v fs fe] fl sa lg].
  destruct body as [username email password newPassword name message title content].
  intros Hu Hfields Hf Hid Hme.
  cbn [session user faults body_title body_content] in Hu, Hfields, Hf. subst v.
  run. rewrite Hfields. run. rewrite Hf. run.
  cbv [exec with_id]. rewrite Hid, Hme. run.
  eexists; eexists. repeat split.
Qed.

End Properties.

(** ** The theorems at work on the sample platform *)

(** C1 as stated fails.  [12abc] is not a base-10 integer string, yet GET
    /view/12abc is not answered with 400: the handler queries blog 12 and
    renders it. *)
Lemma every_id_route_validates_fails :
  ~ (forall r id body st,
        route_id r = Some id ->
        (requires_user r = true -> user (session st) <> None) ->
        (requires_admin r = true -> admin_identity (user (session st)) = true) ->
        is_base10_integer_string id = false ->
        exists res st',
          sample_app (mkRequest r body) st = (Ok res, st')
          /\ status (res_reply res) = 400
          /\ log st' = log st).
Proof.
  intros H.
  destruct (H (GetView "12abc") "12abc" empty_body anonymous eq_refl
              ltac:(discriminate) ltac:(discriminate) eq_refl)
    as [res [st' [H1 [H2 _]]]].
  vm_compute in H1. injection H1 as <- _. discriminate H2.
Qed.

(** C3 as stated fails.  A POST to /contact with a body that
    [express.json] rejects, such as a truncated JSON text, is answered
    HTTP 500 with the rendered error page: neither a 2xx status nor a JSON
    body. *)
Lemma contact_post_always_json_fails :
  ~ (forall body st,
        exists res st' fields,
          sample_server PostContact body st = (Ok res, st')
          /\ 200 <= status (res_reply res) < 300
          /\ sent (res_reply res) = Json fields).
Proof.
  intros H.
  destruct (H (Rejected "Unexpected end of JSON input") anonymous)
    as [res [st' [fields [H1 [H2 _]]]]].
  vm_compute in H1. injection H1 as <- _. cbn [status res_reply] in H2. lia.
Qed.

Lemma id_validation_by_parseInt_witness :
  validated_id (GetEdit "abc") = Some "abc"
  /\ (requires_user (GetEdit "abc") = true ->
      user (session (as_identity alice_session)) <> None)
  /\ (exists locals st',
      sample_app (get (GetEdit "abc")) (as_identity alice_session)
      = (Ok (mkResponse locals
               (mkReply 400 (Render "error" [("message", VStr "Invalid blog ID")]))),
         st')
      /\ log st' = [] /\ db st' = sample_db)
  /\ exists res st',
      sample_app (get (GetView "12abc")) anonymous = (Ok res, st')
      /\ status (res_reply res) <> 400
      /\ log st' = [SelectBlogJoinUserById (PNum (Int 12))].
Proof.
  split; [reflexivity|]. split; [discriminate|]. split.
  - destruct (@id_validation_by_parseInt sample_platform (GetEdit "abc") "abc"
                empty_body (as_identity alice_session) eq_refl
                ltac:(discriminate)) as [_ [_ [_ [H _]]]].
    exact (H eq_refl).
  - destruct (@id_validation_by_parseInt sample_platform (GetView "12abc")
                "12abc" empty_body anonymous eq_refl
                ltac:(discriminate)) as [_ [_ [_ [_ H]]]].
    destruct (H eq_refl) as [res [st' [q [H1 [H2 [H3 H4]]]]]].
    exists res, st'. split; [exact H1|]. split; [exact H2|].
    injection H3 as <-. exact H4.
Defined.

Lemma edit_post_never_answers_400_witness :
  user (session (as_identity alice_session)) <> None
  /\ exists res st',
      sample_app (mkRequest (PostEdit "abc") (form "t" "c"))
        (as_identity alice_session) = (Ok res, st')
      /\ status (res_reply res) <> 400
      /\ log st'
         = [UpdateBlogByIdAndUser (Some "t") (Some "c") (PNum NaN) (PNum (Int 1))].
Proof.
  split; [discriminate|].
  destruct (@edit_post_never_answers_400 sample_platform "abc" (form "t" "c")
              (as_identity alice_session) ltac:(discriminate))
    as [res [st' [H1 [H2 [_ H3]]]]].
  exists res, st'. split; [exact H1|]. split; [exact H2|].
  destruct (H3 eq_refl) as [uid H4].
  vm_compute in H1. injection H1 as _ <-. reflexivity.
Defined.

Lemma contact_post_answers_json_once_parsed_witness :
  (exists locals,
      fst (sample_server PostContact
             (Parsed (contact_form "eve" "eve@example.org" "hello")) anonymous)
      = Ok (mkResponse locals
              (mkReply 200
                 (Json [("success", VBool true);
                        ("message", VStr "Message sent successfully!")]))))
  /\ sample_server PostContact (Rejected "Unexpected end of JSON input")
       anonymous
     = (Ok (mkResponse []
              (mkReply 500
                 (Render "error"
                    [("message", VStr "Unexpected end of JSON input")]))),
        anonymous).
Proof.
  destruct (@contact_post_answers_json_once_parsed sample_platform
              (contact_form "eve" "eve@example.org" "hello") anonymous)
    as [Hrejected [locals [fields [H1 [_ [_ [H4 _]]]]]]].
  split.
  - destruct (H4 eq_refl NoRows eq_refl) as [Hfields _].
    exists locals. rewrite <- Hfields. exact H1.
  - exact (Hrejected "Unexpected end of JSON input").
Defined.

Lemma approve_is_idempotent_witness :
  admin_identity (user (session (as_identity root_session))) = true
  /\ sample_pg_integer (PStr "10") = Some 10
  /\ db (snd (sample_app (get (PostAdminBlogsApprove "10"))
                (snd (sample_app (get (PostAdminBlogsApprove "10"))
                        (as_identity root_session)))))
     = db (snd (sample_app (get (PostAdminBlogsApprove "10"))
                  (as_identity root_session))).
Proof.
  split; [reflexivity|]. split; [reflexivity|].
  destruct (@approve_is_idempotent sample_platform "10" 10 empty_body
              (as_identity root_session) eq_refl eq_refl eq_refl eq_refl)
    as [_ [_ [_ [_ [H _]]]]].
  exact H.
Defined.

Lemma login_with_wrong_password_witness :
  sample_compare "guess!" (u_password root) = false
  /\ exists locals,
      sample_app (mkRequest PostLogin (credentials "root@example.org" "guess!"))
        anonymous
      = (Ok (mkResponse locals (mkReply 302 (Redirect "/login"))),
         mkState sample_db (mkSession None [] ["Incorrect password"]) [] []
           [SelectUsersByEmail (Some "root@example.org")]).
Proof.
  split; [reflexivity|].
  exact (@login_with_wrong_password sample_platform
           (credentials "root@example.org" "guess!") anonymous
           "root@example.org" "guess!" root [] eq_refl ltac:(discriminate)
           eq_refl ltac:(discriminate) eq_refl eq_refl eq_refl).
Defined.

Lemma delete_by_non_owner_witness :
  (forall b, In b (blogs sample_db) -> b_id b = 11 -> b_user_id b <> 1)
  /\ exists locals st',
      sample_app (get (PostDelete "11")) (as_identity alice_session)
      = (Ok (mkResponse locals (mkReply 302 (Redirect "/dashboard"))), st')
      /\ session st'
         = mkSession (Some alice_session) ["Blog deleted successfully"] []
      /\ db st' = sample_db.
Proof.
  assert (Hown : forall b, In b (blogs sample_db) -> b_id b = 11 ->
                           b_user_id b <> 1).
  { intros b [<- | [<- | [<- | []]]] E; simpl in E; try discriminate E.
    discriminate. }
  split; [exact Hown|].
  destruct (@delete_by_non_owner sample_platform "11" 11 alice_session
              empty_body (as_identity alice_session)
              eq_refl eq_refl eq_refl eq_refl eq_refl)
    as [locals [st' [H1 [H2 [_ [_ H5]]]]]].
  exists locals, st'. split; [exact H1|]. split; [exact H2|]. exact (H5 Hown).
Defined.

Lemma admins_are_never_deleted_witness :
  NoDup (map u_id (users sample_db))
  /\ In root (users sample_db)
  /\ users (db (snd (sample_app (get (PostAdminUsersDelete "3"))
                       (as_identity root_session))))
     = users sample_db
  /\ exists locals,
      fst (sample_app (get (PostAdminUsersDelete "3")) (as_identity root_session))
      = Ok (mkResponse locals
              (mkReply 403 (Send "Cannot delete another admin"))).
Proof.
  assert (Hnd : NoDup (map u_id (users sample_db))).
  { simpl. repeat constructor; simpl; intuition discriminate. }
  assert (Hin : In root (users sample_db)) by (simpl; auto).
  split; [exact Hnd|]. split; [exact Hin|].
  destruct (@admins_are_never_deleted sample_platform
              (get (PostAdminUsersDelete "3")) (as_identity root_session) root
              Hnd Hin eq_refl) as [_ [_ H]].
  destruct (H "3" eq_refl eq_refl) as [H1 H2].
  split; [exact H1 | exact (H2 eq_refl eq_refl)].
Defined.

Lemma admin_messages_routes_agree_witness :
  exists locals l st',
    sample_app (get GetAdminMessages) (as_identity root_session)
    = (Ok (mkResponse locals
             (mkReply 200
                (Render "admin/admin-messages"
                   [("layout", VBool false); ("user", VIdentity root_session);
                    ("messages", VMessages l)]))),
       st')
    /\ log st' = [SelectContactMessages]
    /\ Permutation l (contact_messages sample_db)
    /\ newest_first l.
Proof.
  destruct (@admin_messages_routes_agree sample_platform empty_body empty_body
              (as_identity root_session)) as [_ H].
  exact (H eq_refl eq_refl).
Defined.

Lemma gates_short_circuit_witness :
  (exists locals,
      sample_app (get GetDashboard) anonymous
      = (Ok (mkResponse locals (mkReply 302 (Redirect "/login"))),
         mkState sample_db (mkSession None [] ["Please login to continue"])
           [] [] []))
  /\ (exists locals,
      sample_app (get GetAdminUsers) (as_identity alice_session)
      = (Ok (mkResponse locals (mkReply 302 (Redirect "/admin/login"))),
         as_identity alice_session)).
Proof.
  destruct (@gates_short_circuit sample_platform) as [_ [_ [Hu Ha]]].
  split.
  - exact (Hu GetDashboard empty_body anonymous eq_refl eq_refl).
  - exact (Ha GetAdminUsers empty_body (as_identity alice_session) eq_refl eq_refl).
Defined.

(** [root] is an administrator in the store; logged in through [/login],
    the administrator is turned away from the console. *)
Lemma public_sessions_are_not_admin_witness :
  u_role root = "admin"
  /\ exists locals,
      fst (sample_app (get GetAdmin)
             (snd (sample_app
                     (mkRequest PostLogin (credentials "root@example.org" "toor-toor"))
                     anonymous)))
      = Ok (mkResponse locals (mkReply 302 (Redirect "/admin/login"))).
Proof.
  split; [reflexivity|].
  destruct (@public_sessions_are_not_admin sample_platform) as [H _].
  pose (out := sample_app
                 (mkRequest PostLogin (credentials "root@example.org" "toor-toor"))
                 anonymous).
  assert (E : exists res, out = (Ok res, snd out)) by (eexists; reflexivity).
  destruct E as [res E].
  assert (Hsent : sent (res_reply res) = Redirect "/").
  { vm_compute in E. injection E as <-. reflexivity. }
  destruct (H PostLogin _ anonymous res (snd out) (or_introl eq_refl) E Hsent)
    as [_ Hgate].
  destruct (Hgate GetAdmin empty_body (snd out) eq_refl eq_refl) as [locals Hl].
  exists locals. exact (f_equal fst Hl).
Defined.

(** ** Further facts about lists and about the JavaScript fragment *)

Lemma filter_none {A : Type} (f : A -> bool) l :
  (forall x, In x l -> f x = false) -> filter f l = [].
Proof.
  induction l as [|y l IH]; intros H; simpl; [reflexivity|].
  rewrite (H y) by now left. apply IH. intros x Hx. apply H. now right.
Qed.

Lemma filter_first {A : Type} (f : A -> bool) l x :
  In x l -> f x = true -> exists y rest, filter f l = y :: rest.
Proof.
  intros Hin Hf.
  destruct (filter f l) as [|y rest] eqn:E; [|eauto].
  assert (In x (filter f l)) by (apply filter_In; auto).
  rewrite E in H. contradiction.
Qed.

Lemma filter_head {A : Type} (f : A -> bool) l y rest :
  filter f l = y :: rest -> In y l /\ f y = true.
Proof.
  intros E. apply filter_In. rewrite E. now left.
Qed.

Lemma existsb_none {A : Type} (f : A -> bool) l :
  (forall x, In x l -> f x = false) -> existsb f l = false.
Proof.
  induction l as [|y l IH]; intros H; simpl; [reflexivity|].
  rewrite (H y) by now left. apply IH. intros x Hx. apply H. now right.
Qed.

Lemma long_is_truthy p : (6 <= String.length p)%nat -> String.eqb p "" = false.
Proof. destruct p; simpl; [lia | reflexivity]. Qed.

Lemma filter_map_commute {A : Type} (p : A -> bool) (f : A -> A) l :
  (forall x, p (f x) = p x) -> filter p (map f l) = map f (filter p l).
Proof.
  intros H. induction l as [|x l IH]; simpl; [reflexivity|].
  rewrite H. destruct (p x); simpl; now rewrite IH.
Qed.

Lemma in_map_fixed {A : Type} (f : A -> A) l x :
  In x l -> f x = x -> In x (map f l).
Proof. intros H E. rewrite <- E. now apply in_map. Qed.

(** The decimal numeral of an id is parsed back to the id. *)
Lemma parseInt_decimal n : 0 <= n < 2 ^ 53 -> parseInt (decimal n) = Int n.
Proof.
  intros Hn.
  destruct (JsFacts.decimal_numeral n) as [Hall [_ [c [r E]]]].
  pose proof (JsFacts.decimal_read_back n ltac:(lia)) as Hread.
  rewrite E in *. simpl in Hall.
  destruct (radix_digit 10 c) as [d|] eqn:Hd; [|discriminate].
  destruct (JsFacts.decimal_char_plain c d Hd) as [Hws [Hminus [Hplus _]]].
  unfold parseInt. cbn [trim_start]. rewrite Hws, Hminus, Hplus.
  assert (Hstrip : strip_prefix (String c r) = (10, String c r)).
  { destruct r as [|c1 r1]; [reflexivity|]. simpl in Hall |- *.
    destruct (radix_digit 10 c1) as [d1|] eqn:Hd1; [|discriminate].
    destruct (JsFacts.decimal_char_plain c1 d1 Hd1) as [_ [_ [_ [H1 H2]]]].
    rewrite H1, H2. now rewrite andb_false_r. }
  unfold signed_digits. rewrite Hstrip, Hread, Z.mul_1_l.
  unfold to_double.
  replace (Z.abs n <? 2 ^ 53) with true; [reflexivity|].
  symmetry. apply Z.ltb_lt. lia.
Qed.

Lemma join_users_app us bs bs' :
  join_users us (bs ++ bs') = (join_users us bs ++ join_users us bs')%list.
Proof. unfold join_users. apply flat_map_app. Qed.

Lemma in_join_users us bs b name :
  In (b, name) (join_users us bs)
  <-> In b bs
      /\ exists u, In u us /\ u_id u = b_user_id b /\ u_username u = name.
Proof.
  unfold join_users. rewrite in_flat_map. split.
  - intros [b0 [Hb H]]. apply in_map_iff in H. destruct H as [u [E Hu]].
    injection E as <- <-. apply filter_In in Hu. destruct Hu as [Hu Hid].
    apply Z.eqb_eq in Hid. split; [exact Hb|]. exists u. auto.
  - intros [Hb [u [Hu [Hid <-]]]]. exists b. split; [exact Hb|].
    apply in_map_iff. exists u. split; [reflexivity|].
    apply filter_In. split; [exact Hu|]. apply Z.eqb_eq. congruence.
Qed.

Lemma filter_unique_id us u :
  NoDup (map u_id us) -> In u us ->
  filter (fun w => u_id u =? u_id w) us = [u].
Proof.
  induction us as [|w us IH]; simpl; [easy|].
  intros Hnd Hin. inversion Hnd as [|? ? Hnotin Hnd']; subst.
  destruct Hin as [-> | Hin].
  - rewrite Z.eqb_refl. f_equal. apply filter_none. intros x Hx.
    apply Z.eqb_neq. intros E. apply Hnotin. rewrite E. now apply in_map.
  - destruct (u_id u =? u_id w) eqn:E; [|now apply IH].
    apply Z.eqb_eq in E. exfalso. apply Hnotin. rewrite <- E. now apply in_map.
Qed.

Lemma unique_blog_id (bs : list Blog) b b' :
  NoDup (map b_id bs) -> In b bs -> In b' bs -> b_id b = b_id b' -> b = b'.
Proof.
  induction bs as [|x bs IH]; simpl; [easy|].
  intros Hnd Hb Hb' E. inversion Hnd as [|? ? Hnotin Hnd']; subst.
  destruct Hb as [-> | Hb], Hb' as [-> | Hb']; auto.
  - exfalso. apply Hnotin. rewrite E. now apply in_map.
  - exfalso. apply Hnotin. rewrite <- E. now apply in_map.
Qed.

Lemma keeps_statuses_of bs bs' :
  NoDup (map b_id bs) ->
  (forall b', In b' bs' ->
     (exists b, In b bs /\ b_id b = b_id b' /\ b_status b = b_status b')
     \/ (b_status b' = None /\ forall b, In b bs -> b_id b <> b_id b')) ->
  keeps_statuses bs bs'.
Proof.
  intros Hnd H b' Hb'.
  destruct (H b' Hb') as [[b0 [H0 [Hid Hs]]] | [Hs Hfresh]]; split.
  - intros b Hb E. rewrite <- Hs. f_equal.
    apply (unique_blog_id bs); auto. congruence.
  - intros Hno. exfalso. exact (Hno b0 H0 Hid).
  - intros b Hb E. exfalso. exact (Hfresh b Hb E).
  - intros _. exact Hs.
Qed.

Lemma sample_blog_ids_differ : NoDup (map b_id (blogs sample_db)).
Proof. simpl. repeat constructor; simpl; intuition discriminate. Qed.

(** The sample store reads a Number by its value. *)
Lemma sample_reads_numbers : @reads_numbers sample_platform.
Proof.
  intros z v. cbn [pg_integer sample_platform sample_pg_integer].
  destruct ((- 2 ^ 31 <=? z) && (z <? 2 ^ 31)); congruence.
Qed.

Lemma sample_ids_differ : NoDup (map u_id (users sample_db)).
Proof. simpl. repeat constructor; simpl; intuition discriminate. Qed.

(** [run], and the lengths of the row lists that are known by now. *)
Ltac run_lists :=
  run; cbn [map Datatypes.length Nat.ltb Nat.leb Nat.eqb]; run.

(** What is evident about the sample data. *)
Ltac evident :=
  first [ reflexivity | discriminate | exact sample_ids_differ
        | exact sample_reads_numbers | (simpl; lia) | (simpl; tauto) ].

(** ** Accounts: signup, login, password reset *)

Section Accounts.
Context {platform : Platform}.

(** X1. [POST /signup] with a field that is missing or empty, or with a
    password of fewer than six characters, changes neither the store nor
    the session's user: it queues one error flash, about the missing field
    first, and redirects to [/signup] without a single statement. *)
Theorem signup_rejects_bad_input body st :
  let missing :=
    falsy (body_username body) || falsy (body_email body)
    || falsy (body_password body) in
  let short :=
    (String.length (match body_password body with Some s => s | None => "" end)
     <? 6)%nat in
  missing || short = true ->
  exists locals,
    app (mkRequest PostSignup body) st
    = (Ok (mkResponse locals (mkReply 302 (Redirect "/signup"))),
       mkState (db st)
         (mkSession (user (session st)) []
            [if missing then "All fields are required"
             else "Password must be at least 6 characters long"])
         (faults st) (salts st) (log st)).
Proof.
  destruct st as [d [v fs fe] fl sa lg].
  destruct body as [username email password newPassword name message title content].
  cbv zeta. cbn [body_username body_email body_password db session user faults salts log].
  intros H. run.
  destruct (falsy username || falsy email || falsy password); run.
  - eexists. reflexivity.
  - simpl in H. rewrite H. run. eexists. reflexivity.
Qed.

(** X2. [POST /signup] with well-formed fields whose email or username
    belongs to a row of [users] redirects to [/signup] with the flash
    "Email or username already exists"; the lookup is the only statement
    and the store is unchanged. *)
Theorem signup_rejects_taken_name username email password w st :
  username <> "" -> email <> "" -> (6 <= String.length password)%nat ->
  hd false (faults st) = false ->
  In w (users (db st)) ->
  u_email w = email \/ u_username w = username ->
  exists locals,
    app (mkRequest PostSignup (signup_form username email password)) st
    = (Ok (mkResponse locals (mkReply 302 (Redirect "/signup"))),
       mkState (db st)
         (mkSession (user (session st)) [] ["Email or username already exists"])
         (tl (faults st)) (salts st)
         (log st ++ [SelectUserIdsByEmailOrUsername (Some email) (Some username)])).
Proof.
  destruct st as [d [v fs fe] fl sa lg].
  cbn [db session user faults salts log].
  intros Hu He Hp Hf Hin Hw.
  apply String.eqb_neq in Hu, He. pose proof (long_is_truthy _ Hp) as Hp0.
  apply Nat.ltb_ge in Hp.
  unfold signup_form. run. cbv [falsy]. rewrite Hu, He, Hp0. run.
  rewrite Hp. run. rewrite Hf. run. cbv [exec].
  destruct (filter_first
              (fun u => text_eqb (u_email u) (Some email)
                        || text_eqb (u_username u) (Some username))
              (users d) w Hin) as [y [rest E]].
  { simpl. destruct Hw as [<- | <-]; rewrite String.eqb_refl;
      [reflexivity | apply orb_true_r]. }
  rewrite E. run. eexists. reflexivity.
Qed.

(** The successful [POST /signup], statement by statement. *)
Lemma post_signup_inserts username email password st :
  username <> "" -> email <> "" -> (6 <= String.length password)%nat ->
  hd false (faults st) = false -> hd false (tl (faults st)) = false ->
  (forall w, In w (users (db st)) ->
     u_email w <> email /\ u_username w <> username
     /\ u_id w <> next_user_id (db st)) ->
  let id := next_user_id (db st) in
  let row :=
    mkUser id username email (bcrypt_hash (hd "" (salts st)) password) "user" in
  exists locals st',
    app (mkRequest PostSignup (signup_form username email password)) st
    = (Ok (mkResponse locals (mkReply 302 (Redirect "/"))), st')
    /\ users (db st') = (users (db st) ++ [row])%list
    /\ blogs (db st') = blogs (db st)
    /\ contact_messages (db st') = contact_messages (db st)
    /\ session st'
       = mkSession (Some (mkIdentity id username None None))
           ["Signup successful! Welcome!"] []
    /\ faults st' = tl (tl (faults st))
    /\ log st'
       = (log st
          ++ [SelectUserIdsByEmailOrUsername (Some email) (Some username);
              InsertUser (Some username) (Some email) (u_password row)])%list.
Proof.
  destruct st as [d [v fs fe] fl sa lg].
  cbn [db session user faults salts log].
  intros Hu He Hp Hf1 Hf2 Hnew.
  apply String.eqb_neq in Hu, He. pose proof (long_is_truthy _ Hp) as Hp0.
  apply Nat.ltb_ge in Hp.
  unfold signup_form. run. cbv [falsy]. rewrite Hu, He, Hp0. run.
  rewrite Hp. run. rewrite Hf1. run. cbv [exec].
  rewrite filter_none.
  2:{ intros w Hw. destruct (Hnew w Hw) as [H1 [H2 _]]. simpl.
      apply String.eqb_neq in H1, H2. now rewrite H1, H2. }
  run_lists. rewrite Hf2. run. rewrite existsb_none.
  2:{ intros w Hw. destruct (Hnew w Hw) as [H1 [H2 H3]].
      apply String.eqb_neq in H1, H2. apply Z.eqb_neq in H3.
      now rewrite H1, H2, H3. }
  run. eexists; eexists. split; [reflexivity|].
  cbn [db users blogs contact_messages session faults log u_password].
  rewrite <- app_assoc. repeat split.
Qed.

(** X3. [POST /signup] with well-formed fields, an email and a username
    that no row has, and a working connection appends exactly one row to
    [users]: the next id, the given name and email, the bcrypt digest of
    the password (never the password itself) and the role "user". The
    session is bound to the new id and username, without email or role,
    and the answer is a redirect to [/]. *)
Theorem signup_creates_user username email password st :
  username <> "" -> email <> "" -> (6 <= String.length password)%nat ->
  hd false (faults st) = false -> hd false (tl (faults st)) = false ->
  (forall w, In w (users (db st)) ->
     u_email w <> email /\ u_username w <> username
     /\ u_id w <> next_user_id (db st)) ->
  let id := next_user_id (db st) in
  let row :=
    mkUser id username email (bcrypt_hash (hd "" (salts st)) password) "user" in
  exists locals st',
    app (mkRequest PostSignup (signup_form username email password)) st
    = (Ok (mkResponse locals (mkReply 302 (Redirect "/"))), st')
    /\ users (db st') = (users (db st) ++ [row])%list
    /\ blogs (db st') = blogs (db st)
    /\ contact_messages (db st') = contact_messages (db st)
    /\ session st'
       = mkSession (Some (mkIdentity id username None None))
           ["Signup successful! Welcome!"] []
    /\ faults st' = tl (tl (faults st))
    /\ log st'
       = (log st
          ++ [SelectUserIdsByEmailOrUsername (Some email) (Some username);
              InsertUser (Some username) (Some email) (u_password row)])%list.
Proof. exact (post_signup_inserts username email password st). Qed.

(** The successful [POST /login], statement by statement. *)
Lemma post_login_binds body st e p u rest :
  body_email body = Some e -> e <> "" ->
  body_password body = Some p -> p <> "" ->
  hd false (faults st) = false ->
  exec pg_integer (SelectUsersByEmail (Some e)) (db st)
  = Ok (UserRows (u :: rest), db st) ->
  bcrypt_compare p (u_password u) = true ->
  exists locals,
    app (mkRequest PostLogin body) st
    = (Ok (mkResponse locals (mkReply 302 (Redirect "/"))),
       mkState (db st)
         (mkSession (Some (mkIdentity (u_id u) (u_username u) None None))
            ["Welcome back, " ++ u_username u ++ "!"] [])
         (tl (faults st)) (salts st)
         (log st ++ [SelectUsersByEmail (Some e)])).
Proof.
  destruct st as [d [v fs fe] fl sa lg].
  destruct body as [username email password newPassword name message title content].
  intros E1 He E2 Hp Hf Hq Hcmp.
  cbn [body_email body_password db faults] in E1, E2, Hf, Hq. subst email password.
  apply String.eqb_neq in He, Hp.
  run. cbv [falsy]. rewrite He, Hp. run. rewrite Hf. run. rewrite Hq. run.
  rewrite Hcmp. run. eexists. reflexivity.
Qed.

(** X5. [POST /login] with the email of a row of [users] and a password
    that bcrypt accepts for that row's digest binds the session to the
    row's id and username only (no email, no role), queues the welcome
    flash and redirects to [/]; the store is not written. *)
Theorem login_binds_identity e p u st :
  e <> "" -> p <> "" ->
  hd false (faults st) = false ->
  In u (users (db st)) -> u_email u = e ->
  (forall w, In w (users (db st)) -> u_email w = e -> w = u) ->
  bcrypt_compare p (u_password u) = true ->
  exists locals,
    app (mkRequest PostLogin (credentials e p)) st
    = (Ok (mkResponse locals (mkReply 302 (Redirect "/"))),
       mkState (db st)
         (mkSession (Some (mkIdentity (u_id u) (u_username u) None None))
            ["Welcome back, " ++ u_username u ++ "!"] [])
         (tl (faults st)) (salts st)
         (log st ++ [SelectUsersByEmail (Some e)])).
Proof.
  intros He Hp Hf Hin Hmail Huniq Hcmp.
  destruct (filter_first (fun w => text_eqb (u_email w) (Some e))
              (users (db st)) u Hin) as [y [rest E]].
  { simpl. rewrite Hmail. apply String.eqb_refl. }
  destruct (filter_head _ _ _ _ E) as [Hy Hye]. simpl in Hye.
  apply String.eqb_eq in Hye.
  assert (Eu : y = u) by now apply Huniq.
  subst y.
  apply (post_login_binds (credentials e p) st e p u rest);
    try reflexivity; try assumption.
  cbv [exec]. now rewrite E.
Qed.

(** X6. [POST /login] is turned away, with the session's user and the
    store untouched, when the email or the password is missing or empty
    ("All fields are required", no statement at all) and when no row has
    the email ("User not found", after the one lookup). *)
Theorem login_rejections body st :
  (falsy (body_email body) || falsy (body_password body) = true ->
   exists locals,
     app (mkRequest PostLogin body) st
     = (Ok (mkResponse locals (mkReply 302 (Redirect "/login"))),
        mkState (db st)
          (mkSession (user (session st)) [] ["All fields are required"])
          (faults st) (salts st) (log st)))
  /\ (falsy (body_email body) || falsy (body_password body) = false ->
      hd false (faults st) = false ->
      (forall w, In w (users (db st)) -> Some (u_email w) <> body_email body) ->
      exists locals,
        app (mkRequest PostLogin body) st
        = (Ok (mkResponse locals (mkReply 302 (Redirect "/login"))),
           mkState (db st)
             (mkSession (user (session st)) [] ["User not found"])
             (tl (faults st)) (salts st)
             (log st ++ [SelectUsersByEmail (body_email body)]))).
Proof.
  destruct st as [d [v fs fe] fl sa lg].
  destruct body as [username email password newPassword name message title content].
  cbn [body_email body_password db session user faults salts log].
  split.
  - intros H. run. rewrite H. run. eexists. reflexivity.
  - intros H Hf Hnone. run. rewrite H. run. rewrite Hf. run. cbv [exec].
    rewrite filter_none.
    2:{ intros w Hw. specialize (Hnone w Hw). destruct email as [e|]; simpl;
          [|reflexivity].
        apply String.eqb_neq. congruence. }
    run. eexists. reflexivity.
Qed.

(** X4. Signup and login compose: after a successful [POST /signup], a
    browser without a session that posts the same email and password to
    [/login] is logged in as the new user, provided bcrypt accepts the
    digest it has just produced. *)
Theorem signup_then_login username email password st :
  bcrypt_compare password (bcrypt_hash (hd "" (salts st)) password) = true ->
  username <> "" -> email <> "" -> (6 <= String.length password)%nat ->
  hd false (faults st) = false -> hd false (tl (faults st)) = false ->
  hd false (tl (tl (faults st))) = false ->
  (forall w, In w (users (db st)) ->
     u_email w <> email /\ u_username w <> username
     /\ u_id w <> next_user_id (db st)) ->
  let signed_up :=
    snd (app (mkRequest PostSignup (signup_form username email password)) st) in
  exists locals st',
    app (mkRequest PostLogin (credentials email password))
      (another_browser signed_up)
    = (Ok (mkResponse locals (mkReply 302 (Redirect "/"))), st')
    /\ user (session st')
       = Some (mkIdentity (next_user_id (db st)) username None None).
Proof.
  intros Hb Hu He Hp Hf1 Hf2 Hf3 Hnew signed_up.
  destruct (post_signup_inserts username email password st Hu He Hp Hf1 Hf2 Hnew)
    as [locals [st1 [E [Husers [_ [_ [_ [Hfaults _]]]]]]]].
  assert (Est : signed_up = st1) by (unfold signed_up; now rewrite E).
  rewrite Est. clear signed_up Est E.
  set (row := mkUser (next_user_id (db st)) username email
                (bcrypt_hash (hd "" (salts st)) password) "user") in *.
  destruct (post_login_binds (credentials email password)
              (another_browser st1) email password row [])
    as [locals' E]; try reflexivity; try assumption.
  - intros ->. simpl in Hp. lia.
  - destruct st1; simpl in *. now rewrite Hfaults.
  - destruct st1 as [d1 s1 f1 sa1 l1]. cbn [another_browser with_session db] in *.
    cbv [exec]. rewrite Husers, filter_app, filter_none.
    + simpl. now rewrite String.eqb_refl.
    + intros w Hw. destruct (Hnew w Hw) as [H1 _]. simpl.
      now apply String.eqb_neq.
  - eexists; eexists. split; [exact E | reflexivity].
Qed.

(** The successful [POST /forgot-password], statement by statement. *)
Lemma post_forgot_password_updates email newPassword st :
  email <> "" -> newPassword <> "" ->
  hd false (faults st) = false ->
  let req := mkRequest PostForgotPassword (reset_form email newPassword) in
  ((exists w, In w (users (db st)) /\ u_email w = email) ->
   hd false (tl (faults st)) = false ->
   exists locals st',
     app req st = (Ok (mkResponse locals (mkReply 302 (Redirect "/login"))), st')
     /\ users (db st')
        = map (fun u =>
                 if String.eqb (u_email u) email
                 then with_password
                        (bcrypt_hash (hd "" (salts st)) newPassword) u
                 else u)
            (users (db st))
     /\ blogs (db st') = blogs (db st)
     /\ session st'
        = mkSession (user (session st))
            ["Password reset successfully. You can now login."] []
     /\ faults st' = tl (tl (faults st)))
  /\ ((forall w, In w (users (db st)) -> u_email w <> email) ->
      exists locals,
        app req st
        = (Ok (mkResponse locals (mkReply 302 (Redirect "/forgot-password"))),
           mkState (db st)
             (mkSession (user (session st)) []
                ["No account found with this email"])
             (tl (faults st)) (salts st)
             (log st ++ [SelectUsersByEmail (Some email)]))).
Proof.
  destruct st as [d [v fs fe] fl sa lg].
  cbn [db session user faults salts log].
  intros He Hp Hf1. apply String.eqb_neq in He, Hp. cbv zeta. split.
  - intros [w [Hin Hw]] Hf2.
    destruct (filter_first (fun u => text_eqb (u_email u) (Some email))
                (users d) w Hin) as [y [rest E]].
    { simpl. rewrite Hw. apply String.eqb_refl. }
    unfold reset_form. run. cbv [falsy]. rewrite He, Hp. run. rewrite Hf1. run.
    cbv [exec]. rewrite E. run_lists. rewrite Hf2. run.
    eexists; eexists. split; [reflexivity|].
    cbn [db users blogs with_users session faults]. repeat split.
  - intros Hnone.
    unfold reset_form. run. cbv [falsy]. rewrite He, Hp. run. rewrite Hf1. run.
    cbv [exec]. rewrite filter_none.
    2:{ intros w Hw. simpl. apply String.eqb_neq. now apply Hnone. }
    run_lists. eexists. reflexivity.
Qed.

(** X7. [POST /forgot-password] asks for no proof of identity: with an
    email that a row has, it replaces the password of every row with that
    email by the digest of the new password, whoever holds the session,
    and leaves every other row and the blogs as they were; with an email
    that no row has, it only queues "No account found with this email". *)
Theorem forgot_password_overwrites email newPassword st :
  email <> "" -> newPassword <> "" ->
  hd false (faults st) = false ->
  let req := mkRequest PostForgotPassword (reset_form email newPassword) in
  ((exists w, In w (users (db st)) /\ u_email w = email) ->
   hd false (tl (faults st)) = false ->
   exists locals st',
     app req st = (Ok (mkResponse locals (mkReply 302 (Redirect "/login"))), st')
     /\ users (db st')
        = map (fun u =>
                 if String.eqb (u_email u) email
                 then with_password
                        (bcrypt_hash (hd "" (salts st)) newPassword) u
                 else u)
            (users (db st))
     /\ blogs (db st') = blogs (db st)
     /\ session st'
        = mkSession (user (session st))
            ["Password reset successfully. You can now login."] []
     /\ faults st' = tl (tl (faults st)))
  /\ ((forall w, In w (users (db st)) -> u_email w <> email) ->
      exists locals,
        app req st
        = (Ok (mkResponse locals (mkReply 302 (Redirect "/forgot-password"))),
           mkState (db st)
             (mkSession (user (session st)) []
                ["No account found with this email"])
             (tl (faults st)) (salts st)
             (log st ++ [SelectUsersByEmail (Some email)]))).
Proof. exact (post_forgot_password_updates email newPassword st). Qed.

(** X8. After [POST /forgot-password] with somebody's email and a new
    password, a browser without a session logs in with that email and the
    new password as a user who had that email before the reset. *)
Theorem forgot_password_then_login email newPassword w st :
  bcrypt_compare newPassword (bcrypt_hash (hd "" (salts st)) newPassword)
  = true ->
  email <> "" -> newPassword <> "" ->
  hd false (faults st) = false -> hd false (tl (faults st)) = false ->
  hd false (tl (tl (faults st))) = false ->
  In w (users (db st)) -> u_email w = email ->
  let reset :=
    snd (app (mkRequest PostForgotPassword (reset_form email newPassword)) st) in
  exists locals st' w',
    app (mkRequest PostLogin (credentials email newPassword))
      (another_browser reset)
    = (Ok (mkResponse locals (mkReply 302 (Redirect "/"))), st')
    /\ In w' (users (db st)) /\ u_email w' = email
    /\ user (session st')
       = Some (mkIdentity (u_id w') (u_username w') None None).
Proof.
  intros Hb He Hp Hf1 Hf2 Hf3 Hin Hw reset.
  destruct (post_forgot_password_updates email newPassword st He Hp Hf1) as [H _].
  destruct (H (ex_intro _ w (conj Hin Hw)) Hf2)
    as [locals [st1 [E [Husers [_ [_ Hfaults]]]]]].
  assert (Est : reset = st1) by (unfold reset; now rewrite E).
  rewrite Est. clear reset Est E H.
  destruct (filter_first (fun u => String.eqb (u_email u) email)
              (users (db st)) w Hin) as [y [rest Ey]].
  { rewrite Hw. apply String.eqb_refl. }
  destruct (filter_head _ _ _ _ Ey) as [Hyin Hyemail].
  set (f := fun u => if String.eqb (u_email u) email
                     then with_password
                            (bcrypt_hash (hd "" (salts st)) newPassword) u
                     else u) in *.
  destruct (post_login_binds (credentials email newPassword)
              (another_browser st1) email newPassword (f y) (map f rest))
    as [locals' E]; try reflexivity; try assumption.
  - destruct st1; simpl in *. now rewrite Hfaults.
  - destruct st1 as [d1 s1 f1 sa1 l1]. cbn [another_browser with_session db] in *.
    cbv [exec]. rewrite Husers.
    change (fun u : User => text_eqb (u_email u) (Some email))
      with (fun u : User => String.eqb (u_email u) email).
    rewrite filter_map_commute, Ey; [reflexivity|].
    intros x. unfold f.
    destruct (String.eqb (u_email x) email) eqn:Ex; simpl; now rewrite ?Ex.
  - unfold f. rewrite Hyemail. simpl. exact Hb.
  - exists locals'. eexists. exists y. split; [exact E|].
    split; [exact Hyin|]. split; [now apply String.eqb_eq|].
    cbn [session user]. unfold f. rewrite Hyemail. reflexivity.
Qed.

End Accounts.

(** ** Blogs: create, list, view *)

Section Blogs.
Context {platform : Platform}.

(** X9. Create and view compose: [POST /create] by a logged-in user with
    a title and a content appends one blog with the next id, the session's
    user id as owner, no status and the current time; [GET /view/<id>] with
    the decimal numeral of that id, from any browser, then shows exactly
    this blog with its author's username, under the blog's title. *)
Theorem create_then_view a author title content st :
  user (session st) = Some a ->
  title <> "" -> content <> "" ->
  hd false (faults st) = false -> hd false (tl (faults st)) = false ->
  pg_integer (PNum (Int (i_id a))) = Some (i_id a) ->
  pg_integer (PNum (Int (next_blog_id (db st)))) = Some (next_blog_id (db st)) ->
  0 <= next_blog_id (db st) < 2 ^ 53 ->
  NoDup (map u_id (users (db st))) ->
  In author (users (db st)) -> u_id author = i_id a ->
  (forall b, In b (blogs (db st)) -> b_id b <> next_blog_id (db st)) ->
  let id := next_blog_id (db st) in
  let blog :=
    mkBlog id (i_id a) (Some title) (Some content) None (now (db st)) in
  let posted := app (mkRequest PostCreate (form title content)) st in
  (exists locals,
      fst posted = Ok (mkResponse locals (mkReply 302 (Redirect "/dashboard"))))
  /\ blogs (db (snd posted)) = (blogs (db st) ++ [blog])%list
  /\ flash_success (session (snd posted)) = ["Blog created successfully"]
  /\ exists locals st',
      app (get (GetView (decimal id))) (another_browser (snd posted))
      = (Ok (mkResponse locals
               (mkReply 200
                  (Render "viewblog"
                     [("blog", VJoinedBlog (blog, u_username author));
                      ("title", VStr title)]))),
         st').
Proof.
  destruct st as [d [v fs fe] fl sa lg].
  cbn [db session user faults salts log].
  intros -> Ht Hc Hf1 Hf2 Hme Hid Hrange Hnd Hauthor Haid Hfresh.
  apply String.eqb_neq in Ht, Hc. cbv zeta.
  assert (Hfk : existsb (fun u => u_id u =? i_id a) (users d) = true).
  { apply existsb_exists. exists author. split; [exact Hauthor|].
    now apply Z.eqb_eq. }
  assert (Hpk : existsb (fun b => b_id b =? next_blog_id d) (blogs d) = false).
  { apply existsb_none. intros b Hb. apply Z.eqb_neq. now apply Hfresh. }
  unfold form, get. run. cbv [falsy]. rewrite Ht, Hc. run. rewrite Hf1. run.
  cbv [exec with_id]. rewrite Hme. rewrite Hfk, Hpk. run.
  split; [eexists; reflexivity|]. split; [reflexivity|]. split; [reflexivity|].
  cbn [another_browser with_session db session faults salts log fresh_session
       user flash_success flash_error].
  run. rewrite validateId_isInteger, parseInt_decimal by exact Hrange.
  cbn [Number_isInteger]. run. rewrite Hf2. run. rewrite Hid. cbn [users blogs].
  rewrite join_users_app, filter_app, filter_none.
  2:{ intros [b name] Hb. apply in_join_users in Hb. destruct Hb as [Hb _].
      simpl. apply Z.eqb_neq. now apply Hfresh. }
  unfold join_users at 1. cbn [flat_map b_user_id]. rewrite <- Haid.
  rewrite filter_unique_id by assumption.
  cbn [map List.app filter fst b_id]. rewrite Z.eqb_refl. run.
  rewrite Haid. eexists; eexists. reflexivity.
Qed.

(** X10. [GET /dashboard] shows the blogs whose owner is the session's
    user, and no others: each once (a permutation of the filtered table),
    newest first. It does not write the store. *)
Theorem dashboard_lists_own_blogs a st :
  user (session st) = Some a ->
  hd false (faults st) = false ->
  pg_integer (PNum (Int (i_id a))) = Some (i_id a) ->
  exists locals l st',
    app (get GetDashboard) st
    = (Ok (mkResponse locals
             (mkReply 200
                (Render "dashboard"
                   [("userBlogs", VBlogs l); ("title", VStr "Dashboard")]))),
       st')
    /\ db st' = db st
    /\ (forall b, In b l <-> In b (blogs (db st)) /\ b_user_id b = i_id a)
    /\ Permutation l (filter (fun b => b_user_id b =? i_id a) (blogs (db st)))
    /\ StronglySorted (fun x y => b_created_at y <= b_created_at x) l.
Proof.
  destruct st as [d [v fs fe] fl sa lg].
  cbn [db session user faults salts log].
  intros -> Hf Hme. unfold get. run. rewrite Hf. run.
  cbv [exec with_id]. rewrite Hme. run.
  eexists; eexists; eexists. split; [reflexivity|]. split; [reflexivity|].
  pose proof (order_by_desc_permutation b_created_at
                (filter (fun b => b_user_id b =? i_id a) (blogs d))) as Hperm.
  split; [|split; [exact Hperm | apply order_by_desc_sorted]].
  intros b. split.
  - intros Hb. apply (Permutation_in _ Hperm) in Hb.
    apply filter_In in Hb. destruct Hb as [Hb E]. now apply Z.eqb_eq in E.
  - intros [Hb E]. apply (Permutation_in _ (Permutation_sym Hperm)).
    apply filter_In. split; [exact Hb | now apply Z.eqb_eq].
Qed.

(** X11. [GET /] shows the blogs joined with their authors: a pair of a
    blog and a name is listed exactly when the blog is in the table and a
    user with the blog's owner id has that username; newest first. It does
    not write the store. *)
Theorem home_lists_blogs_with_authors st :
  hd false (faults st) = false ->
  exists locals l st',
    app (get GetHome) st
    = (Ok (mkResponse locals
             (mkReply 200
                (Render "index" [("blogs", VJoined l); ("title", VStr "Home")]))),
       st')
    /\ db st' = db st
    /\ (forall b name,
          In (b, name) l
          <-> In b (blogs (db st))
              /\ exists u, In u (users (db st)) /\ u_id u = b_user_id b
                           /\ u_username u = name)
    /\ StronglySorted
         (fun x y => b_created_at (fst y) <= b_created_at (fst x)) l.
Proof.
  destruct st as [d [v fs fe] fl sa lg].
  cbn [db session user faults salts log].
  intros Hf. unfold get. run. rewrite Hf. run. cbv [exec]. run.
  eexists; eexists; eexists. split; [reflexivity|]. split; [reflexivity|].
  pose proof (order_by_desc_permutation (fun r : Blog * string => b_created_at (fst r))
                (join_users (users d) (blogs d))) as Hperm.
  split; [|apply (order_by_desc_sorted (fun r : Blog * string => b_created_at (fst r)))].
  intros b name. rewrite <- in_join_users. split; intros H.
  - exact (Permutation_in _ Hperm H).
  - exact (Permutation_in _ (Permutation_sym Hperm) H).
Qed.

(** X12. [GET /edit/:id] is for the owner: when no blog with that id
    belongs to the session's user (it is missing, or somebody else's) the
    answer is 403 "Not authorized", never 404; when one does, the form is
    rendered with a blog of that id owned by the user. Neither writes. *)
Theorem edit_form_is_for_the_owner id i a st :
  user (session st) = Some a ->
  Number_isInteger (parseInt id) = true ->
  hd false (faults st) = false ->
  pg_integer (PNum (parseInt id)) = Some i ->
  pg_integer (PNum (Int (i_id a))) = Some (i_id a) ->
  ((forall b, In b (blogs (db st)) -> b_id b = i -> b_user_id b <> i_id a) ->
   exists locals st',
     app (get (GetEdit id)) st
     = (Ok (mkResponse locals
              (mkReply 403 (Render "error" [("message", VStr "Not authorized")]))),
        st')
     /\ db st' = db st)
  /\ (forall b, In b (blogs (db st)) -> b_id b = i -> b_user_id b = i_id a ->
      exists locals b' st',
        app (get (GetEdit id)) st
        = (Ok (mkResponse locals
                 (mkReply 200
                    (Render "edit"
                       [("blog", VBlog b'); ("title", VStr "Edit Blog")]))),
           st')
        /\ In b' (blogs (db st)) /\ b_id b' = i /\ b_user_id b' = i_id a
        /\ db st' = db st).
Proof.
  destruct st as [d [v fs fe] fl sa lg].
  cbn [db session user faults salts log].
  intros -> Hint Hf Hid Hme. split.
  - intros Hown. unfold get. run. rewrite validateId_isInteger, Hint. run.
    rewrite Hf. run. cbv [exec with_id]. rewrite Hid, Hme. run.
    rewrite filter_none.
    2:{ intros b Hb. destruct (b_id b =? i) eqn:E1; [|reflexivity].
        apply Z.eqb_eq in E1. simpl. apply Z.eqb_neq. now apply Hown. }
    run. eexists; eexists. split; reflexivity.
  - intros b Hb Hbi Hbo. unfold get. run. rewrite validateId_isInteger, Hint. run.
    rewrite Hf. run. cbv [exec with_id]. rewrite Hid, Hme. run.
    destruct (filter_first
                (fun b => (b_id b =? i) && (b_user_id b =? i_id a)) (blogs d) b Hb)
      as [y [rest E]].
    { apply andb_true_intro. split; now apply Z.eqb_eq. }
    rewrite E. run.
    destruct (filter_head _ _ _ _ E) as [Hy Hyp].
    apply andb_prop in Hyp. destruct Hyp as [H1 H2]. apply Z.eqb_eq in H1, H2.
    eexists; exists y; eexists. split; [reflexivity|]. auto.
Qed.

(** X13. [GET /view/:id] with a valid id that no blog with an author
    has is answered 404 "Blog not found", and the store is unchanged. *)
Theorem view_of_a_missing_blog id i st :
  Number_isInteger (parseInt id) = true ->
  hd false (faults st) = false ->
  pg_integer (PNum (parseInt id)) = Some i ->
  (forall b u, In b (blogs (db st)) -> b_id b = i ->
     In u (users (db st)) -> u_id u <> b_user_id b) ->
  exists locals st',
    app (get (GetView id)) st
    = (Ok (mkResponse locals
             (mkReply 404 (Render "404" [("message", VStr "Blog not found")]))),
       st')
    /\ db st' = db st.
Proof.
  destruct st as [d [v fs fe] fl sa lg].
  cbn [db session user faults salts log].
  intros Hint Hf Hid Hnone. unfold get. run.
  rewrite validateId_isInteger, Hint. run. rewrite Hf. run.
  cbv [exec with_id]. rewrite Hid. run. rewrite filter_none.
  2:{ intros [b name] Hb. apply in_join_users in Hb.
      destruct Hb as [Hb [u [Hu [Hui _]]]]. simpl.
      apply Z.eqb_neq. intros E. exact (Hnone b u Hb E Hu Hui). }
  run. eexists; eexists. split; reflexivity.
Qed.

End Blogs.

(** ** The administrators' console *)

Section Console.
Context {platform : Platform}.

(** X14. [POST /admin/login]: when the lookup of administrators by
    email returns a first row whose digest bcrypt accepts for the password,
    that row is a user of role "admin" with that email, the session is
    bound to its id, username, email and role, which passes [isAdmin], and
    the answer is a redirect to [/admin]; the store is not written. *)
Theorem admin_login_binds_role body st e p u rest :
  body_email body = Some e -> body_password body = Some p ->
  hd false (faults st) = false ->
  exec pg_integer (SelectAdminsByEmail (Some e)) (db st)
  = Ok (UserRows (u :: rest), db st) ->
  bcrypt_compare p (u_password u) = true ->
  let identity :=
    mkIdentity (u_id u) (u_username u) (Some (u_email u)) (Some (u_role u)) in
  u_role u = "admin" /\ u_email u = e /\ In u (users (db st))
  /\ admin_identity (Some identity) = true
  /\ exists locals,
      app (mkRequest PostAdminLogin body) st
      = (Ok (mkResponse locals (mkReply 302 (Redirect "/admin"))),
         mkState (db st) (mkSession (Some identity) [] [])
           (tl (faults st)) (salts st)
           (log st ++ [SelectAdminsByEmail (Some e)])).
Proof.
  destruct st as [d [v fs fe] fl sa lg].
  destruct body as [username email password newPassword name message title content].
  intros E1 E2 Hf Hq Hcmp.
  cbn [body_email body_password db faults] in E1, E2, Hf, Hq. subst email password.
  assert (Hrow : In u (users d)
                 /\ (String.eqb (u_email u) e && String.eqb (u_role u) "admin")
                    = true).
  { cbv [exec] in Hq. injection Hq as Hq.
    exact (filter_head
             (fun w => text_eqb (u_email w) (Some e)
                       && String.eqb (u_role w) "admin") _ _ _ Hq). }
  destruct Hrow as [Hin Hrow]. apply andb_prop in Hrow.
  destruct Hrow as [Hemail Hrole]. apply String.eqb_eq in Hemail, Hrole.
  cbv zeta. split; [exact Hrole|]. split; [exact Hemail|]. split; [exact Hin|].
  split; [simpl; rewrite Hrole; reflexivity|].
  run. rewrite Hf. run. rewrite Hq. run. rewrite Hcmp. run.
  eexists. reflexivity.
Qed.

(** X15. [POST /admin/login] renders the login page again, with status
    200 and "Invalid email or password", and leaves the session's user and
    the store alone, both when no administrator has the email (whatever
    other users have it) and when bcrypt rejects the password. *)
Theorem admin_login_rejections body st :
  hd false (faults st) = false ->
  let rejected locals :=
    (Ok (mkResponse locals
           (mkReply 200
              (Render "admin/admin-login"
                 [("layout", VBool false);
                  ("error", VStr "Invalid email or password")]))),
     mkState (db st) (mkSession (user (session st)) [] [])
       (tl (faults st)) (salts st)
       (log st ++ [SelectAdminsByEmail (body_email body)])) in
  ((forall w, In w (users (db st)) -> Some (u_email w) = body_email body ->
      u_role w <> "admin") ->
   exists locals, app (mkRequest PostAdminLogin body) st = rejected locals)
  /\ (forall u rest p,
        exec pg_integer (SelectAdminsByEmail (body_email body)) (db st)
        = Ok (UserRows (u :: rest), db st) ->
        body_password body = Some p ->
        bcrypt_compare p (u_password u) = false ->
        exists locals, app (mkRequest PostAdminLogin body) st = rejected locals).
Proof.
  destruct st as [d [v fs fe] fl sa lg].
  destruct body as [username email password newPassword name message title content].
  cbn [body_email body_password db session user faults salts log].
  intros Hf. cbv zeta. split.
  - intros Hnone. run. rewrite Hf. run. cbv [exec]. rewrite filter_none.
    2:{ intros w Hw. destruct email as [e|]; simpl; [|reflexivity].
        destruct (String.eqb (u_email w) e) eqn:E; [|reflexivity].
        apply String.eqb_eq in E. simpl. apply String.eqb_neq.
        apply (Hnone w Hw). now rewrite E. }
    run. eexists. reflexivity.
  - intros u rest p Hq -> Hcmp. run. rewrite Hf. run. rewrite Hq. run.
    rewrite Hcmp. run. eexists. reflexivity.
Qed.

(** X16. [POST /admin/users/reset-password/:id] by an administrator
    sets the password of the user with that id to the digest of "123456";
    afterwards a browser without a session logs in at [/login] with that
    user's email and "123456". *)
Theorem admin_reset_then_login id i w body st :
  bcrypt_compare "123456" (bcrypt_hash (hd "" (salts st)) "123456") = true ->
  admin_identity (user (session st)) = true ->
  hd false (faults st) = false -> hd false (tl (faults st)) = false ->
  pg_integer (PStr id) = Some i ->
  In w (users (db st)) -> u_id w = i -> u_email w <> "" ->
  (forall w', In w' (users (db st)) -> u_email w' = u_email w -> u_id w' = i) ->
  let reset :=
    snd (app (mkRequest (PostAdminUsersResetPassword id) body) st) in
  (forall u, In u (users (db reset)) -> u_id u = i ->
     u_password u = bcrypt_hash (hd "" (salts st)) "123456")
  /\ exists locals st' w',
      app (mkRequest PostLogin (credentials (u_email w) "123456"))
        (another_browser reset)
      = (Ok (mkResponse locals (mkReply 302 (Redirect "/"))), st')
      /\ In w' (users (db st)) /\ u_email w' = u_email w
      /\ user (session st')
         = Some (mkIdentity (u_id w') (u_username w') None None).
Proof.
  intros Hb Hadm Hf1 Hf2 Hpg Hin Hid Hmail Huniq reset.
  set (f := fun u => if u_id u =? i
                     then with_password (bcrypt_hash (hd "" (salts st)) "123456") u
                     else u).
  assert (E : users (db reset) = map f (users (db st))
              /\ faults reset = tl (faults st)).
  { unfold reset.
    destruct st as [d [[[aid aname amail [arole|]]|] fs fe] fl sa lg];
      try discriminate Hadm.
    simpl in Hadm, Hf1. run. rewrite Hadm. run. rewrite Hf1. run.
    cbv [exec with_id]. rewrite Hpg. run. split; reflexivity. }
  destruct E as [Husers Hfaults]. split.
  - intros u Hu Hui. rewrite Husers in Hu. apply in_map_iff in Hu.
    destruct Hu as [u0 [<- _]]. unfold f in *.
    destruct (u_id u0 =? i) eqn:E0; [reflexivity|].
    apply Z.eqb_neq in E0. contradiction.
  - destruct (filter_first (fun u => String.eqb (u_email u) (u_email w))
                (users (db st)) w Hin (String.eqb_refl _)) as [y [rest Ey]].
    destruct (filter_head _ _ _ _ Ey) as [Hyin Hyemail].
    apply String.eqb_eq in Hyemail.
    assert (Hyid : (u_id y =? i) = true) by (apply Z.eqb_eq; now apply Huniq).
    destruct (post_login_binds (credentials (u_email w) "123456")
                (another_browser reset) (u_email w) "123456" (f y) (map f rest))
      as [locals' E]; try reflexivity; try assumption.
    + discriminate.
    + unfold another_browser. destruct reset; simpl in *. now rewrite Hfaults.
    + destruct reset as [d1 s1 f1 sa1 l1].
      cbn [another_browser with_session db] in *.
      cbv [exec]. rewrite Husers.
      change (fun u : User => text_eqb (u_email u) (Some (u_email w)))
        with (fun u : User => String.eqb (u_email u) (u_email w)).
      rewrite filter_map_commute, Ey; [reflexivity|].
      intros x. unfold f. now destruct (u_id x =? i).
    + unfold f. rewrite Hyid. simpl. exact Hb.
    + exists locals'. eexists. exists y. split; [exact E|].
      split; [exact Hyin|]. split; [exact Hyemail|].
      cbn [session user]. unfold f. rewrite Hyid. reflexivity.
Qed.

(** X17. Promote and demote: [POST /admin/users/promote/:id] gives the
    role "admin" to the rows with that id and to no other; a following
    [POST /admin/users/demote/:id] gives them the role "user", whatever
    their role was at first. Both redirect to [/admin/users]; blogs and
    the session's user are untouched. *)
Theorem promote_then_demote id i body st :
  admin_identity (user (session st)) = true ->
  hd false (faults st) = false -> hd false (tl (faults st)) = false ->
  pg_integer (PStr id) = Some i ->
  let promoted := app (mkRequest (PostAdminUsersPromote id) body) st in
  let demoted := app (mkRequest (PostAdminUsersDemote id) body) (snd promoted) in
  (exists locals,
      fst promoted = Ok (mkResponse locals (mkReply 302 (Redirect "/admin/users"))))
  /\ (exists locals,
      fst demoted = Ok (mkResponse locals (mkReply 302 (Redirect "/admin/users"))))
  /\ users (db (snd promoted))
     = map (fun u => if u_id u =? i then with_role "admin" u else u)
         (users (db st))
  /\ users (db (snd demoted))
     = map (fun u => if u_id u =? i then with_role "user" u else u)
         (users (db st))
  /\ blogs (db (snd demoted)) = blogs (db st)
  /\ session (snd demoted) = mkSession (user (session st)) [] [].
Proof.
  destruct st as [d [[[aid aname amail [arole|]]|] fs fe] fl sa lg];
    intros Hadm Hf1 Hf2 Hpg; try discriminate Hadm.
  simpl in Hadm, Hf1, Hf2. cbv zeta.
  repeat first [ rewrite Hadm | rewrite Hf1 | rewrite Hf2 | rewrite Hpg
               | progress run | progress cbv [exec with_id] ].
  cbn [users blogs with_users].
  split; [eexists; reflexivity|]. split; [eexists; reflexivity|].
  split; [reflexivity|]. split; [|split; reflexivity].
  rewrite map_map. apply map_ext. intros u. unfold with_role.
  destruct (u_id u =? i) eqn:E; cbn [u_id]; now rewrite E.
Qed.

(** X18. Demotion does not end a session: an administrator who demotes
    their own id has the role "user" in the store, and the console still
    serves [GET /admin/users] to that session, because [isAdmin] reads the
    role kept in the session. *)
Theorem demotion_does_not_end_the_session id a body st :
  user (session st) = Some a ->
  admin_identity (Some a) = true ->
  hd false (faults st) = false -> hd false (tl (faults st)) = false ->
  pg_integer (PStr id) = Some (i_id a) ->
  let demoted := snd (app (mkRequest (PostAdminUsersDemote id) body) st) in
  (forall u, In u (users (db demoted)) -> u_id u = i_id a -> u_role u = "user")
  /\ exists locals l st',
      app (get GetAdminUsers) demoted
      = (Ok (mkResponse locals
               (mkReply 200
                  (Render "admin/admin-users"
                     [("layout", VBool false); ("user", VIdentity a);
                      ("users", VUsers l)]))),
         st').
Proof.
  destruct st as [d [v fs fe] fl sa lg].
  cbn [db session user faults salts log].
  intros -> Hadm Hf1 Hf2 Hpg. cbv zeta.
  destruct a as [aid aname amail [arole|]]; try discriminate Hadm.
  simpl in Hadm. cbn [i_id] in Hpg. unfold get.
  repeat first [ rewrite Hadm | rewrite Hf1 | rewrite Hf2 | rewrite Hpg
               | progress run | progress cbv [exec with_id] ].
  cbn [users with_users i_id]. split.
  - intros u Hu Hid. apply in_map_iff in Hu. destruct Hu as [u0 [<- _]].
    destruct (u_id u0 =? aid) eqn:E; [reflexivity|].
    apply Z.eqb_neq in E. contradiction.
  - eexists; eexists; eexists. reflexivity.
Qed.

(** X19. Logout: [GET /logout] always destroys the session and redirects
    to [/login], and every route behind [checkAuth] then redirects to
    [/login] without a statement. [GET /admin/logout] is itself behind
    [isAdmin]: a session that is not an administrator's is redirected to
    [/admin/login] and keeps its user; an administrator's is destroyed. *)
Theorem logout_ends_the_session st :
  (exists locals,
      app (get GetLogout) st
      = (Ok (mkResponse locals (mkReply 302 (Redirect "/login"))),
         with_session st fresh_session))
  /\ (forall r body,
        requires_user r = true ->
        exists locals st',
          app (mkRequest r body) (snd (app (get GetLogout) st))
          = (Ok (mkResponse locals (mkReply 302 (Redirect "/login"))), st')
          /\ db st' = db st /\ log st' = log st)
  /\ (admin_identity (user (session st)) = false ->
      exists locals,
        app (get GetAdminLogout) st
        = (Ok (mkResponse locals (mkReply 302 (Redirect "/admin/login"))),
           with_session st (mkSession (user (session st)) [] [])))
  /\ (admin_identity (user (session st)) = true ->
      exists locals,
        app (get GetAdminLogout) st
        = (Ok (mkResponse locals (mkReply 302 (Redirect "/admin/login"))),
           with_session st fresh_session)).
Proof.
  split; [|split; [|split]].
  - destruct st as [d [v fs fe] fl sa lg]. eexists. reflexivity.
  - intros r body Hr.
    destruct (user_gate r body (snd (app (get GetLogout) st)) Hr) as [locals E].
    + now destruct st as [d [v fs fe] fl sa lg].
    + exists locals. eexists. split; [exact E|].
      now destruct st as [d [v fs fe] fl sa lg].
  - intros H. destruct (admin_gate GetAdminLogout empty_body st eq_refl H)
      as [locals E].
    exists locals. exact E.
  - destruct st as [d [[[aid aname amail [arole|]]|] fs fe] fl sa lg];
      intros H; try discriminate H.
    simpl in H. unfold get. run. rewrite H. run. eexists. reflexivity.
Qed.

(** X20. [POST /admin/blogs/delete/:id] by an administrator removes
    the blogs with that id, whoever owns them, keeps every other blog,
    every user and every contact message, and redirects to
    [/admin/blogs]. *)
Theorem admin_deletes_any_blog id i body st :
  admin_identity (user (session st)) = true ->
  hd false (faults st) = false ->
  pg_integer (PStr id) = Some i ->
  exists locals st',
    app (mkRequest (PostAdminBlogsDelete id) body) st
    = (Ok (mkResponse locals (mkReply 302 (Redirect "/admin/blogs"))), st')
    /\ (forall b, In b (blogs (db st')) <-> In b (blogs (db st)) /\ b_id b <> i)
    /\ users (db st') = users (db st)
    /\ contact_messages (db st') = contact_messages (db st).
Proof.
  destruct st as [d [[[aid aname amail [arole|]]|] fs fe] fl sa lg];
    intros Hadm Hf Hpg; try discriminate Hadm.
  simpl in Hadm, Hf. run. rewrite Hadm. run. rewrite Hf. run.
  cbv [exec with_id]. rewrite Hpg. run.
  eexists; eexists. split; [reflexivity|]. cbn [db blogs users contact_messages with_blogs].
  split; [|split; reflexivity].
  intros b. rewrite filter_In. split; intros [Hb E]; (split; [exact Hb|]).
  - apply Z.eqb_neq. now destruct (b_id b =? i).
  - apply Z.eqb_neq in E. now rewrite E.
Qed.

(** X21. [POST /admin/users/delete/:id] by an administrator answers 404
    "User not found" without writing when no user has the id; it removes
    exactly that user, and no blog, when the user is not an administrator
    and owns no blog. *)
Theorem admin_deletes_plain_user id i body st :
  admin_identity (user (session st)) = true ->
  hd false (faults st) = false ->
  pg_integer (PStr id) = Some i ->
  ((forall u, In u (users (db st)) -> u_id u <> i) ->
   exists locals st',
     app (mkRequest (PostAdminUsersDelete id) body) st
     = (Ok (mkResponse locals (mkReply 404 (Send "User not found"))), st')
     /\ db st' = db st)
  /\ (forall u,
        NoDup (map u_id (users (db st))) ->
        In u (users (db st)) -> u_id u = i -> u_role u <> "admin" ->
        (forall b, In b (blogs (db st)) -> b_user_id b <> i) ->
        hd false (tl (faults st)) = false ->
        exists locals st',
          app (mkRequest (PostAdminUsersDelete id) body) st
          = (Ok (mkResponse locals (mkReply 302 (Redirect "/admin/users"))), st')
          /\ (forall w, In w (users (db st')) <-> In w (users (db st)) /\ w <> u)
          /\ blogs (db st') = blogs (db st)).
Proof.
  destruct st as [d [[[aid aname amail [arole|]]|] fs fe] fl sa lg];
    intros Hadm Hf Hpg; try discriminate Hadm.
  simpl in Hadm, Hf. cbn [db faults]. split.
  - intros Hnone. run. rewrite Hadm. run. rewrite Hf. run.
    cbv [exec with_id]. rewrite Hpg. run. rewrite filter_none.
    2:{ intros u Hu. apply Z.eqb_neq. now apply Hnone. }
    run. eexists; eexists. split; reflexivity.
  - intros u Hnd Hin Hid Hrole Hblogs Hf2.
    assert (F : filter (fun w => u_id w =? i) (users d) = [u]).
    { rewrite <- Hid.
      rewrite (filter_ext _ (fun w => u_id u =? u_id w))
        by (intros w; apply Z.eqb_sym).
      now apply filter_unique_id. }
    apply String.eqb_neq in Hrole.
    run. rewrite Hadm. run. rewrite Hf. run.
    cbv [exec with_id]. rewrite Hpg. run. rewrite F. run. rewrite Hrole. run.
    rewrite Hf2. run.
    rewrite (existsb_none (fun b => b_user_id b =? i) (blogs d))
      by (intros b Hb; apply Z.eqb_neq; now apply Hblogs).
    rewrite andb_false_r. run.
    eexists; eexists. split; [reflexivity|].
    cbn [db users blogs with_users]. split; [|reflexivity].
    intros w. rewrite filter_In. split; intros [Hw E]; (split; [exact Hw|]).
    + intros ->. rewrite Hid, Z.eqb_refl in E. discriminate E.
    + destruct (u_id w =? i) eqn:Ew; [|reflexivity]. exfalso. apply E.
      apply Z.eqb_eq in Ew. apply (unique_id (users d)); auto. congruence.
Qed.

End Console.

(** ** What no request does *)

Section Invariants.
Context {platform : Platform}.

(** X22. Whatever the request, the session, the store and the faults of
    the connection: an answer that is neither a redirect (302) nor the
    JSON success of [/contact] leaves the store as it was. Every 4xx and
    5xx answer and every rendered page is of this kind. *)
Theorem only_redirects_follow_writes req st res st' :
  app req st = (Ok res, st') ->
  status (res_reply res) <> 302 ->
  sent (res_reply res) <> sent_message ->
  db st' = db st.
Proof.
  destruct req as [r body]. destruct st as [d [u fs fe] fl sa lg].
  destruct body as [username email password newPassword name message title content].
  destruct r; cases; intros E; injection E as <- <-;
    cbn [status sent res_reply db]; intros H1 H2;
    first [reflexivity | now contradiction H1 | now contradiction H2].
Qed.

(** X23. No route registered with [get] writes the store, whatever the
    session and the faults of the connection. *)
Theorem get_requests_change_nothing r body st :
  is_get r = true ->
  db (snd (app (mkRequest r body) st)) = db st.
Proof.
  destruct st as [d [u fs fe] fl sa lg].
  destruct body as [username email password newPassword name message title content].
  intros Hr. destruct r; try discriminate Hr; cases; reflexivity.
Qed.

(** X24. Contact messages are only ever appended: a request other than
    [POST /contact] leaves the table as it was, and any request adds at
    most one row at its end; no route edits or deletes a message. *)
Theorem contact_messages_only_grow req st :
  let before := contact_messages (db st) in
  let after := contact_messages (db (snd (app req st))) in
  (req_route req <> PostContact -> after = before)
  /\ exists l, after = (before ++ l)%list /\ (Datatypes.length l <= 1)%nat.
Proof.
  destruct req as [r body]. destruct st as [d [u fs fe] fl sa lg].
  destruct body as [username email password newPassword name message title content].
  cbv zeta. cbn [req_route].
  destruct r; cases; cbn [db contact_messages with_users with_blogs];
    (split; [first [reflexivity | intros H; now contradiction H]|]);
    first [ exists nil; split; [now rewrite app_nil_r | simpl; lia]
          | eexists [_]; split; [reflexivity | simpl; lia] ].
Qed.

(** X25. Flash messages are consumed by the next request whose body is
    parsed, whether it shows them or not.  The template middleware moves
    them into [res.locals]; the answer and the state afterwards are those
    of the same request with no flash queued, so at most the one flash of
    this request remains.  A rendered view sees the queued flashes as
    [success_msg] and [error_msg], except the view of GET
    /forgot-password, whose render options replace both with empty lists;
    a redirect, a JSON body or a plain text shows none, and they are gone
    all the same.  A request whose body the parsers reject touches
    neither the session nor [res.locals]. *)
Theorem flashes_are_consumed_by_the_next_request r body st :
  exists res st',
    server r body st = (Ok res, st')
    /\ match body with
       | Rejected _ => st' = st /\ res_locals res = []
       | Parsed _ =>
           (exists locals,
               server r body (without_flashes st)
               = (Ok (mkResponse locals (res_reply res)), st'))
           /\ (Datatypes.length (flash_success (session st'))
               + Datatypes.length (flash_error (session st')) <= 1)%nat
           /\ In ("success_msg", VFlash (flash_success (session st)))
                (res_locals res)
           /\ In ("error_msg", VFlash (flash_error (session st)))
                (res_locals res)
           /\ match sent (res_reply res) with
              | Render _ _ =>
                  seen_by_view res "success_msg"
                  = Some (VFlash match r with
                                 | GetForgotPassword => []
                                 | _ => flash_success (session st)
                                 end)
                  /\ seen_by_view res "error_msg"
                     = Some (VFlash match r with
                                    | GetForgotPassword => []
                                    | _ => flash_error (session st)
                                    end)
              | _ => True
              end
       end.
Proof.
  destruct st as [d [u fs fe] fl sa lg].
  destruct body
    as [[username email password newPassword name message title content]|message];
    cbv [server without_flashes].
  2:{ eexists; eexists. split; [reflexivity|]. split; reflexivity. }
  destruct r; cases; eexists; eexists; (split; [reflexivity|]);
    cbn [res_locals res_reply sent session flash_success flash_error];
    (split; [eexists; reflexivity|]); (split; [simpl; lia|]);
    (split; [simpl; auto|]); (split; [simpl; auto|]);
    first [exact I | split; reflexivity].
Qed.

(** X26. No exception leaves a handler: every route answers whatever
    fails at the connection. A 500 from the console is the plain text
    "Server error" (or "Error retrieving messages"), a 500 from the
    public routes is the rendered error page. *)
Theorem errors_never_escape req st :
  exists r st',
    handle req st = (Ok r, st')
    /\ (status r = 500 ->
        if is_admin_route (req_route req)
        then sent r = Send "Server error"
             \/ sent r = Send "Error retrieving messages"
        else exists e, sent r = Render "error" [("message", VStr e)]).
Proof.
  destruct req as [r body]. destruct st as [d [u fs fe] fl sa lg].
  destruct body as [username email password newPassword name message title content].
  destruct r; cbn [req_route is_admin_route requires_admin];
    cbv [handle]; cases; eexists; eexists; (split; [reflexivity|]);
    cbn [status sent]; intros H; try discriminate H;
    first [now left | now right | eexists; reflexivity].
Qed.

(** X27. The public routes spare other people's blogs: a request to a
    route outside [/admin] keeps every blog that is not owned by the
    session's user, for every id in the path and every body. *)
Theorem public_routes_spare_other_blogs r body st b :
  reads_numbers ->
  is_admin_route r = false ->
  In b (blogs (db st)) ->
  (forall a, user (session st) = Some a -> b_user_id b <> i_id a) ->
  In b (blogs (db (snd (app (mkRequest r body) st)))).
Proof.
  destruct st as [d [u fs fe] fl sa lg].
  destruct body as [username email password newPassword name message title content].
  cbn [db session user]. intros Hread Hr Hb Hown.
  assert (Hother : forall a z, u = Some a ->
            pg_integer (PNum (Int (i_id a))) = Some z ->
            (b_user_id b =? z) = false).
  { intros a z -> Hz. apply Hread in Hz. subst z. apply Z.eqb_neq. now apply Hown. }
  destruct r; try discriminate Hr; cases; run;
    cbn [snd db blogs with_blogs with_users]; try assumption;
    try (apply in_or_app; now left);
    match goal with
    | H : pg_integer (PNum (Int (i_id ?a))) = Some ?z |- _ =>
        pose proof (Hother a z eq_refl H) as Hz
    end.
  - apply in_map_fixed; [exact Hb|]. now rewrite Hz, andb_false_r.
  - apply filter_In. split; [exact Hb|]. now rewrite Hz, andb_false_r.
Qed.

(** X28. Roles change only at the console: a request other than user
    promotion, demotion and deletion keeps the id and role of every row
    of [users], in order, and the rows it adds have the role "user". *)
Theorem roles_change_only_by_promotion req st :
  (forall id, req_route req <> PostAdminUsersPromote id) ->
  (forall id, req_route req <> PostAdminUsersDemote id) ->
  (forall id, req_route req <> PostAdminUsersDelete id) ->
  let roles (s : state) := map (fun u => (u_id u, u_role u)) (users (db s)) in
  exists l,
    roles (snd (app req st)) = (roles st ++ l)%list
    /\ Forall (fun x => snd x = "user") l.
Proof.
  destruct req as [r body]. destruct st as [d [u fs fe] fl sa lg].
  destruct body as [username email password newPassword name message title content].
  cbn [req_route]. intros H1 H2 H3. cbv zeta.
  destruct r; try (now contradiction (H1 id)); try (now contradiction (H2 id));
    try (now contradiction (H3 id)); cases; run;
    cbn [snd db users with_blogs with_users];
    first [ exists nil; split; [now rewrite app_nil_r | constructor]
          | rewrite map_app; eexists; split; [reflexivity | repeat constructor]
          | exists nil; split; [|constructor]; rewrite app_nil_r, map_map;
            apply map_ext; intros w;
            repeat match goal with
              | |- context [if ?c then _ else _] => destruct c
              end; reflexivity ].
Qed.

(** X29. The status of a blog changes only by approval: where blog ids
    are unique, after a request other than
    [POST /admin/blogs/approve/:id] every blog has the status that the
    blog with its id had before, and a blog whose id is new has none.  No
    such request sets, replaces or erases a status. *)
Theorem status_changes_only_by_approval req st :
  NoDup (map b_id (blogs (db st))) ->
  (forall id, req_route req <> PostAdminBlogsApprove id) ->
  keeps_statuses (blogs (db st)) (blogs (db (snd (app req st)))).
Proof.
  destruct req as [r body]. destruct st as [d [u fs fe] fl sa lg].
  destruct body as [username email password newPassword name message title content].
  cbn [req_route db]. intros Hnd H1.
  apply keeps_statuses_of; [exact Hnd|].
  destruct r; try (now contradiction (H1 id)); cases; run;
    cbn [snd db blogs with_blogs with_users]; intros b' Hb;
    try (left; exists b'; now auto).
  - apply in_app_iff in Hb. destruct Hb as [Hb | [<- | []]];
      [left; exists b'; now auto | right].
    split; [reflexivity|]. intros b Hb E. cbn [b_id] in E.
    match goal with
    | H : existsb _ (blogs d) = false |- _ =>
        rewrite (proj2 (existsb_exists _ _)) in H; [discriminate H|]
    end.
    exists b. split; [exact Hb | now apply Z.eqb_eq].
  - left. apply in_map_iff in Hb. destruct Hb as [b [E Hb]]. exists b.
    split; [exact Hb|]. destruct ((b_id b =? z) && (b_user_id b =? z0));
      subst b'; auto.
  - left. apply filter_In in Hb. destruct Hb as [Hb _]. exists b'. auto.
  - left. apply filter_In in Hb. destruct Hb as [Hb _]. exists b'. auto.
  - left. apply in_map_iff in Hb. destruct Hb as [b [E Hb]]. exists b.
    split; [exact Hb|]. destruct (b_id b =? z); subst b'; auto.
Qed.

End Invariants.

(** ** The further theorems on the sample store *)

Lemma signup_rejects_bad_input_witness :
  exists locals,
    sample_app (mkRequest PostSignup (signup_form "eve" "eve@example.org" "abc"))
      anonymous
    = (Ok (mkResponse locals (mkReply 302 (Redirect "/signup"))),
       mkState sample_db
         (mkSession None [] ["Password must be at least 6 characters long"])
         [] [] []).
Proof.
  exact (@signup_rejects_bad_input sample_platform
           (signup_form "eve" "eve@example.org" "abc") anonymous eq_refl).
Defined.

Lemma signup_rejects_taken_name_witness :
  In alice (users sample_db)
  /\ exists locals,
      sample_app
        (mkRequest PostSignup (signup_form "alice" "eve@example.org" "secret1"))
        anonymous
      = (Ok (mkResponse locals (mkReply 302 (Redirect "/signup"))),
         mkState sample_db
           (mkSession None [] ["Email or username already exists"]) [] [] 
           [SelectUserIdsByEmailOrUsername (Some "eve@example.org")
              (Some "alice")]).
Proof.
  split; [simpl; tauto|].
  apply (@signup_rejects_taken_name sample_platform
           "alice" "eve@example.org" "secret1" alice anonymous); evident.
Defined.

Lemma signup_creates_user_witness :
  (forall w, In w (users sample_db) ->
     u_email w <> "eve@example.org" /\ u_username w <> "eve" /\ u_id w <> 4)
  /\ exists locals st',
      sample_app
        (mkRequest PostSignup (signup_form "eve" "eve@example.org" "secret1"))
        anonymous
      = (Ok (mkResponse locals (mkReply 302 (Redirect "/"))), st')
      /\ users (db st')
         = [alice; bob; root;
            mkUser 4 "eve" "eve@example.org" (sample_hash "" "secret1") "user"]
      /\ user (session st') = Some (mkIdentity 4 "eve" None None).
Proof.
  assert (Hnew : forall w, In w (users sample_db) ->
            u_email w <> "eve@example.org" /\ u_username w <> "eve"
            /\ u_id w <> 4).
  { intros w [<- | [<- | [<- | []]]]; repeat split; discriminate. }
  split; [exact Hnew|].
  destruct (@signup_creates_user sample_platform
              "eve" "eve@example.org" "secret1" anonymous)
    as [locals [st' [E [Hu [_ [_ [Hs _]]]]]]]; try evident.
  exists locals, st'. split; [exact E|]. split; [exact Hu|].
  now rewrite Hs.
Defined.

Lemma signup_then_login_witness :
  exists locals st',
    sample_app (mkRequest PostLogin (credentials "eve@example.org" "secret1"))
      (another_browser
         (snd (sample_app
                 (mkRequest PostSignup
                    (signup_form "eve" "eve@example.org" "secret1"))
                 anonymous)))
    = (Ok (mkResponse locals (mkReply 302 (Redirect "/"))), st')
    /\ user (session st') = Some (mkIdentity 4 "eve" None None).
Proof.
  apply (@signup_then_login sample_platform
           "eve" "eve@example.org" "secret1" anonymous); try evident.
  intros w [<- | [<- | [<- | []]]]; repeat split; discriminate.
Defined.

Lemma login_binds_identity_witness :
  exists locals,
    sample_app
      (mkRequest PostLogin (credentials "alice@example.org" "wonderland"))
      anonymous
    = (Ok (mkResponse locals (mkReply 302 (Redirect "/"))),
       mkState sample_db
         (mkSession (Some alice_session) ["Welcome back, alice!"] [])
         [] [] [SelectUsersByEmail (Some "alice@example.org")]).
Proof.
  apply (@login_binds_identity sample_platform
           "alice@example.org" "wonderland" alice anonymous); try evident.
  intros w [<- | [<- | [<- | []]]] E; try reflexivity; discriminate E.
Defined.

Lemma login_rejections_witness :
  (exists locals,
      sample_app (mkRequest PostLogin (credentials "alice@example.org" ""))
        anonymous
      = (Ok (mkResponse locals (mkReply 302 (Redirect "/login"))),
         mkState sample_db (mkSession None [] ["All fields are required"])
           [] [] []))
  /\ (exists locals,
      sample_app (mkRequest PostLogin (credentials "eve@example.org" "secret1"))
        anonymous
      = (Ok (mkResponse locals (mkReply 302 (Redirect "/login"))),
         mkState sample_db (mkSession None [] ["User not found"])
           [] [] [SelectUsersByEmail (Some "eve@example.org")])).
Proof.
  split.
  - destruct (@login_rejections sample_platform
                (credentials "alice@example.org" "") anonymous) as [H _].
    exact (H eq_refl).
  - destruct (@login_rejections sample_platform
                (credentials "eve@example.org" "secret1") anonymous) as [_ H].
    apply H; try evident.
    intros w [<- | [<- | [<- | []]]]; discriminate.
Defined.

Lemma forgot_password_overwrites_witness :
  (exists locals st',
      sample_app
        (mkRequest PostForgotPassword (reset_form "bob@example.org" "rebuilt"))
        (as_identity alice_session)
      = (Ok (mkResponse locals (mkReply 302 (Redirect "/login"))), st')
      /\ users (db st')
         = [alice; with_password (sample_hash "" "rebuilt") bob; root])
  /\ (exists locals,
      sample_app
        (mkRequest PostForgotPassword (reset_form "eve@example.org" "rebuilt"))
        anonymous
      = (Ok (mkResponse locals (mkReply 302 (Redirect "/forgot-password"))),
         mkState sample_db
           (mkSession None [] ["No account found with this email"])
           [] [] [SelectUsersByEmail (Some "eve@example.org")])).
Proof.
  split.
  - destruct (@forgot_password_overwrites sample_platform
                "bob@example.org" "rebuilt" (as_identity alice_session))
      as [H _]; try evident.
    destruct H as [locals [st' [E [Hu _]]]]; try evident.
    { exists bob. split; [simpl; tauto | reflexivity]. }
    exists locals, st'. split; [exact E | exact Hu].
  - destruct (@forgot_password_overwrites sample_platform
                "eve@example.org" "rebuilt" anonymous) as [_ H]; try evident.
    apply H. intros w [<- | [<- | [<- | []]]]; discriminate.
Defined.

Lemma forgot_password_then_login_witness :
  exists locals st' w',
    sample_app (mkRequest PostLogin (credentials "bob@example.org" "rebuilt"))
      (another_browser
         (snd (sample_app
                 (mkRequest PostForgotPassword
                    (reset_form "bob@example.org" "rebuilt"))
                 anonymous)))
    = (Ok (mkResponse locals (mkReply 302 (Redirect "/"))), st')
    /\ In w' (users sample_db) /\ u_email w' = "bob@example.org"
    /\ user (session st')
       = Some (mkIdentity (u_id w') (u_username w') None None).
Proof.
  apply (@forgot_password_then_login sample_platform
           "bob@example.org" "rebuilt" bob anonymous); evident.
Defined.

Lemma create_then_view_witness :
  exists locals st',
    sample_app (get (GetView "13"))
      (another_browser
         (snd (sample_app (mkRequest PostCreate (form "Jam" "Tomorrow"))
                 (as_identity alice_session))))
    = (Ok (mkResponse locals
             (mkReply 200
                (Render "viewblog"
                   [("blog",
                     VJoinedBlog
                       (mkBlog 13 1 (Some "Jam") (Some "Tomorrow") None 200,
                        "alice"));
                    ("title", VStr "Jam")]))),
       st').
Proof.
  destruct (@create_then_view sample_platform
              alice_session alice "Jam" "Tomorrow" (as_identity alice_session))
    as [_ [_ [_ H]]]; try evident; try exact H.
  intros b [<- | [<- | [<- | []]]]; discriminate.
Defined.

Lemma dashboard_lists_own_blogs_witness :
  exists locals l st',
    sample_app (get GetDashboard) (as_identity alice_session)
    = (Ok (mkResponse locals
             (mkReply 200
                (Render "dashboard"
                   [("userBlogs", VBlogs l); ("title", VStr "Dashboard")]))),
       st')
    /\ db st' = sample_db
    /\ (forall b, In b l <-> In b (blogs sample_db) /\ b_user_id b = 1).
Proof.
  destruct (@dashboard_lists_own_blogs sample_platform
              alice_session (as_identity alice_session) eq_refl eq_refl eq_refl)
    as [locals [l [st' [E [Hd [Hl _]]]]]].
  exists locals, l, st'. split; [exact E|]. split; [exact Hd | exact Hl].
Defined.

Lemma home_lists_blogs_with_authors_witness :
  exists locals l st',
    sample_app (get GetHome) anonymous
    = (Ok (mkResponse locals
             (mkReply 200
                (Render "index" [("blogs", VJoined l); ("title", VStr "Home")]))),
       st')
    /\ db st' = sample_db
    /\ StronglySorted
         (fun x y => b_created_at (fst y) <= b_created_at (fst x)) l.
Proof.
  destruct (@home_lists_blogs_with_authors sample_platform anonymous eq_refl)
    as [locals [l [st' [E [Hd [_ Hs]]]]]].
  exists locals, l, st'. split; [exact E|]. split; [exact Hd | exact Hs].
Defined.

Lemma edit_form_is_for_the_owner_witness :
  (exists locals st',
      sample_app (get (GetEdit "11")) (as_identity alice_session)
      = (Ok (mkResponse locals
               (mkReply 403
                  (Render "error" [("message", VStr "Not authorized")]))),
         st')
      /\ db st' = sample_db)
  /\ (exists locals b' st',
      sample_app (get (GetEdit "10")) (as_identity alice_session)
      = (Ok (mkResponse locals
               (mkReply 200
                  (Render "edit"
                     [("blog", VBlog b'); ("title", VStr "Edit Blog")]))),
         st')
      /\ In b' (blogs sample_db) /\ b_id b' = 10 /\ b_user_id b' = 1
      /\ db st' = sample_db).
Proof.
  split.
  - destruct (@edit_form_is_for_the_owner sample_platform
                "11" 11 alice_session (as_identity alice_session)
                eq_refl eq_refl eq_refl eq_refl eq_refl) as [H _].
    apply H. intros b [<- | [<- | [<- | []]]] E; discriminate.
  - destruct (@edit_form_is_for_the_owner sample_platform
                "10" 10 alice_session (as_identity alice_session)
                eq_refl eq_refl eq_refl eq_refl eq_refl) as [_ H].
    exact (H (mkBlog 10 1 (Some "Hello") (Some "First post") None 100)
             (or_introl eq_refl) eq_refl eq_refl).
Defined.

Lemma view_of_a_missing_blog_witness :
  exists locals st',
    sample_app (get (GetView "999")) anonymous
    = (Ok (mkResponse locals
             (mkReply 404 (Render "404" [("message", VStr "Blog not found")]))),
       st')
    /\ db st' = sample_db.
Proof.
  apply (@view_of_a_missing_blog sample_platform "999" 999 anonymous);
    try evident.
  intros b u [<- | [<- | [<- | []]]] E; discriminate E.
Defined.

Lemma admin_login_binds_role_witness :
  exists locals,
    sample_app
      (mkRequest PostAdminLogin (credentials "root@example.org" "toor-toor"))
      anonymous
    = (Ok (mkResponse locals (mkReply 302 (Redirect "/admin"))),
       mkState sample_db (mkSession (Some root_session) [] [])
         [] [] [SelectAdminsByEmail (Some "root@example.org")]).
Proof.
  destruct (@admin_login_binds_role sample_platform
              (credentials "root@example.org" "toor-toor") anonymous
              "root@example.org" "toor-toor" root []
              eq_refl eq_refl eq_refl eq_refl eq_refl) as [_ [_ [_ [_ H]]]].
  exact H.
Defined.

Lemma admin_login_rejections_witness :
  let rejected email locals :=
    (Ok (mkResponse locals
           (mkReply 200
              (Render "admin/admin-login"
                 [("layout", VBool false);
                  ("error", VStr "Invalid email or password")]))),
     mkState sample_db (mkSession None [] []) [] [] 
       [SelectAdminsByEmail (Some email)]) in
  (exists locals,
      sample_app
        (mkRequest PostAdminLogin
           (credentials "alice@example.org" "wonderland"))
        anonymous
      = rejected "alice@example.org" locals)
  /\ (exists locals,
      sample_app
        (mkRequest PostAdminLogin (credentials "root@example.org" "guess"))
        anonymous
      = rejected "root@example.org" locals).
Proof.
  split.
  - destruct (@admin_login_rejections sample_platform
                (credentials "alice@example.org" "wonderland") anonymous
                eq_refl) as [H _].
    apply H. intros w [<- | [<- | [<- | []]]] E; discriminate.
  - destruct (@admin_login_rejections sample_platform
                (credentials "root@example.org" "guess") anonymous
                eq_refl) as [_ H].
    exact (H root [] "guess" eq_refl eq_refl eq_refl).
Defined.

Lemma admin_reset_then_login_witness :
  exists locals st' w',
    sample_app (mkRequest PostLogin (credentials "bob@example.org" "123456"))
      (another_browser
         (snd (sample_app (get (PostAdminUsersResetPassword "2"))
                 (as_identity root_session))))
    = (Ok (mkResponse locals (mkReply 302 (Redirect "/"))), st')
    /\ In w' (users sample_db) /\ u_email w' = "bob@example.org"
    /\ user (session st')
       = Some (mkIdentity (u_id w') (u_username w') None None).
Proof.
  destruct (@admin_reset_then_login sample_platform
              "2" 2 bob empty_body (as_identity root_session))
    as [_ H]; try evident; try exact H.
  intros w [<- | [<- | [<- | []]]] E; try reflexivity; discriminate E.
Defined.

Lemma promote_then_demote_witness :
  users (db (snd (sample_app (get (PostAdminUsersPromote "1"))
                    (as_identity root_session))))
  = [with_role "admin" alice; bob; root]
  /\ users (db (snd (sample_app (get (PostAdminUsersDemote "1"))
                       (snd (sample_app (get (PostAdminUsersPromote "1"))
                               (as_identity root_session))))))
     = [alice; bob; root].
Proof.
  destruct (@promote_then_demote sample_platform
              "1" 1 empty_body (as_identity root_session)
              eq_refl eq_refl eq_refl eq_refl) as [_ [_ [H1 [H2 _]]]].
  split; [exact H1 | exact H2].
Defined.

Lemma demotion_does_not_end_the_session_witness :
  let demoted :=
    snd (sample_app (get (PostAdminUsersDemote "3")) (as_identity root_session))
  in
  (forall u, In u (users (db demoted)) -> u_id u = 3 -> u_role u = "user")
  /\ exists locals l st',
      sample_app (get GetAdminUsers) demoted
      = (Ok (mkResponse locals
               (mkReply 200
                  (Render "admin/admin-users"
                     [("layout", VBool false); ("user", VIdentity root_session);
                      ("users", VUsers l)]))),
         st').
Proof.
  exact (@demotion_does_not_end_the_session sample_platform
           "3" root_session empty_body (as_identity root_session)
           eq_refl eq_refl eq_refl eq_refl eq_refl).
Defined.

Lemma logout_ends_the_session_witness :
  (exists locals st',
      sample_app (get GetDashboard)
        (snd (sample_app (get GetLogout) (as_identity alice_session)))
      = (Ok (mkResponse locals (mkReply 302 (Redirect "/login"))), st')
      /\ db st' = sample_db /\ log st' = [])
  /\ (exists locals,
      sample_app (get GetAdminLogout) (as_identity alice_session)
      = (Ok (mkResponse locals (mkReply 302 (Redirect "/admin/login"))),
         as_identity alice_session))
  /\ (exists locals,
      sample_app (get GetAdminLogout) (as_identity root_session)
      = (Ok (mkResponse locals (mkReply 302 (Redirect "/admin/login"))),
         anonymous)).
Proof.
  destruct (@logout_ends_the_session sample_platform (as_identity alice_session))
    as [_ [H1 [H2 _]]].
  destruct (@logout_ends_the_session sample_platform (as_identity root_session))
    as [_ [_ [_ H3]]].
  split; [exact (H1 GetDashboard empty_body eq_refl)|].
  split; [exact (H2 eq_refl) | exact (H3 eq_refl)].
Defined.

Lemma admin_deletes_any_blog_witness :
  exists locals st',
    sample_app (get (PostAdminBlogsDelete "11")) (as_identity root_session)
    = (Ok (mkResponse locals (mkReply 302 (Redirect "/admin/blogs"))), st')
    /\ (forall b, In b (blogs (db st')) <-> In b (blogs sample_db) /\ b_id b <> 11)
    /\ users (db st') = users sample_db
    /\ contact_messages (db st') = contact_messages sample_db.
Proof.
  exact (@admin_deletes_any_blog sample_platform
           "11" 11 empty_body (as_identity root_session)
           eq_refl eq_refl eq_refl).
Defined.

Lemma admin_deletes_plain_user_witness :
  (exists locals st',
      sample_app (get (PostAdminUsersDelete "99")) quiet_console
      = (Ok (mkResponse locals (mkReply 404 (Send "User not found"))), st')
      /\ db st' = quiet_db)
  /\ (exists locals st',
      sample_app (get (PostAdminUsersDelete "2")) quiet_console
      = (Ok (mkResponse locals (mkReply 302 (Redirect "/admin/users"))), st')
      /\ (forall w, In w (users (db st')) <-> In w (users quiet_db) /\ w <> bob)
      /\ blogs (db st') = blogs quiet_db).
Proof.
  split.
  - destruct (@admin_deletes_plain_user sample_platform
                "99" 99 empty_body quiet_console eq_refl eq_refl eq_refl)
      as [H _].
    apply H. intros u [<- | [<- | [<- | []]]]; discriminate.
  - destruct (@admin_deletes_plain_user sample_platform
                "2" 2 empty_body quiet_console eq_refl eq_refl eq_refl)
      as [_ H].
    apply (H bob); try evident.
    intros b [<- | []]; discriminate.
Defined.

Lemma only_redirects_follow_writes_witness :
  exists res st',
    sample_app (get (GetView "abc")) anonymous = (Ok res, st')
    /\ status (res_reply res) = 400
    /\ db st' = sample_db.
Proof.
  eexists; eexists. split; [reflexivity|]. split; [reflexivity|].
  apply (@only_redirects_follow_writes sample_platform
           (get (GetView "abc")) anonymous _ _ eq_refl); discriminate.
Defined.

Lemma get_requests_change_nothing_witness :
  db (snd (sample_app (get GetLogout) (as_identity alice_session))) = sample_db.
Proof.
  exact (@get_requests_change_nothing sample_platform
           GetLogout empty_body (as_identity alice_session) eq_refl).
Defined.

Lemma contact_messages_only_grow_witness :
  contact_messages
    (db (snd (sample_app
                (mkRequest PostSignup
                   (signup_form "eve" "eve@example.org" "secret1"))
                anonymous)))
  = contact_messages sample_db.
Proof.
  destruct (@contact_messages_only_grow sample_platform
              (mkRequest PostSignup
                 (signup_form "eve" "eve@example.org" "secret1"))
              anonymous) as [H _].
  apply H. discriminate.
Defined.

Lemma flashes_are_consumed_by_the_next_request_witness :
  (exists res st',
      sample_server GetForgotPassword (Parsed empty_body) flashed = (Ok res, st')
      /\ session st' = fresh_session
      /\ In ("success_msg", VFlash ["Saved"]) (res_locals res)
      /\ seen_by_view res "success_msg" = Some (VFlash [])
      /\ seen_by_view res "error_msg" = Some (VFlash []))
  /\ (exists res st',
      sample_server GetLogin (Parsed empty_body) flashed = (Ok res, st')
      /\ session st' = fresh_session
      /\ seen_by_view res "success_msg" = Some (VFlash ["Saved"])
      /\ seen_by_view res "error_msg" = Some (VFlash ["Oops"])).
Proof.
  split.
  - destruct (@flashes_are_consumed_by_the_next_request sample_platform
                GetForgotPassword (Parsed empty_body) flashed)
      as [res [st' [E [_ [_ [H3 [_ H5]]]]]]].
    exists res, st'. split; [exact E|].
    vm_compute in E. injection E as <- <-.
    split; [reflexivity|]. split; [exact H3|]. exact H5.
  - destruct (@flashes_are_consumed_by_the_next_request sample_platform
                GetLogin (Parsed empty_body) flashed)
      as [res [st' [E [_ [_ [_ [_ H5]]]]]]].
    exists res, st'. split; [exact E|].
    vm_compute in E. injection E as <- <-.
    split; [reflexivity|]. exact H5.
Defined.

Lemma public_routes_spare_other_blogs_witness :
  In (mkBlog 11 2 (Some "Bricks") (Some "On walls") (Some "approved") 101)
    (blogs (db (snd (sample_app (get (PostDelete "11"))
                       (as_identity alice_session))))).
Proof.
  apply (@public_routes_spare_other_blogs sample_platform
           (PostDelete "11") empty_body (as_identity alice_session));
    try evident.
  intros a E. injection E as <-. discriminate.
Defined.

Lemma roles_change_only_by_promotion_witness :
  exists l,
    map (fun u => (u_id u, u_role u))
      (users (db (snd (sample_app
                         (mkRequest PostSignup
                            (signup_form "eve" "eve@example.org" "secret1"))
                         anonymous))))
    = (map (fun u => (u_id u, u_role u)) (users sample_db) ++ l)%list
    /\ Forall (fun x => snd x = "user") l.
Proof.
  apply (@roles_change_only_by_promotion sample_platform
           (mkRequest PostSignup (signup_form "eve" "eve@example.org" "secret1"))
           anonymous); discriminate.
Defined.

Lemma status_changes_only_by_approval_witness :
  let edited :=
    blogs (db (snd (sample_app (mkRequest (PostEdit "11") (form "Walls" "Again"))
                      (as_identity bob_session)))) in
  NoDup (map b_id (blogs sample_db))
  /\ In (mkBlog 11 2 (Some "Walls") (Some "Again") (Some "approved") 101) edited
  /\ keeps_statuses (blogs sample_db) edited.
Proof.
  split; [exact sample_blog_ids_differ|]. split; [simpl; tauto|].
  apply (@status_changes_only_by_approval sample_platform
           (mkRequest (PostEdit "11") (form "Walls" "Again"))
           (as_identity bob_session) sample_blog_ids_differ).
  discriminate.
Defined.
